(** * pypowsybl: the native side of the Python bindings (cpp/src/bindings.cpp)

    A shallow embedding of the dataframe exchange code of bindings.cpp:
    [deleteDataframe], [createDataframe], [createDataframeArray],
    [createElement], [seriesAsNumpyArray], the [name], [index] and [data]
    properties of [Series], [initLoadFlowParameters], the properties of
    [LoadFlowParameters] and the buffer of [Matrix].

    The C++ free store is an explicit heap threaded through a small
    state-and-error monad.  Every cell remembers which allocation function
    produced it ([malloc], [new] or [new[]]); a heap address is never handed
    out twice, so a dangling pointer stays recognisable.  A C++ exception is
    the outcome [Throw]; behaviour the C++ standard leaves undefined is the
    outcome [Fault].

    Sizes: a [std::vector] is a list and its [size()] a [nat]; the [int]
    fields that hold such a size hold it as a [Z] (vectors of more than
    [INT_MAX] elements are outside the model).  The free store is never
    exhausted: no allocation throws [std::bad_alloc]. *)

From Stdlib Require Import ZArith String Ascii DecimalString Lia.
From stdpp Require Import base option list strings.

Open Scope Z_scope.

(** ** Data model *)

(** A native pointer: null, or the address of a heap cell. *)
Inductive pointer :=
  | Null
  | Ptr (l : nat).

(** A [double], by the 64 bits of its encoding. *)
Definition float64 := Z.

(** Modelled from the spec: the structs of pypowsybl.h, which is not part of
    the sources at hand, with the fields bindings.cpp reads and writes
    ([array]: [ptr], [length]; [series]: [name], [index], [type], [data];
    [dataframe]: [series], [series_count]; [dataframe_array]: [dataframes],
    [dataframes_count]). *)
Record array := Array {
  array_ptr : pointer;
  array_length : Z
}.

Record series := Series {
  series_name : pointer;
  series_index : Z;
  series_type : Z;
  series_data : array
}.

Record dataframe := Dataframe {
  df_series : pointer;
  df_series_count : Z
}.

Record dataframe_array := DataframeArray {
  dataframes : pointer;
  dataframes_count : Z
}.

(** Modelled from the spec: [load_flow_parameters] of pypowsybl.h, with the
    scalar fields and the one string-list field that
    [initLoadFlowParameters] copies. *)
Record load_flow_parameters := LoadFlowParameters {
  voltage_init_mode : Z;
  transformer_voltage_control_on : Z;
  no_generator_reactive_limits : Z;
  phase_shifter_regulation_on : Z;
  twt_split_shunt_admittance : Z;
  simul_shunt : Z;
  read_slack_bus : Z;
  write_slack_bus : Z;
  distributed_slack : Z;
  balance_type : Z;
  dc_use_transformer_ratio : Z;
  countries_to_balance : pointer;
  countries_to_balance_count : Z;
  connected_component_mode : Z
}.

(** ** The free store *)

(** Which allocation function produced a cell, and which deallocation
    function is applied to it: [malloc]/[free] ([strdup] allocates with
    [malloc]), [new]/[delete], [new[]]/[delete[]]. *)
Inductive alloc_kind :=
  | Malloc
  | New
  | NewArr.

Global Instance alloc_kind_eq_dec : EqDecision alloc_kind.
Proof. solve_decision. Defined.

(** What a cell holds: one object or one array, by its C++ type. *)
Inductive block :=
  | BChars (chars : string)
  | BCharPtrs (ptrs : list pointer)
  | BDoubles (ds : list float64)
  | BInts (zs : list Z)
  | BSeriesArr (cols : list series)
  | BDataframe (df : dataframe)
  | BDataframes (dfs : list dataframe)
  | BDataframeArray (a : dataframe_array)
  | BParameters (p : load_flow_parameters).

Record cell := Cell {
  cell_kind : alloc_kind;
  cell_content : block
}.

(** The heap: the cell at address [l] is the [l]-th entry; [None] marks a
    cell that was released. *)
Abbreviation heap := (list (option cell)).

Inductive exn :=
  | PyPowsyblError (msg : string)
  | cast_error
  | index_error
  | unicode_decode_error
  | length_error.

Inductive fault :=
  | NullDereference
  | InvalidAccess (l : nat)
  | InvalidFree (l : nat)
  | AllocDeallocMismatch (l : nat) (allocated_by released_by : alloc_kind)
  | BadCast (p : pointer)
  | OutOfBounds
  | Terminate.

Inductive outcome (A : Type) :=
  | Ok (a : A) (h : heap)
  | Throw (e : exn) (h : heap)
  | Fault (f : fault).
Arguments Ok {A} a h.
Arguments Throw {A} e h.
Arguments Fault {A} f.

Definition M (A : Type) : Type := heap → outcome A.

Definition ret {A} (a : A) : M A := λ h, Ok a h.

Definition bind {A B} (m : M A) (k : A → M B) : M B := λ h,
  match m h with
  | Ok a h' => k a h'
  | Throw e h' => Throw e h'
  | Fault f => Fault f
  end.

Definition throw {A} (e : exn) : M A := λ h, Throw e h.
Definition undefined {A} (f : fault) : M A := λ _, Fault f.

Declare Scope cpp_scope.
Delimit Scope cpp_scope with cpp.
Notation "x ← m ; k" := (bind m (λ x, k))
  (at level 20, m at level 100, k at level 200, only parsing) : cpp_scope.
Notation "m ;; k" := (bind m (λ _, k))
  (at level 100, k at level 200, only parsing, right associativity) : cpp_scope.
Open Scope cpp_scope.

(** Stack unwinding past a [std::shared_ptr] with a custom deleter: when
    [body] throws, the deleter runs and the exception goes on. *)
Definition unwinding {A} (deleter : M unit) (body : M A) : M A := λ h,
  match body h with
  | Throw e h' =>
      match deleter h' with
      | Ok _ h'' => Throw e h''
      | Throw _ _ => Fault Terminate
      | Fault f => Fault f
      end
  | r => r
  end.

(** A [for] loop over the indices in [l]. *)
Fixpoint for_each {A} (l : list A) (body : A → M unit) : M unit :=
  match l with
  | [] => ret ()
  | x :: l' => body x;; for_each l' body
  end.

(** [for (int indice = 0; indice < n; indice++)]. *)
Definition for_loop (n : nat) (body : nat → M unit) : M unit :=
  for_each (seq 0 n) body.

Definition alloc (k : alloc_kind) (b : block) : M pointer := λ h,
  Ok (Ptr (List.length h)) (h ++ [Some (Cell k b)]).

Definition load (p : pointer) : M block := λ h,
  match p with
  | Null => Fault NullDereference
  | Ptr l =>
      match h !! l with
      | Some (Some c) => Ok (cell_content c) h
      | _ => Fault (InvalidAccess l)
      end
  end.

Definition store (p : pointer) (b : block) : M unit := λ h,
  match p with
  | Null => Fault NullDereference
  | Ptr l =>
      match h !! l with
      | Some (Some c) => Ok () (<[l := Some (Cell (cell_kind c) b)]> h)
      | _ => Fault (InvalidAccess l)
      end
  end.

(** The runtime the code is linked against: which deallocation functions it
    lets release the cells of which allocation function (the matching one
    always), and what it leaves in storage that [new T[n]] does not
    initialise. *)
Class Runtime := {
  dealloc_accepts : alloc_kind → alloc_kind → bool;
  dealloc_accepts_matching : ∀ k, dealloc_accepts k k = true;
  indeterminate_series : nat → series;
  indeterminate_dataframe : nat → dataframe
}.

(** [free], [delete] and [delete[]] by [how], of a pointer whose static type
    is described by [is_T].  Releasing the null pointer does nothing. *)
Definition dealloc `{RT : Runtime} (how : alloc_kind) (is_T : block → bool)
    (p : pointer) : M unit := λ h,
  match p with
  | Null => Ok () h
  | Ptr l =>
      match h !! l with
      | Some (Some c) =>
          if negb (dealloc_accepts (cell_kind c) how)
          then Fault (AllocDeallocMismatch l (cell_kind c) how)
          else if is_T (cell_content c)
          then Ok () (<[l := None]> h)
          else Fault (BadCast (Ptr l))
      | _ => Fault (InvalidFree l)
      end
  end.

Definition is_chars (b : block) : bool :=
  match b with BChars _ => true | _ => false end.
Definition is_char_ptrs (b : block) : bool :=
  match b with BCharPtrs _ => true | _ => false end.
Definition is_doubles (b : block) : bool :=
  match b with BDoubles _ => true | _ => false end.
Definition is_ints (b : block) : bool :=
  match b with BInts _ => true | _ => false end.
Definition is_series_arr (b : block) : bool :=
  match b with BSeriesArr _ => true | _ => false end.
Definition is_dataframe (b : block) : bool :=
  match b with BDataframe _ => true | _ => false end.
Definition is_dataframes (b : block) : bool :=
  match b with BDataframes _ => true | _ => false end.
Definition is_dataframe_array (b : block) : bool :=
  match b with BDataframeArray _ => true | _ => false end.
Definition is_parameters (b : block) : bool :=
  match b with BParameters _ => true | _ => false end.

(** ** C strings and the standard containers *)

Definition NUL : ascii := Ascii.zero.

(** [std::string::c_str()]: the characters followed by the terminator. *)
Definition c_str (s : string) : string := s +:+ String NUL EmptyString.

(** The C string that starts a [char] array: the characters before the
    first terminator; [None] when the array holds no terminator. *)
Fixpoint read_c_str (chars : string) : option string :=
  match chars with
  | EmptyString => None
  | String c rest =>
      if Ascii.eqb c NUL then Some EmptyString
      else String c <$> read_c_str rest
  end.

(** The part of a [std::string] before its first NUL character. *)
Fixpoint until_NUL (s : string) : string :=
  match s with
  | EmptyString => EmptyString
  | String c rest =>
      if Ascii.eqb c NUL then EmptyString else String c (until_NUL rest)
  end.

(** A string without NUL character. *)
Fixpoint NUL_free (s : string) : bool :=
  match s with
  | EmptyString => true
  | String c rest => negb (Ascii.eqb c NUL) && NUL_free rest
  end.

(** [strdup] of the C string in [chars]. *)
Definition strdup (chars : string) : M pointer :=
  match read_c_str chars with
  | Some s => alloc Malloc (BChars (c_str s))
  | None => undefined OutOfBounds
  end.

(** [std::string(const char* p)]. *)
Definition string_of_char_ptr (p : pointer) : M string :=
  b ← load p;
  match b with
  | BChars chars =>
      match read_c_str chars with
      | Some s => ret s
      | None => undefined OutOfBounds
      end
  | _ => undefined (BadCast p)
  end.

(** [v[i]] on a [std::vector]: not range-checked. *)
Definition vector_at {A} (v : list A) (i : nat) : M A :=
  match v !! i with
  | Some x => ret x
  | None => undefined OutOfBounds
  end.

Fixpoint map_M {A B} (f : A → M B) (l : list A) : M (list B) :=
  match l with
  | [] => ret []
  | x :: l' => y ← f x; ys ← map_M f l'; ret (y :: ys)
  end.

(** [p[i]] on a [char** p]. *)
Definition char_ptr_at (p : pointer) (i : nat) : M pointer :=
  b ← load p;
  match b with
  | BCharPtrs ptrs => vector_at ptrs i
  | _ => undefined (BadCast p)
  end.

(** The strings behind the first [n] pointers of a [char** p]. *)
Definition strings_behind (p : pointer) (n : nat) : M (list string) :=
  map_M (λ i, q ← char_ptr_at p i; string_of_char_ptr q) (seq 0 n).

(** [std::vector<std::string>(p, p + count)] on a [char** p]: on a negative
    count the constructor throws [std::length_error]. *)
Definition vector_of_char_ptrs (p : pointer) (count : Z) : M (list string) :=
  if decide (count < 0) then throw length_error
  else strings_behind p (Z.to_nat count).

(** ** Python strings *)

(** A [std::string] holds bytes; a Python [str] holds text.  pybind11 makes
    a [str] of a [std::string], and of a [char*], with the strict UTF-8
    decoder of Python, and throws when the bytes are no well-formed
    UTF-8. *)
Definition byte (c : ascii) : Z := Z.of_N (N_of_ascii c).

(** After the first byte [c] of a character, the ranges that the bytes to
    follow must be in: no overlong form, no surrogate, nothing above
    U+10FFFF; [None] for a byte that starts no character. *)
Definition utf8_continuation (c : ascii) : option (list (Z * Z)) :=
  let b := byte c in
  if b <=? 0x7F then Some []
  else if b <? 0xC2 then None
  else if b <=? 0xDF then Some [(0x80, 0xBF)]
  else if b =? 0xE0 then Some [(0xA0, 0xBF); (0x80, 0xBF)]
  else if b =? 0xED then Some [(0x80, 0x9F); (0x80, 0xBF)]
  else if b <=? 0xEF then Some [(0x80, 0xBF); (0x80, 0xBF)]
  else if b =? 0xF0 then Some [(0x90, 0xBF); (0x80, 0xBF); (0x80, 0xBF)]
  else if b <=? 0xF3 then Some [(0x80, 0xBF); (0x80, 0xBF); (0x80, 0xBF)]
  else if b =? 0xF4 then Some [(0x80, 0x8F); (0x80, 0xBF); (0x80, 0xBF)]
  else None.

(** The bytes [s] are well-formed UTF-8, once the bytes that [pending]
    asks for have come. *)
Fixpoint utf8_from (pending : list (Z * Z)) (s : string) : bool :=
  match s with
  | EmptyString => match pending with [] => true | _ => false end
  | String c rest =>
      match pending with
      | (lo, hi) :: pending' =>
          (lo <=? byte c) && (byte c <=? hi) && utf8_from pending' rest
      | [] =>
          match utf8_continuation c with
          | Some pending' => utf8_from pending' rest
          | None => false
          end
      end
  end.

Definition valid_utf8 (s : string) : bool := utf8_from [] s.

(** [py::str(s)] on a [std::string s], the conversion of a [std::string]
    and of a [char*] to a Python [str], and the conversion of the [str]
    back to a [std::string], which gives the bytes that were decoded. *)
Definition py_str (s : string) : M string :=
  if valid_utf8 s then ret s else throw unicode_decode_error.

(** [p->field] on a [dataframe* p], and [p + indice] on a [series* p]. *)
Definition load_dataframe (p : pointer) : M dataframe :=
  b ← load p;
  match b with
  | BDataframe df => ret df
  | _ => undefined (BadCast p)
  end.

Definition load_series (p : pointer) (indice : nat) : M series :=
  b ← load p;
  match b with
  | BSeriesArr cols => vector_at cols indice
  | _ => undefined (BadCast p)
  end.

(** ** The helpers of pypowsybl.cpp *)

(** Modelled from the spec: [pypowsybl::copyVectorStringToCharPtrPtr], which
    is defined in pypowsybl.cpp.  "For each input string, allocate an owned
    null-terminated copy; assemble an array of these pointers." *)
Definition copyVectorStringToCharPtrPtr (strings : list string) : M pointer :=
  ptrs ← map_M (λ s, alloc NewArr (BChars (c_str s))) strings;
  alloc NewArr (BCharPtrs ptrs).

(** Modelled from the spec: [pypowsybl::copyVectorDouble] and
    [pypowsybl::copyVectorInt] of pypowsybl.cpp.  "Allocate a flat array of
    the primitive type; copy values verbatim." *)
Definition copyVectorDouble (values : list float64) : M pointer :=
  alloc NewArr (BDoubles values).

Definition copyVectorInt (values : list Z) : M pointer :=
  alloc NewArr (BInts values).

(** Modelled from the spec: [pypowsybl::toVector<std::string>] of
    pypowsybl.h.  "The consumer receives a freshly materialized managed
    sequence of copied strings." *)
Definition toVector_string (a : array) : M (list string) :=
  strings_behind (array_ptr a) (Z.to_nat (array_length a)).

Section bindings.
Context `{RT : Runtime}.

(** Modelled from the spec: [pypowsybl::deleteCharPtrPtr] of pypowsybl.cpp.
    "Free every individual string then the pointer array." *)
Definition deleteCharPtrPtr (charPtrPtr : pointer) (length : Z) : M unit :=
  for_loop (Z.to_nat length) (λ i,
    q ← char_ptr_at charPtrPtr i;
    dealloc NewArr is_chars q);;
  dealloc NewArr is_char_ptrs charPtrPtr.

(** ** bindings.cpp *)

(** The body of the loop of [deleteDataframe], lines 28-35, on the column
    [*column]. *)
Definition deleteDataframe_column (column : series) : M unit :=
  (if decide (series_type column = 0) then
     deleteCharPtrPtr (array_ptr (series_data column))
                      (array_length (series_data column))
   else if decide (series_type column = 1) then
     dealloc NewArr is_doubles (array_ptr (series_data column))
   else if decide (series_type column = 2 ∨ series_type column = 3) then
     dealloc NewArr is_ints (array_ptr (series_data column))
   else ret ());;
  dealloc NewArr is_chars (series_name column).

(** [deleteDataframe], lines 25-39. *)
Definition deleteDataframe (df : pointer) : M unit :=
  hdr ← load_dataframe df;
  for_loop (Z.to_nat (df_series_count hdr)) (λ indice,
    column ← load_series (df_series hdr) indice;
    deleteDataframe_column column);;
  hdr' ← load_dataframe df;
  dealloc NewArr is_series_arr (df_series hdr');;
  dealloc New is_dataframe df.

(** [column->field = v] on [series* column = columns + indice]. *)
Definition set_series (columns : pointer) (indice : nat)
    (f : series → series) : M unit :=
  b ← load columns;
  match b with
  | BSeriesArr cols =>
      match cols !! indice with
      | Some c => store columns (BSeriesArr (<[indice := f c]> cols))
      | None => undefined OutOfBounds
      end
  | _ => undefined (BadCast columns)
  end.

Definition with_name (p : pointer) (c : series) : series :=
  Series p (series_index c) (series_type c) (series_data c).
Definition with_index (i : Z) (c : series) : series :=
  Series (series_name c) i (series_type c) (series_data c).
Definition with_type (t : Z) (c : series) : series :=
  Series (series_name c) (series_index c) t (series_data c).
Definition with_data_length (n : Z) (c : series) : series :=
  Series (series_name c) (series_index c) (series_type c)
         (Array (array_ptr (series_data c)) n).
Definition with_data_ptr (p : pointer) (c : series) : series :=
  Series (series_name c) (series_index c) (series_type c)
         (Array p (array_length (series_data c))).

(** [dataframe->field = v]. *)
Definition set_dataframe (p : pointer) (f : dataframe → dataframe) : M unit :=
  df ← load_dataframe p;
  store p (BDataframe (f df)).

Definition with_series_count (n : Z) (df : dataframe) : dataframe :=
  Dataframe (df_series df) n.
Definition with_series (p : pointer) (df : dataframe) : dataframe :=
  Dataframe p (df_series_count df).

(** pybind11's conversions of a Python object to a [std::vector]: [None]
    when pybind11 throws [py::cast_error]. *)
Class Pybind11 (pyobj : Type) := {
  cast_vector_string : pyobj → option (list string);
  cast_vector_double : pyobj → option (list float64);
  cast_vector_int : pyobj → option (list Z)
}.

Context {pyobj : Type} `{PY : Pybind11 pyobj}.

(** [py::cast<T>(columnsValues[indice])] on a [py::list]: the item access
    is range-checked by Python. *)
Definition cast_item {T} (cast : pyobj → option T)
    (columnsValues : list pyobj) (indice : nat) : M T :=
  match columnsValues !! indice with
  | None => throw index_error
  | Some o =>
      match cast o with
      | Some v => ret v
      | None => throw cast_error
      end
  end.

(** The body of the loop of [createDataframe], lines 46-64, on
    [series* column = columns + indice].  The conversion of a name to
    [py::str], line 47, throws on a name that is no well-formed UTF-8. *)
Definition createDataframe_column (columns : pointer)
    (columnsValues : list pyobj) (columnsNames : list string)
    (columnsTypes : list Z) (isIndex : list bool) (indice : nat) : M unit :=
  name ← vector_at columnsNames indice;
  name ← py_str name;
  p ← strdup (c_str name);
  set_series columns indice (with_name p);;
  b ← vector_at isIndex indice;
  set_series columns indice (with_index (Z.b2z b));;
  type ← vector_at columnsTypes indice;
  set_series columns indice (with_type type);;
  if decide (type = 0) then
    values ← cast_item cast_vector_string columnsValues indice;
    set_series columns indice
      (with_data_length (Z.of_nat (List.length values)));;
    p ← copyVectorStringToCharPtrPtr values;
    set_series columns indice (with_data_ptr p)
  else if decide (type = 1) then
    values ← cast_item cast_vector_double columnsValues indice;
    set_series columns indice
      (with_data_length (Z.of_nat (List.length values)));;
    p ← copyVectorDouble values;
    set_series columns indice (with_data_ptr p)
  else if decide (type = 2 ∨ type = 3) then
    values ← cast_item cast_vector_int columnsValues indice;
    set_series columns indice
      (with_data_length (Z.of_nat (List.length values)));;
    p ← copyVectorInt values;
    set_series columns indice (with_data_ptr p)
  else ret ().

(** [createDataframe], lines 41-69. *)
Definition createDataframe (columnsValues : list pyobj)
    (columnsNames : list string) (columnsTypes : list Z)
    (isIndex : list bool) : M pointer :=
  let columnsNumber := List.length columnsNames in
  dataframe ← alloc New (BDataframe (Dataframe Null 0));
  unwinding (deleteDataframe dataframe) (
    columns ← alloc NewArr
      (BSeriesArr (indeterminate_series <$> seq 0 columnsNumber));
    for_loop columnsNumber
      (createDataframe_column columns columnsValues columnsNames
                              columnsTypes isIndex);;
    set_dataframe dataframe (with_series_count (Z.of_nat columnsNumber));;
    set_dataframe dataframe (with_series columns);;
    ret dataframe).

(** [dataframeArray->field = v], and [dataframesFinal[indice] = df]. *)
Definition load_dataframe_array (p : pointer) : M dataframe_array :=
  b ← load p;
  match b with
  | BDataframeArray a => ret a
  | _ => undefined (BadCast p)
  end.

Definition set_dataframe_array (p : pointer)
    (f : dataframe_array → dataframe_array) : M unit :=
  a ← load_dataframe_array p;
  store p (BDataframeArray (f a)).

Definition with_dataframes (p : pointer) (a : dataframe_array) :=
  DataframeArray p (dataframes_count a).
Definition with_dataframes_count (n : Z) (a : dataframe_array) :=
  DataframeArray (dataframes a) n.

Definition set_dataframe_at (dataframesFinal : pointer) (indice : nat)
    (df : dataframe) : M unit :=
  b ← load dataframesFinal;
  match b with
  | BDataframes dfs =>
      if decide (indice < List.length dfs)%nat
      then store dataframesFinal (BDataframes (<[indice := df]> dfs))
      else undefined OutOfBounds
  | _ => undefined (BadCast dataframesFinal)
  end.

(** The deleter of the [std::shared_ptr] that [createDataframeArray]
    returns, lines 72-75. *)
Definition dataframeArray_deleter (dataframeToDestroy : pointer) : M unit :=
  a ← load_dataframe_array dataframeToDestroy;
  dealloc NewArr is_dataframes (dataframes a);;
  dealloc New is_dataframe_array dataframeToDestroy.

(** [createDataframeArray], lines 71-83. *)
Definition createDataframeArray (dataframes : list pointer) : M pointer :=
  dataframeArray ← alloc New (BDataframeArray (DataframeArray Null 0));
  unwinding (dataframeArray_deleter dataframeArray) (
    dataframesFinal ← alloc NewArr
      (BDataframes (indeterminate_dataframe <$> seq 0 (List.length dataframes)));
    for_loop (List.length dataframes) (λ indice,
      p ← vector_at dataframes indice;
      df ← load_dataframe p;
      set_dataframe_at dataframesFinal indice df);;
    set_dataframe_array dataframeArray (with_dataframes dataframesFinal);;
    set_dataframe_array dataframeArray
      (with_dataframes_count (Z.of_nat (List.length dataframes)));;
    ret dataframeArray).

End bindings.

(** ** The [Series] class: the [data] property *)

Inductive dtype :=
  | dtype_double
  | dtype_int
  | dtype_bool.

(** A [py::array] built on foreign memory: item type, item count, the data
    pointer it reads through, and the Python object it holds as its base. *)
Record ndarray := NdArray {
  arr_dtype : dtype;
  arr_shape : Z;
  arr_data : pointer;
  arr_base : series
}.

Inductive pyvalue :=
  | PyStrList (l : list string)
  | PyArray (a : ndarray).

(** [std::to_string(int)]. *)
Definition to_string (z : Z) : string := NilZero.string_of_int (Z.to_int z).

(** [seriesAsNumpyArray<T>], lines 90-94. *)
Definition seriesAsNumpyArray (T : dtype) (s : series) : ndarray :=
  NdArray T (array_length (series_data s)) (array_ptr (series_data s)) s.

(** The [data] property of [Series], lines 504-517.  The [py::cast] of
    line 507 makes a Python [str] of each string, in order. *)
Definition Series_data (s : series) : M pyvalue :=
  match series_type s with
  | 0 => l ← toVector_string (series_data s);
         l ← map_M py_str l;
         ret (PyStrList l)
  | 1 => ret (PyArray (seriesAsNumpyArray dtype_double s))
  | 2 => ret (PyArray (seriesAsNumpyArray dtype_int s))
  | 3 => ret (PyArray (seriesAsNumpyArray dtype_bool s))
  | _ => throw (PyPowsyblError
                  ("Series type not supported: " +:+ to_string (series_type s)))
  end.

(** *** What the consumer reads *)

Inductive scalar :=
  | Str (s : string)
  | Float (d : float64)
  | Int (z : Z)
  | Bool (b : bool).

(** The bytes of an [int] and of a [double] in memory, lowest first. *)
Definition int_bytes (z : Z) : list Z :=
  [z mod 256; (z / 256) mod 256; (z / 65536) mod 256; (z / 16777216) mod 256].

Definition double_bytes (d : float64) : list Z :=
  int_bytes d ++ int_bytes (d / 4294967296).

Definition block_bytes (b : block) : option (list Z) :=
  match b with
  | BInts zs => Some (zs ≫= int_bytes)
  | BDoubles ds => Some (ds ≫= double_bytes)
  | _ => None
  end.

Definition first_items {A} (n : nat) (l : list A) : M (list A) :=
  if decide (n ≤ List.length l)%nat then ret (take n l)
  else undefined OutOfBounds.

(** The items of an array, as numpy reads them through the data pointer:
    [arr_shape] items of the width of [arr_dtype].  An array of [bool]
    items reads one byte per item. *)
Definition ndarray_items (a : ndarray) : M (list scalar) :=
  if decide (Z.to_nat (arr_shape a) = 0%nat) then ret [] else
  b ← load (arr_data a);
  match arr_dtype a, b with
  | dtype_double, BDoubles ds => first_items (Z.to_nat (arr_shape a)) (Float <$> ds)
  | dtype_int, BInts zs => first_items (Z.to_nat (arr_shape a)) (Int <$> zs)
  | dtype_bool, _ =>
      match block_bytes b with
      | Some bytes =>
          first_items (Z.to_nat (arr_shape a))
                      ((λ x, Bool (negb (x =? 0))) <$> bytes)
      | None => undefined (BadCast (arr_data a))
      end
  | _, _ => undefined (BadCast (arr_data a))
  end.

(** The items of the value that the [data] property returned.  A Python
    list of [str] holds its items itself. *)
Definition python_items (v : pyvalue) : M (list scalar) :=
  match v with
  | PyStrList l => ret (Str <$> l)
  | PyArray a => ndarray_items a
  end.

(** Column [indice] of the table at [df], its [data] property, and the
    items the consumer reads from it. *)
Definition column_at (df : pointer) (indice : nat) : M series :=
  hdr ← load_dataframe df;
  load_series (df_series hdr) indice.

Definition column_data (df : pointer) (indice : nat) : M pyvalue :=
  column ← column_at df indice;
  Series_data column.

Definition read_column (df : pointer) (indice : nat) : M (list scalar) :=
  v ← column_data df indice;
  python_items v.

(** ** Load flow parameters *)

Definition load_parameters (p : pointer) : M load_flow_parameters :=
  b ← load p;
  match b with
  | BParameters c => ret c
  | _ => undefined (BadCast p)
  end.

(** [p->field = v] on a [load_flow_parameters* p]. *)
Definition set_parameters (p : pointer)
    (f : load_flow_parameters → load_flow_parameters) : M unit :=
  c ← load_parameters p;
  store p (BParameters (f c)).

Definition with_voltage_init_mode (v : Z)
    (p : load_flow_parameters) : load_flow_parameters :=
  LoadFlowParameters
    v
    (transformer_voltage_control_on p)
    (no_generator_reactive_limits p)
    (phase_shifter_regulation_on p)
    (twt_split_shunt_admittance p)
    (simul_shunt p)
    (read_slack_bus p)
    (write_slack_bus p)
    (distributed_slack p)
    (balance_type p)
    (dc_use_transformer_ratio p)
    (countries_to_balance p)
    (countries_to_balance_count p)
    (connected_component_mode p).

Definition with_transformer_voltage_control_on (v : Z)
    (p : load_flow_parameters) : load_flow_parameters :=
  LoadFlowParameters
    (voltage_init_mode p)
    v
    (no_generator_reactive_limits p)
    (phase_shifter_regulation_on p)
    (twt_split_shunt_admittance p)
    (simul_shunt p)
    (read_slack_bus p)
    (write_slack_bus p)
    (distributed_slack p)
    (balance_type p)
    (dc_use_transformer_ratio p)
    (countries_to_balance p)
    (countries_to_balance_count p)
    (connected_component_mode p).

Definition with_no_generator_reactive_limits (v : Z)
    (p : load_flow_parameters) : load_flow_parameters :=
  LoadFlowParameters
    (voltage_init_mode p)
    (transformer_voltage_control_on p)
    v
    (phase_shifter_regulation_on p)
    (twt_split_shunt_admittance p)
    (simul_shunt p)
    (read_slack_bus p)
    (write_slack_bus p)
    (distributed_slack p)
    (balance_type p)
    (dc_use_transformer_ratio p)
    (countries_to_balance p)
    (countries_to_balance_count p)
    (connected_component_mode p).

Definition with_phase_shifter_regulation_on (v : Z)
    (p : load_flow_parameters) : load_flow_parameters :=
  LoadFlowParameters
    (voltage_init_mode p)
    (transformer_voltage_control_on p)
    (no_generator_reactive_limits p)
    v
    (twt_split_shunt_admittance p)
    (simul_shunt p)
    (read_slack_bus p)
    (write_slack_bus p)
    (distributed_slack p)
    (balance_type p)
    (dc_use_transformer_ratio p)
    (countries_to_balance p)
    (countries_to_balance_count p)
    (connected_component_mode p).

Definition with_twt_split_shunt_admittance (v : Z)
    (p : load_flow_parameters) : load_flow_parameters :=
  LoadFlowParameters
    (voltage_init_mode p)
    (transformer_voltage_control_on p)
    (no_generator_reactive_limits p)
    (phase_shifter_regulation_on p)
    v
    (simul_shunt p)
    (read_slack_bus p)
    (write_slack_bus p)
    (distributed_slack p)
    (balance_type p)
    (dc_use_transformer_ratio p)
    (countries_to_balance p)
    (countries_to_balance_count p)
    (connected_component_mode p).

Definition with_simul_shunt (v : Z)
    (p : load_flow_parameters) : load_flow_parameters :=
  LoadFlowParameters
    (voltage_init_mode p)
    (transformer_voltage_control_on p)
    (no_generator_reactive_limits p)
    (phase_shifter_regulation_on p)
    (twt_split_shunt_admittance p)
    v
    (read_slack_bus p)
    (write_slack_bus p)
    (distributed_slack p)
    (balance_type p)
    (dc_use_transformer_ratio p)
    (countries_to_balance p)
    (countries_to_balance_count p)
    (connected_component_mode p).

Definition with_read_slack_bus (v : Z)
    (p : load_flow_parameters) : load_flow_parameters :=
  LoadFlowParameters
    (voltage_init_mode p)
    (transformer_voltage_control_on p)
    (no_generator_reactive_limits p)
    (phase_shifter_regulation_on p)
    (twt_split_shunt_admittance p)
    (simul_shunt p)
    v
    (write_slack_bus p)
    (distributed_slack p)
    (balance_type p)
    (dc_use_transformer_ratio p)
    (countries_to_balance p)
    (countries_to_balance_count p)
    (connected_component_mode p).

Definition with_write_slack_bus (v : Z)
    (p : load_flow_parameters) : load_flow_parameters :=
  LoadFlowParameters
    (voltage_init_mode p)
    (transformer_voltage_control_on p)
    (no_generator_reactive_limits p)
    (phase_shifter_regulation_on p)
    (twt_split_shunt_admittance p)
    (simul_shunt p)
    (read_slack_bus p)
    v
    (distributed_slack p)
    (balance_type p)
    (dc_use_transformer_ratio p)
    (countries_to_balance p)
    (countries_to_balance_count p)
    (connected_component_mode p).

Definition with_distributed_slack (v : Z)
    (p : load_flow_parameters) : load_flow_parameters :=
  LoadFlowParameters
    (voltage_init_mode p)
    (transformer_voltage_control_on p)
    (no_generator_reactive_limits p)
    (phase_shifter_regulation_on p)
    (twt_split_shunt_admittance p)
    (simul_shunt p)
    (read_slack_bus p)
    (write_slack_bus p)
    v
    (balance_type p)
    (dc_use_transformer_ratio p)
    (countries_to_balance p)
    (countries_to_balance_count p)
    (connected_component_mode p).

Definition with_balance_type (v : Z)
    (p : load_flow_parameters) : load_flow_parameters :=
  LoadFlowParameters
    (voltage_init_mode p)
    (transformer_voltage_control_on p)
    (no_generator_reactive_limits p)
    (phase_shifter_regulation_on p)
    (twt_split_shunt_admittance p)
    (simul_shunt p)
    (read_slack_bus p)
    (write_slack_bus p)
    (distributed_slack p)
    v
    (dc_use_transformer_ratio p)
    (countries_to_balance p)
    (countries_to_balance_count p)
    (connected_component_mode p).

Definition with_dc_use_transformer_ratio (v : Z)
    (p : load_flow_parameters) : load_flow_parameters :=
  LoadFlowParameters
    (voltage_init_mode p)
    (transformer_voltage_control_on p)
    (no_generator_reactive_limits p)
    (phase_shifter_regulation_on p)
    (twt_split_shunt_admittance p)
    (simul_shunt p)
    (read_slack_bus p)
    (write_slack_bus p)
    (distributed_slack p)
    (balance_type p)
    v
    (countries_to_balance p)
    (countries_to_balance_count p)
    (connected_component_mode p).

Definition with_countries_to_balance (v : pointer)
    (p : load_flow_parameters) : load_flow_parameters :=
  LoadFlowParameters
    (voltage_init_mode p)
    (transformer_voltage_control_on p)
    (no_generator_reactive_limits p)
    (phase_shifter_regulation_on p)
    (twt_split_shunt_admittance p)
    (simul_shunt p)
    (read_slack_bus p)
    (write_slack_bus p)
    (distributed_slack p)
    (balance_type p)
    (dc_use_transformer_ratio p)
    v
    (countries_to_balance_count p)
    (connected_component_mode p).

Definition with_countries_to_balance_count (v : Z)
    (p : load_flow_parameters) : load_flow_parameters :=
  LoadFlowParameters
    (voltage_init_mode p)
    (transformer_voltage_control_on p)
    (no_generator_reactive_limits p)
    (phase_shifter_regulation_on p)
    (twt_split_shunt_admittance p)
    (simul_shunt p)
    (read_slack_bus p)
    (write_slack_bus p)
    (distributed_slack p)
    (balance_type p)
    (dc_use_transformer_ratio p)
    (countries_to_balance p)
    v
    (connected_component_mode p).

Definition with_connected_component_mode (v : Z)
    (p : load_flow_parameters) : load_flow_parameters :=
  LoadFlowParameters
    (voltage_init_mode p)
    (transformer_voltage_control_on p)
    (no_generator_reactive_limits p)
    (phase_shifter_regulation_on p)
    (twt_split_shunt_admittance p)
    (simul_shunt p)
    (read_slack_bus p)
    (write_slack_bus p)
    (distributed_slack p)
    (balance_type p)
    (dc_use_transformer_ratio p)
    (countries_to_balance p)
    (countries_to_balance_count p)
    v.

Section parameters.
Context `{RT : Runtime}.

(** The address of the process-wide default configuration. *)
Variable default_parameters : pointer.

(** Modelled from the spec: [pypowsybl::createLoadFlowParameters] of
    pypowsybl.cpp, which hands out the process-wide default configuration,
    "read-only template state, initialized once at process start". *)
Definition createLoadFlowParameters : M pointer := ret default_parameters.

(** The deleter of the [std::shared_ptr] that [initLoadFlowParameters]
    returns, lines 116-119. *)
Definition parameters_deleter (ptr : pointer) : M unit :=
  c ← load_parameters ptr;
  deleteCharPtrPtr (countries_to_balance c) (countries_to_balance_count c);;
  dealloc New is_parameters ptr.

(** [initLoadFlowParameters], lines 97-120. *)
Definition initLoadFlowParameters : M pointer :=
  parameters ← alloc New
    (BParameters (LoadFlowParameters 0 0 0 0 0 0 0 0 0 0 0 Null 0 0));
  config_params ← createLoadFlowParameters;
  config ← load_parameters config_params;
  set_parameters parameters
    (with_voltage_init_mode (voltage_init_mode config));;
  set_parameters parameters
    (with_transformer_voltage_control_on (transformer_voltage_control_on config));;
  set_parameters parameters
    (with_no_generator_reactive_limits (no_generator_reactive_limits config));;
  set_parameters parameters
    (with_phase_shifter_regulation_on (phase_shifter_regulation_on config));;
  set_parameters parameters
    (with_twt_split_shunt_admittance (twt_split_shunt_admittance config));;
  set_parameters parameters
    (with_simul_shunt (simul_shunt config));;
  set_parameters parameters
    (with_read_slack_bus (read_slack_bus config));;
  set_parameters parameters
    (with_write_slack_bus (write_slack_bus config));;
  set_parameters parameters
    (with_distributed_slack (distributed_slack config));;
  set_parameters parameters
    (with_balance_type (balance_type config));;
  set_parameters parameters
    (with_dc_use_transformer_ratio (dc_use_transformer_ratio config));;
  configCountries ← vector_of_char_ptrs (countries_to_balance config)
                                        (countries_to_balance_count config);
  q ← copyVectorStringToCharPtrPtr configCountries;
  set_parameters parameters (with_countries_to_balance q);;
  set_parameters parameters
    (with_countries_to_balance_count (Z.of_nat (List.length configCountries)));;
  set_parameters parameters
    (with_connected_component_mode (connected_component_mode config));;
  ret parameters.

End parameters.

Section countries_property.
Context `{RT : Runtime}.

(** The [countries_to_balance] property of [LoadFlowParameters], lines
    346-352: the getter, which returns a [std::vector<std::string>], and
    the setter. *)
Definition get_countries_to_balance (p : pointer) : M (list string) :=
  c ← load_parameters p;
  vector_of_char_ptrs (countries_to_balance c) (countries_to_balance_count c).

Definition set_countries_to_balance (p : pointer)
    (countriesToBalance : list string) : M unit :=
  c ← load_parameters p;
  deleteCharPtrPtr (countries_to_balance c) (countries_to_balance_count c);;
  q ← copyVectorStringToCharPtrPtr countriesToBalance;
  set_parameters p (with_countries_to_balance q);;
  set_parameters p
    (with_countries_to_balance_count (Z.of_nat (List.length countriesToBalance))).

End countries_property.

(** ** Runtimes and Python values to run the code on *)

(** The runtime of the C++ standard: a cell is released by the deallocation
    function that matches its allocation function, and by no other. *)
Definition standard_runtime (junk : nat → series) (junk' : nat → dataframe)
    : Runtime :=
  {| dealloc_accepts a how := bool_decide (a = how);
     dealloc_accepts_matching k := bool_decide_eq_true_2 _ eq_refl;
     indeterminate_series := junk;
     indeterminate_dataframe := junk' |}.

(** A runtime whose [delete] and [delete[]] forward to [free], and whose
    [new] and [new[]] allocate with [malloc]. *)
Definition forwarding_runtime (junk : nat → series) (junk' : nat → dataframe)
    : Runtime :=
  {| dealloc_accepts _ _ := true;
     dealloc_accepts_matching _ := eq_refl;
     indeterminate_series := junk;
     indeterminate_dataframe := junk' |}.

Definition stale_series (i : nat) : series :=
  Series (Ptr (1000 + i)) 7 (-1) (Array (Ptr (2000 + i)) 5).
Definition stale_dataframe (i : nat) : dataframe :=
  Dataframe (Ptr (3000 + i)) 11.

(** Python lists of [str] or [bytes] items, by their bytes, of [float] and
    of [bool] items, with pybind11's conversions of them. *)
Inductive pylist :=
  | PyStrs (l : list string)
  | PyFloats (l : list float64)
  | PyBools (l : list bool).

Definition float64_of_bool (b : bool) : float64 :=
  if b then 0x3FF0000000000000 else 0.

Global Instance pylist_casts : Pybind11 pylist :=
  {| cast_vector_string o :=
       match o with PyStrs l => Some l | _ => None end;
     cast_vector_double o :=
       match o with
       | PyFloats l => Some l
       | PyBools l => Some (float64_of_bool <$> l)
       | PyStrs _ => None
       end;
     cast_vector_int o :=
       match o with PyBools l => Some (Z.b2z <$> l) | _ => None end |}.

(** The two runtimes, over storage that holds stale values. *)
Definition cxx : Runtime := standard_runtime stale_series stale_dataframe.
Definition libc : Runtime := forwarding_runtime stale_series stale_dataframe.

(** ** Reading the heap *)

(** The block that a pointer points to, when it points to a live cell. *)
Definition content_at (h : heap) (p : pointer) : option block :=
  match p with
  | Null => None
  | Ptr l =>
      match h !! l with
      | Some (Some c) => Some (cell_content c)
      | _ => None
      end
  end.

Definition cell_at (h : heap) (p : pointer) : option cell :=
  match p with
  | Null => None
  | Ptr l =>
      match h !! l with
      | Some (Some c) => Some c
      | _ => None
      end
  end.

(** ** What [createDataframe] is given and what it builds *)

Section built.
Context {pyobj : Type} `{PY : Pybind11 pyobj}.

(** The values of a column convert to the vector that its type tag asks
    for.  No values are asked for on an unknown tag. *)
Definition converts (type : Z) (o : option pyobj) : Prop :=
  if decide (type = 0) then is_Some (o ≫= cast_vector_string)
  else if decide (type = 1) then is_Some (o ≫= cast_vector_double)
  else if decide (type = 2 ∨ type = 3) then is_Some (o ≫= cast_vector_int)
  else True.

(** The arguments of [createDataframe] fit together: a type tag, an index
    flag and convertible values for every name. *)
Definition well_formed (columnsValues : list pyobj)
    (columnsNames : list string) (columnsTypes : list Z)
    (isIndex : list bool) : Prop :=
  ∀ indice, (indice < List.length columnsNames)%nat →
    ∃ type b, columnsTypes !! indice = Some type ∧
              isIndex !! indice = Some b ∧
              converts type (columnsValues !! indice).

(** The names are text: each is well-formed UTF-8. *)
Definition text_names (columnsNames : list string) : Prop :=
  Forall (λ name, valid_utf8 name = true) columnsNames.

(** The strings [v], each in a cell of its own, behind the pointers [qs]. *)
Definition strings_at (h : heap) (qs : list pointer) (v : list string) : Prop :=
  Forall2 (λ q s, cell_at h q = Some (Cell NewArr (BChars (c_str s)))) qs v.

(** The buffer of a column of type [type] built from the Python object
    [o].  The copies of the strings of a STRING column stand one after the
    other, from some address [a] on. *)
Definition data_built (h : heap) (type : Z) (o : option pyobj)
    (d : array) : Prop :=
  if decide (type = 0) then
    ∃ v a, o ≫= cast_vector_string = Some v ∧
           array_length d = Z.of_nat (List.length v) ∧
           cell_at h (array_ptr d)
           = Some (Cell NewArr (BCharPtrs (Ptr <$> seq a (List.length v)))) ∧
           strings_at h (Ptr <$> seq a (List.length v)) v
  else if decide (type = 1) then
    ∃ v, o ≫= cast_vector_double = Some v ∧
         array_length d = Z.of_nat (List.length v) ∧
         cell_at h (array_ptr d) = Some (Cell NewArr (BDoubles v))
  else if decide (type = 2 ∨ type = 3) then
    ∃ v, o ≫= cast_vector_int = Some v ∧
         array_length d = Z.of_nat (List.length v) ∧
         cell_at h (array_ptr d) = Some (Cell NewArr (BInts v))
  else True.

(** The column built from a name, an index flag, a type tag and values. *)
Definition column_built (h : heap) (name : string) (b : bool) (type : Z)
    (o : option pyobj) (c : series) : Prop :=
  cell_at h (series_name c) = Some (Cell Malloc (BChars (c_str (until_NUL name)))) ∧
  series_index c = Z.b2z b ∧
  series_type c = type ∧
  data_built h type o (series_data c).

(** The columns below [k] of the column array [cols], built from the
    arguments of [createDataframe]. *)
Definition columns_built (h : heap) (columnsValues : list pyobj)
    (columnsNames : list string) (columnsTypes : list Z)
    (isIndex : list bool) (cols : list series) (k : nat) : Prop :=
  ∀ j name, (j < k)%nat → columnsNames !! j = Some name →
    ∃ c b type,
      cols !! j = Some c ∧ isIndex !! j = Some b ∧
      columnsTypes !! j = Some type ∧
      column_built h name b type (columnsValues !! j) c.

(** The table at [df], built from the arguments of [createDataframe]. *)
Definition table_built (h : heap) (columnsValues : list pyobj)
    (columnsNames : list string) (columnsTypes : list Z)
    (isIndex : list bool) (df : pointer) : Prop :=
  ∃ columns cols,
    cell_at h df = Some (Cell New (BDataframe
      (Dataframe columns (Z.of_nat (List.length columnsNames))))) ∧
    cell_at h columns = Some (Cell NewArr (BSeriesArr cols)) ∧
    List.length cols = List.length columnsNames ∧
    ∀ indice name, columnsNames !! indice = Some name →
      ∃ c b type,
        cols !! indice = Some c ∧
        isIndex !! indice = Some b ∧
        columnsTypes !! indice = Some type ∧
        column_built h name b type (columnsValues !! indice) c.

End built.

(** The cells that hold the name or the values of a column. *)
Definition is_buffer (b : block) : bool :=
  is_chars b || is_char_ptrs b || is_doubles b || is_ints b.

(** Every live buffer of [h] is in [h'] as it is. *)
Definition keeps (h h' : heap) : Prop :=
  ∀ p c, cell_at h p = Some c →
         is_buffer (cell_content c) = true →
         cell_at h' p = Some c.

(** ** What [deleteDataframe] releases *)

(** The heap once the cells at the addresses [ls] are released. *)
Definition released (ls : list nat) (h : heap) : heap :=
  foldl (λ h l, <[l := None]> h) h ls.

Section cells.
Context `{RT : Runtime}.

(** The address behind [p], when the runtime lets [how] release the live
    cell there as an object of the type [is_T]. *)
Definition releasable (h : heap) (how : alloc_kind) (is_T : block → bool)
    (p : pointer) : option nat :=
  match p with
  | Null => None
  | Ptr l =>
      match h !! l with
      | Some (Some c) =>
          if dealloc_accepts (cell_kind c) how && is_T (cell_content c)
          then Some l else None
      | _ => None
      end
  end.

(** The addresses that [deleteCharPtrPtr p n] releases, in the order of
    release: the first [n] strings, then the array of pointers. *)
Definition char_ptr_ptr_cells (h : heap) (p : pointer) (n : Z)
    : option (list nat) :=
  match content_at h p with
  | Some (BCharPtrs qs) =>
      if decide (Z.to_nat n ≤ List.length qs)%nat then
        match mapM (releasable h NewArr is_chars) (take (Z.to_nat n) qs),
              releasable h NewArr is_char_ptrs p with
        | Some ls, Some l => Some (ls ++ [l])
        | _, _ => None
        end
      else None
  | _ => None
  end.

(** The addresses released for the buffer of a column: none when the type
    tag is none of 0, 1, 2, 3. *)
Definition buffer_cells (h : heap) (c : series) : option (list nat) :=
  if decide (series_type c = 0) then
    char_ptr_ptr_cells h (array_ptr (series_data c))
                         (array_length (series_data c))
  else if decide (series_type c = 1) then
    (λ l, [l]) <$> releasable h NewArr is_doubles (array_ptr (series_data c))
  else if decide (series_type c = 2 ∨ series_type c = 3) then
    (λ l, [l]) <$> releasable h NewArr is_ints (array_ptr (series_data c))
  else Some [].

(** The addresses released for a column: its buffer, then its name. *)
Definition series_cells (h : heap) (c : series) : option (list nat) :=
  match buffer_cells h c, releasable h NewArr is_chars (series_name c) with
  | Some ls, Some l => Some (ls ++ [l])
  | _, _ => None
  end.

(** The addresses released for the table at [df]: its columns in order,
    then the column array, then the header. *)
Definition table_cells (h : heap) (df : pointer) : option (list nat) :=
  match content_at h df with
  | Some (BDataframe hdr) =>
      match content_at h (df_series hdr) with
      | Some (BSeriesArr cols) =>
          if decide (Z.to_nat (df_series_count hdr) ≤ List.length cols)%nat
          then
            match mapM (series_cells h)
                       (take (Z.to_nat (df_series_count hdr)) cols),
                  releasable h NewArr is_series_arr (df_series hdr),
                  releasable h New is_dataframe df with
            | Some lss, Some s, Some d => Some (concat lss ++ [s; d])
            | _, _, _ => None
            end
          else None
      | _ => None
      end
  | _ => None
  end.

End cells.


(** A heap that has the cells of [h] as they are, whatever else it has. *)
Definition extends (h h' : heap) : Prop :=
  ∀ l, (l < List.length h)%nat → h' !! l = h !! l.

(** ** What [initLoadFlowParameters] is given and what it builds *)

(** The C strings behind the pointers [qs] read as the strings [v]. *)
Definition c_strings_at (h : heap) (qs : list pointer) (v : list string) : Prop :=
  Forall2 (λ q s, ∃ chars, content_at h q = Some (BChars chars) ∧
                           read_c_str chars = Some s) qs v.

(** The struct at [p] is [c], and its list of countries reads [cs]. *)
Definition parameters_at (h : heap) (p : pointer) (c : load_flow_parameters)
    (cs : list string) : Prop :=
  content_at h p = Some (BParameters c) ∧
  countries_to_balance_count c = Z.of_nat (List.length cs) ∧
  ∃ qs, content_at h (countries_to_balance c) = Some (BCharPtrs qs) ∧
        c_strings_at h (take (List.length cs) qs) cs.

(** The cells that [copyVectorStringToCharPtrPtr v] adds to a heap of [n]
    cells: the copies of the strings, then the array of pointers to them. *)
Definition copied_strings (n : nat) (v : list string) : heap :=
  ((λ s, Some (Cell NewArr (BChars (c_str s)))) <$> v)
  ++ [Some (Cell NewArr (BCharPtrs (Ptr <$> seq n (List.length v))))].

(** The struct [c] with another list of countries. *)
Definition parameters_copy (c : load_flow_parameters) (q : pointer) (n : Z)
    : load_flow_parameters :=
  with_countries_to_balance_count n (with_countries_to_balance q c).

(** The cells that [initLoadFlowParameters] adds to a heap of [n] cells,
    from the configuration [c] whose countries read [v]: the struct, then
    the copy of the countries. *)
Definition copied_parameters (n : nat) (c : load_flow_parameters)
    (v : list string) : heap :=
  Some (Cell New (BParameters
    (parameters_copy c (Ptr (S n + List.length v)) (Z.of_nat (List.length v)))))
  :: copied_strings (S n) v.

(** ** Tables to run the code on *)

(** The table of the scenario: an index column "id" of strings and a column
    "v" of doubles, 1.05 and 0.98. *)
Definition bus_values : list pylist :=
  [PyStrs ["B1"; "B2"]%string;
   PyFloats [0x3FF0CCCCCCCCCCCD; 0x3FEF5C28F5C28F5C]].

Definition bus_table `{RT : Runtime} : M pointer :=
  createDataframe (PY := pylist_casts) bus_values
    ["id"; "v"]%string [0; 1] [true; false].

Definition line_table `{RT : Runtime} : M pointer :=
  createDataframe (PY := pylist_casts)
    [PyStrs ["L1"; "L2"; "L3"]%string; PyBools [true; false; true]]
    ["id"; "connected"]%string [0; 3] [true; false].

Definition generator_table `{RT : Runtime} : M pointer :=
  createDataframe (PY := pylist_casts)
    [PyStrs ["G1"]%string; PyFloats [0x4079000000000000]]
    ["id"; "target_p"]%string [0; 1] [true; false].


(** A heap with a table at address 0 whose names were allocated by
    [new[]]: a column "x" of the unknown type 9, whose [data] points to the
    live cell at address 5, and a column "v" of doubles. *)
Definition foreign_table : heap :=
  [Some (Cell New (BDataframe (Dataframe (Ptr 1) 2)));
   Some (Cell NewArr (BSeriesArr
     [Series (Ptr 2) 0 9 (Array (Ptr 5) 3);
      Series (Ptr 3) 0 1 (Array (Ptr 4) 1)]));
   Some (Cell NewArr (BChars (c_str "x")));
   Some (Cell NewArr (BChars (c_str "v")));
   Some (Cell NewArr (BDoubles [0x3FEF5C28F5C28F5C]));
   Some (Cell NewArr (BInts [1; 2; 3]))].

(** A heap with a default configuration at address 0, whose countries to
    balance are FR and BE. *)
Definition default_configuration : load_flow_parameters :=
  LoadFlowParameters 0 1 0 1 0 1 0 1 1 2 1 (Ptr 3) 2 1.

Definition configuration_heap : heap :=
  [Some (Cell Malloc (BParameters default_configuration));
   Some (Cell Malloc (BChars (c_str "FR")));
   Some (Cell Malloc (BChars (c_str "BE")));
   Some (Cell Malloc (BCharPtrs [Ptr 1; Ptr 2]))].

(** Three tables, of 2, 3 and 1 rows, built one after the other. *)
Definition three_tables `{RT : Runtime} : M (list pointer) :=
  a ← bus_table; b ← line_table; c ← generator_table; ret [a; b; c].

Definition heap_after {A} (m : M A) (h : heap) : heap :=
  match m h with
  | Ok _ h' => h'
  | Throw _ h' => h'
  | Fault _ => h
  end.

(** A string with a NUL character in it: "a", NUL, "b". *)
Definition a_NUL_b : string := String "a" (String NUL "b").

(** ** The cells of one column *)

Section layout.
Context {pyobj : Type} `{PY : Pybind11 pyobj}.

(** The cells that the body of the loop of [createDataframe] adds to a heap
    of [n] cells for the column of a name, a type tag and values: the copy
    of the name, then the buffer when the values convert. *)
Definition column_cells (n : nat) (name : string) (type : Z)
    (o : option pyobj) : heap :=
  Some (Cell Malloc (BChars (c_str (until_NUL name))))
  :: (if decide (type = 0) then
        from_option (copied_strings (S n)) [] (o ≫= cast_vector_string)
      else if decide (type = 1) then
        from_option (λ v, [Some (Cell NewArr (BDoubles v))]) []
                    (o ≫= cast_vector_double)
      else if decide (type = 2 ∨ type = 3) then
        from_option (λ v, [Some (Cell NewArr (BInts v))]) []
                    (o ≫= cast_vector_int)
      else []).

(** The [data] field that the body leaves in a column whose [data] was
    [d0]: untouched on an unknown type tag and when the values do not
    convert. *)
Definition column_buffer (n : nat) (type : Z) (o : option pyobj)
    (d0 : array) : array :=
  if decide (type = 0) then
    from_option (λ v, Array (Ptr (S n + List.length v))
                            (Z.of_nat (List.length v)))
                d0 (o ≫= cast_vector_string)
  else if decide (type = 1) then
    from_option (λ v, Array (Ptr (S n)) (Z.of_nat (List.length v)))
                d0 (o ≫= cast_vector_double)
  else if decide (type = 2 ∨ type = 3) then
    from_option (λ v, Array (Ptr (S n)) (Z.of_nat (List.length v)))
                d0 (o ≫= cast_vector_int)
  else d0.

(** The column that the body leaves in the place of [c0]. *)
Definition column_of (n : nat) (b : bool) (type : Z) (o : option pyobj)
    (c0 : series) : series :=
  Series (Ptr n) (Z.b2z b) type (column_buffer n type o (series_data c0)).

(** Every name has a type tag and an index flag. *)
Definition described (columnsNames : list string) (columnsTypes : list Z)
    (isIndex : list bool) : Prop :=
  (List.length columnsNames ≤ List.length columnsTypes)%nat ∧
  (List.length columnsNames ≤ List.length isIndex)%nat.

End layout.

(** A cell that was not released. *)
Definition live (c : option cell) : Prop := is_Some c.

(** ** The [Series] class: the [name] and [index] properties *)

(** The [name] property of [Series], lines 498-500.  pybind11 converts the
    [char*] that the getter returns to a Python [str], which throws when
    the name is no well-formed UTF-8, and the null pointer to [None]. *)
Definition Series_name (s : series) : M (option string) :=
  match series_name s with
  | Null => ret None
  | Ptr l =>
      name ← string_of_char_ptr (Ptr l);
      name ← py_str name;
      ret (Some name)
  end.

(** The [index] property of [Series], lines 501-503. *)
Definition Series_index (s : series) : bool := negb (series_index s =? 0).

(** ** [createElement] *)

(** A [std::shared_ptr] whose last owner is a local variable of [body]: the
    deleter runs when [body] returns and when it throws. *)
Definition scoped {A} (deleter : M unit) (body : M A) : M A :=
  a ← unwinding deleter body;
  deleter;;
  ret a.

(** What an outcome leaves of the heap. *)
Definition map_heap {A} (f : heap → heap) (r : outcome A) : outcome A :=
  match r with
  | Ok a h => Ok a (f h)
  | Throw e h => Throw e (f h)
  | Fault x => Fault x
  end.

Definition outcome_heap {A} (r : outcome A) : option heap :=
  match r with
  | Ok _ h => Some h
  | Throw _ h => Some h
  | Fault _ => None
  end.

Section createElement.
Context `{RT : Runtime}.
Context {JavaHandle element_type : Type}.

(** [pypowsybl::createElement] of pypowsybl.cpp, which hands the array of
    tables to the Java side, is not part of the sources at hand: any
    computation on the heap stands for it. *)
Variable pypowsybl_createElement :
  JavaHandle → pointer → element_type → M unit.

(** [createElement], lines 85-88. *)
Definition createElement (network : JavaHandle) (dataframes : list pointer)
    (elementType : element_type) : M unit :=
  dataframeArray ← createDataframeArray dataframes;
  scoped (dataframeArray_deleter dataframeArray)
         (pypowsybl_createElement network dataframeArray elementType).

End createElement.

(** ** The scalar properties of [LoadFlowParameters] *)

(** A property whose getter returns [(bool) p.field], and one whose getter
    returns [static_cast<E>(p.field)] for an enumeration [E], which is
    taken by the value of its enumerator. *)
Inductive property_kind :=
  | flag
  | enumeration.

Record scalar_property := ScalarProperty {
  property_name : string;
  property_kind_of : property_kind;
  property_field : load_flow_parameters → Z;
  property_with : Z → load_flow_parameters → load_flow_parameters
}.

(** The properties of lines 291-345 and 353-357, in the order of the
    source, each with the field that its getter reads and that its setter
    writes. *)
Definition scalar_properties : list scalar_property :=
  [ScalarProperty "voltage_init_mode" enumeration
     voltage_init_mode with_voltage_init_mode;
   ScalarProperty "transformer_voltage_control_on" flag
     transformer_voltage_control_on with_transformer_voltage_control_on;
   ScalarProperty "no_generator_reactive_limits" flag
     no_generator_reactive_limits with_no_generator_reactive_limits;
   ScalarProperty "phase_shifter_regulation_on" flag
     phase_shifter_regulation_on with_phase_shifter_regulation_on;
   ScalarProperty "twt_split_shunt_admittance" flag
     twt_split_shunt_admittance with_twt_split_shunt_admittance;
   ScalarProperty "simul_shunt" flag
     simul_shunt with_simul_shunt;
   ScalarProperty "read_slack_bus" flag
     read_slack_bus with_read_slack_bus;
   ScalarProperty "write_slack_bus" flag
     write_slack_bus with_write_slack_bus;
   ScalarProperty "distributed_slack" flag
     distributed_slack with_distributed_slack;
   ScalarProperty "balance_type" enumeration
     balance_type with_balance_type;
   ScalarProperty "dc_use_transformer_ratio" flag
     dc_use_transformer_ratio with_dc_use_transformer_ratio;
   ScalarProperty "connected_component_mode" enumeration
     connected_component_mode with_connected_component_mode].

(** What the getter of a property returns on the struct [c]. *)
Definition property_value (pr : scalar_property)
    (c : load_flow_parameters) : scalar :=
  match property_kind_of pr with
  | flag => Bool (negb (property_field pr c =? 0))
  | enumeration => Int (property_field pr c)
  end.

(** The getter of a property. *)
Definition get_property (pr : scalar_property) (p : pointer) : M scalar :=
  c ← load_parameters p;
  ret (property_value pr c).

(** [p.field = v]: the setter of a property, on the [int] that the field
    takes. *)
Definition set_property (pr : scalar_property) (p : pointer) (v : Z)
    : M unit :=
  set_parameters p (property_with pr v).

(** The setter of a flag, whose argument is a [bool], and the setter of an
    enumeration. *)
Definition set_flag (pr : scalar_property) (p : pointer) (b : bool)
    : M unit :=
  set_property pr p (Z.b2z b).

Definition set_enumeration (pr : scalar_property) (p : pointer) (v : Z)
    : M unit :=
  set_property pr p v.

(** ** The [Matrix] class: the buffer *)

(** [matrix] of pypowsybl.h, which is not part of the sources at hand: the
    fields that the lambda of lines 476-483 reads. *)
Record matrix := Matrix {
  matrix_values : pointer;
  row_count : Z;
  column_count : Z
}.

(** [py::buffer_info]. *)
Record buffer_info := BufferInfo {
  buffer_ptr : pointer;
  buffer_itemsize : Z;
  buffer_format : string;
  buffer_ndim : Z;
  buffer_shape : list Z;
  buffer_strides : list Z
}.

Definition sizeof_double : Z := 8.

(** The conversions of an integer to [size_t] and to [ssize_t], of 64
    bits. *)
Definition to_size_t (z : Z) : Z := z mod 2 ^ 64.
Definition to_ssize_t (z : Z) : Z := (z + 2 ^ 63) mod 2 ^ 64 - 2 ^ 63.

(** The buffer of a [Matrix], lines 476-483.  The first stride is a product
    in [size_t]. *)
Definition Matrix_buffer (m : matrix) : buffer_info :=
  BufferInfo (matrix_values m) sizeof_double "d" 2
    [to_ssize_t (row_count m); to_ssize_t (column_count m)]
    [to_ssize_t (to_size_t (sizeof_double * to_size_t (column_count m)));
     to_ssize_t sizeof_double].

(** The offset in bytes of the item at [index], by the buffer protocol:
    the sum of the products of each index by the stride of its
    dimension. *)
Definition buffer_offset (b : buffer_info) (index : list Z) : Z :=
  foldr Z.add 0 (zip_with Z.mul index (buffer_strides b)).

(** An index within the shape of the buffer. *)
Definition in_shape (b : buffer_info) (index : list Z) : Prop :=
  Forall2 (λ i n, 0 ≤ i < n) index (buffer_shape b).

(** The item of a buffer of [double] at [index], as the consumer reads
    it. *)
Definition buffer_item (b : buffer_info) (index : list Z) : M float64 :=
  blk ← load (buffer_ptr b);
  match blk with
  | BDoubles ds =>
      if decide (0 ≤ buffer_offset b index ∧
                 buffer_offset b index mod buffer_itemsize b = 0)
      then vector_at ds (Z.to_nat (buffer_offset b index / buffer_itemsize b))
      else undefined OutOfBounds
  | _ => undefined (BadCast (buffer_ptr b))
  end.

(** ** The cells of a [LoadFlowParameters] *)

(** The cells that belong to a struct made by [initLoadFlowParameters]
    behind a heap of [n] cells, once its list of countries was replaced
    some times: the struct, [k] released cells, which held the former
    lists, then the list it has, [v]. *)
Definition parameters_cells (n : nat) (c : load_flow_parameters) (k : nat)
    (v : list string) : heap :=
  Some (Cell New (BParameters
    (parameters_copy c (Ptr (S n + k + List.length v))
                     (Z.of_nat (List.length v)))))
  :: replicate k None ++ copied_strings (S n + k) v.

(** The life of a [LoadFlowParameters] object: made by
    [initLoadFlowParameters], its list of countries set to each list of
    [updates] in turn. *)
Definition LoadFlowParameters_after `{RT : Runtime}
    (default_parameters : pointer) (updates : list (list string))
    : M pointer :=
  p ← initLoadFlowParameters default_parameters;
  for_each updates (set_countries_to_balance p);;
  ret p.

(** What Python reads from the [countries_to_balance] property: pybind11
    makes a list of [str] of the vector that the getter returns, which
    throws when one of the strings is no well-formed UTF-8. *)
Definition countries_to_balance_property (p : pointer) : M (list string) :=
  countries ← get_countries_to_balance p;
  map_M py_str countries.

(** ** More to run the code on *)

(** A native [createElement] that reads the headers it is given and throws
    when one has no column. *)
Definition reject_empty_tables (network : unit) (a : pointer)
    (elementType : Z) : M unit :=
  hdr ← load_dataframe_array a;
  b ← load (dataframes hdr);
  match b with
  | BDataframes dfs =>
      if decide (Forall (λ df, 0 < df_series_count df) dfs) then ret ()
      else throw (PyPowsyblError "empty table")
  | _ => undefined (BadCast (dataframes hdr))
  end.

(** A matrix of 2 rows and 3 columns at address 0. *)
Definition matrix_heap : heap :=
  [Some (Cell NewArr (BDoubles [10; 11; 12; 20; 21; 22]))].
(** * Properties *)

Lemma bind_Ok {A B} (m : M A) (k : A → M B) h a h' :
  m h = Ok a h' → bind m k h = k a h'.
Proof. intros E. unfold bind. now rewrite E. Qed.

Lemma bind_bind {A B C} (m : M A) (f : A → M B) (g : B → M C) h :
  bind (bind m f) g h = bind m (λ x, bind (f x) g) h.
Proof. unfold bind. now destruct (m h). Qed.

Lemma bind_ret {A B} (a : A) (k : A → M B) h : bind (ret a) k h = k a h.
Proof. reflexivity. Qed.

(** Run the next operation of a computation with the equation [L]. *)
Tactic Notation "run" uconstr(L) :=
  rewrite ?bind_bind; erewrite (bind_Ok _ _ _ _ _ L).

Lemma load_Ok h p b : content_at h p = Some b → load p h = Ok b h.
Proof.
  destruct p as [|l]; simpl; [discriminate|].
  destruct (h !! l) as [[c|]|]; intros E; simplify_eq; reflexivity.
Qed.

Lemma store_Ok h l c b :
  h !! l = Some (Some c) →
  store (Ptr l) b h = Ok () (<[l := Some (Cell (cell_kind c) b)]> h).
Proof. intros E. simpl. now rewrite E. Qed.

Lemma content_at_app_l h h' p b :
  content_at h p = Some b → content_at (h ++ h') p = Some b.
Proof.
  destruct p as [|l]; simpl; [discriminate|].
  destruct (h !! l) as [o|] eqn:E; [|discriminate].
  now rewrite (lookup_app_l_Some _ _ _ _ E).
Qed.

(** ** The [data] property on an unknown type tag *)

(** C7: a series whose type tag is none of 0, 1, 2, 3 makes the [data]
    property throw [PyPowsyblError] ("Series type not supported: " followed
    by the tag); no value is returned and the heap is as before. *)
Theorem Series_data_unsupported_type (s : series) (h : heap) :
  series_type s < 0 ∨ 3 < series_type s →
  Series_data s h =
    Throw (PyPowsyblError
             ("Series type not supported: " +:+ to_string (series_type s))) h.
Proof.
  intros Hty. unfold Series_data.
  destruct (series_type s) as [|[[q|q|]|[q|q|]|]|q] eqn:E;
    try reflexivity; lia.
Qed.

Lemma Series_data_unsupported_type_witness :
  Series_data (Series (Ptr 0) 0 9 (Array (Ptr 1) 2)) [] =
    Throw (PyPowsyblError "Series type not supported: 9") [].
Proof.
  apply (Series_data_unsupported_type (Series (Ptr 0) 0 9 (Array (Ptr 1) 2)) []).
  simpl. lia.
Defined.

(** ** Cells at the end of the heap *)

Lemma lookup_last_two_fst (h : heap) (a b : option cell) :
  (h ++ [a; b]) !! List.length h = Some a.
Proof. rewrite lookup_app_r by lia. now rewrite Nat.sub_diag. Qed.

Lemma lookup_last_two_snd (h : heap) (a b : option cell) :
  (h ++ [a; b]) !! S (List.length h) = Some b.
Proof.
  rewrite lookup_app_r by lia.
  now replace (S (List.length h) - List.length h)%nat with 1%nat by lia.
Qed.

Lemma insert_last_two_fst (h : heap) (a a' b : option cell) :
  <[List.length h := a']> (h ++ [a; b]) = h ++ [a'; b].
Proof. rewrite insert_app_r_alt by lia. now rewrite Nat.sub_diag. Qed.

Lemma insert_last_two_snd (h : heap) (a b b' : option cell) :
  <[S (List.length h) := b']> (h ++ [a; b]) = h ++ [a; b'].
Proof.
  rewrite insert_app_r_alt by lia.
  now replace (S (List.length h) - List.length h)%nat with 1%nat by lia.
Qed.

Lemma vector_at_Ok {A} (v : list A) i x h :
  v !! i = Some x → vector_at v i h = Ok x h.
Proof. intros E. unfold vector_at. now rewrite E. Qed.

Lemma load_dataframe_Ok h p df :
  content_at h p = Some (BDataframe df) → load_dataframe p h = Ok df h.
Proof.
  intros E. unfold load_dataframe. now rewrite (bind_Ok _ _ _ _ _ (load_Ok _ _ _ E)).
Qed.

Lemma set_dataframe_at_Ok h l k dfs i df :
  h !! l = Some (Some (Cell k (BDataframes dfs))) →
  (i < List.length dfs)%nat →
  set_dataframe_at (Ptr l) i df h =
    Ok () (<[l := Some (Cell k (BDataframes (<[i := df]> dfs)))]> h).
Proof.
  intros E Hi. unfold set_dataframe_at, bind, load. rewrite E. simpl.
  rewrite decide_True by exact Hi. unfold store. now rewrite E.
Qed.

Lemma set_dataframe_array_Ok h l k a f :
  h !! l = Some (Some (Cell k (BDataframeArray a))) →
  set_dataframe_array (Ptr l) f h =
    Ok () (<[l := Some (Cell k (BDataframeArray (f a)))]> h).
Proof.
  intros E. unfold set_dataframe_array, load_dataframe_array, bind, load.
  rewrite E. simpl. now rewrite E.
Qed.

Lemma unwinding_Ok {A} (deleter : M unit) (body : M A) h a h' :
  body h = Ok a h' → unwinding deleter body h = Ok a h'.
Proof. intros E. unfold unwinding. now rewrite E. Qed.

Lemma dealloc_Ok `{RT : Runtime} how is_T l h c :
  h !! l = Some (Some c) →
  dealloc_accepts (cell_kind c) how = true →
  is_T (cell_content c) = true →
  dealloc how is_T (Ptr l) h = Ok () (<[l := None]> h).
Proof. intros E Hk HT. unfold dealloc. now rewrite E, Hk, HT. Qed.

(** ** [createDataframeArray] *)

Section createDataframeArray_spec.
Context `{RT : Runtime}.
Variable h0 : heap.
Variable ptrs : list pointer.
Variable dfs : list dataframe.
Hypothesis tables :
  Forall2 (λ p df, content_at h0 p = Some (BDataframe df)) ptrs dfs.

Lemma createDataframeArray_loop (hdr : option cell) (m k : nat) :
  (k + m)%nat = List.length ptrs →
  for_each (seq k m)
    (λ indice,
       p ← vector_at ptrs indice;
       df ← load_dataframe p;
       set_dataframe_at (Ptr (S (List.length h0))) indice df)
    (h0 ++ [hdr; Some (Cell NewArr (BDataframes
              (take k dfs ++ (indeterminate_dataframe <$> seq k m))))])
  = Ok () (h0 ++ [hdr; Some (Cell NewArr (BDataframes dfs))]).
Proof.
  pose proof (Forall2_length _ _ _ tables) as Hlen.
  revert k. induction m as [|m IH]; intros k Hk.
  - simpl. rewrite take_ge by lia. now rewrite app_nil_r.
  - destruct (lookup_lt_is_Some_2 ptrs k ltac:(lia)) as [p Hp].
    destruct (lookup_lt_is_Some_2 dfs k ltac:(lia)) as [df Hdf].
    pose proof (Forall2_lookup_lr _ _ _ _ _ _ tables Hp Hdf) as Hpt.
    simpl in Hpt.
    assert (Hin : (k < List.length
              (take k dfs ++ (indeterminate_dataframe <$> seq k (S m))))%nat)
      by (rewrite length_app, length_take, length_fmap, length_seq; lia).
    cbn [seq for_each fmap list_fmap] in *.
    run (vector_at_Ok _ _ _ _ Hp).
    run (load_dataframe_Ok _ _ _ (content_at_app_l _ _ _ _ Hpt)).
    rewrite (bind_Ok _ _ _ _ _
               (set_dataframe_at_Ok _ _ _ _ k df (lookup_last_two_snd _ _ _) Hin)).
    rewrite insert_last_two_snd.
    rewrite insert_app_r_alt by (rewrite length_take; lia).
    rewrite length_take, Nat.min_l, Nat.sub_diag by lia.
    cbn [insert list_insert].
    specialize (IH (S k) ltac:(lia)).
    rewrite (take_S_r _ _ _ Hdf), <- app_assoc in IH. exact IH.
Qed.

Lemma createDataframeArray_run :
  createDataframeArray ptrs h0 =
    Ok (Ptr (List.length h0))
       (h0 ++ [Some (Cell New (BDataframeArray
                 (DataframeArray (Ptr (S (List.length h0)))
                                 (Z.of_nat (List.length ptrs)))));
               Some (Cell NewArr (BDataframes dfs))]).
Proof.
  unfold createDataframeArray.
  rewrite (bind_Ok _ _ _ _ _ (eq_refl : alloc _ _ h0 = Ok _ _)).
  apply unwinding_Ok.
  rewrite (bind_Ok _ _ _ _ _ (eq_refl : alloc _ _ (h0 ++ [_]) = Ok _ _)).
  rewrite length_app, Nat.add_1_r, <- app_assoc. cbn [app].
  unfold for_loop.
  pose proof (createDataframeArray_loop
    (Some (Cell New (BDataframeArray (DataframeArray Null 0))))
    (List.length ptrs) 0 eq_refl) as Hloop.
  rewrite take_0 in Hloop. cbn [app] in Hloop.
  rewrite (bind_Ok _ _ _ _ _ Hloop).
  rewrite (bind_Ok _ _ _ _ _
    (set_dataframe_array_Ok _ _ _ _ _ (lookup_last_two_fst _ _ _))).
  rewrite insert_last_two_fst.
  rewrite (bind_Ok _ _ _ _ _
    (set_dataframe_array_Ok _ _ _ _ _ (lookup_last_two_fst _ _ _))).
  now rewrite insert_last_two_fst.
Qed.

Lemma dataframeArray_deleter_run (n : Z) (copies : list dataframe) :
  dataframeArray_deleter (Ptr (List.length h0))
    (h0 ++ [Some (Cell New (BDataframeArray
              (DataframeArray (Ptr (S (List.length h0))) n)));
            Some (Cell NewArr (BDataframes copies))])
  = Ok () (h0 ++ [None; None]).
Proof.
  unfold dataframeArray_deleter, load_dataframe_array.
  match goal with |- _ ?h = _ =>
    assert (Hhdr : content_at h (Ptr (List.length h0)) =
              Some (BDataframeArray (DataframeArray (Ptr (S (List.length h0))) n)))
      by (simpl; now rewrite lookup_last_two_fst)
  end.
  run (load_Ok _ _ _ Hhdr).
  rewrite bind_ret. cbn [dataframes].
  erewrite bind_Ok;
    [|eapply dealloc_Ok;
      [apply lookup_last_two_snd|apply dealloc_accepts_matching|reflexivity]].
  rewrite insert_last_two_snd.
  erewrite dealloc_Ok;
    [|apply lookup_last_two_fst|apply dealloc_accepts_matching|reflexivity].
  now rewrite insert_last_two_fst.
Qed.

End createDataframeArray_spec.

(** C5: [createDataframeArray] leaves every cell of the heap as it is and
    adds two cells to it: the array struct, whose count is the number of
    tables passed, and one array holding the headers of these tables, in
    the order passed, each with the pointer to the column array that the
    table itself holds.  The deleter of the result releases these two cells
    and no other. *)
Theorem createDataframeArray_copies_headers `{RT : Runtime}
    (h0 : heap) (ptrs : list pointer) (dfs : list dataframe) :
  Forall2 (λ p df, content_at h0 p = Some (BDataframe df)) ptrs dfs →
  let dataframeArray := Ptr (List.length h0) in
  let built :=
    h0 ++ [Some (Cell New (BDataframeArray
              (DataframeArray (Ptr (S (List.length h0)))
                              (Z.of_nat (List.length ptrs)))));
           Some (Cell NewArr (BDataframes dfs))] in
  createDataframeArray ptrs h0 = Ok dataframeArray built ∧
  dataframeArray_deleter dataframeArray built = Ok () (h0 ++ [None; None]).
Proof.
  intros tables. split.
  - now apply createDataframeArray_run.
  - apply dataframeArray_deleter_run.
Qed.

(** C8: on no table at all, [createDataframeArray] returns an array struct
    with count 0 over an array of no header, and the deleter of the result
    releases both and returns. *)
Theorem createDataframeArray_empty `{RT : Runtime} (h0 : heap) :
  let dataframeArray := Ptr (List.length h0) in
  let built :=
    h0 ++ [Some (Cell New (BDataframeArray
              (DataframeArray (Ptr (S (List.length h0))) 0)));
           Some (Cell NewArr (BDataframes []))] in
  createDataframeArray [] h0 = Ok dataframeArray built ∧
  dataframeArray_deleter dataframeArray built = Ok () (h0 ++ [None; None]).
Proof.
  split.
  - apply (createDataframeArray_run h0 [] []). constructor.
  - apply dataframeArray_deleter_run.
Qed.

(** ** [createDataframe] and [deleteDataframe] on given tables *)

(** C3: on the type tag 9, [createDataframe] throws nothing and returns a
    table: it has allocated the header, the column array and the name, and
    the [data] of the column is what the storage held before. *)
Theorem createDataframe_type_9_returns :
  createDataframe (RT := cxx) (PY := pylist_casts)
    [PyFloats [0x3FF0CCCCCCCCCCCD]] ["v"]%string [9] [false] []
  = Ok (Ptr 0)
      [Some (Cell New (BDataframe (Dataframe (Ptr 1) 1)));
       Some (Cell NewArr (BSeriesArr
         [Series (Ptr 2) 0 9 (series_data (stale_series 0))]));
       Some (Cell Malloc (BChars (c_str "v")))].
Proof. reflexivity. Qed.

(** C4: under the runtime of the C++ standard, [deleteDataframe] does not
    release the table of the scenario, built by [createDataframe]: the name
    of its first column was allocated by [strdup], that is by [malloc], and
    [deleteDataframe] applies [delete[]] to it. *)
Theorem deleteDataframe_strdup_name_mismatch :
  ∃ df h,
    bus_table (RT := cxx) [] = Ok df h ∧
    cell_at h (Ptr 2) = Some (Cell Malloc (BChars (c_str "id"))) ∧
    deleteDataframe (RT := cxx) df h =
      Fault (AllocDeallocMismatch 2 Malloc NewArr).
Proof. do 2 eexists. split; [reflexivity|]. split; reflexivity. Qed.

(** Under a runtime whose [delete[]] forwards to [free], the same table is
    released whole. *)
Lemma deleteDataframe_bus_table_forwarding :
  ∃ df h,
    bus_table (RT := libc) [] = Ok df h ∧
    deleteDataframe (RT := libc) df h = Ok () (replicate (List.length h) None).
Proof. do 2 eexists. split; reflexivity. Qed.

(** ** Heaps around one column array *)

Lemma keeps_refl h : keeps h h.
Proof. intros p c E _. exact E. Qed.

Lemma keeps_trans h1 h2 h3 : keeps h1 h2 → keeps h2 h3 → keeps h1 h3.
Proof. intros H12 H23 p c E B. apply H23; [apply H12|]; assumption. Qed.

Lemma cell_at_Some h p c :
  cell_at h p = Some c ↔ ∃ l, p = Ptr l ∧ h !! l = Some (Some c).
Proof.
  destruct p as [|l]; simpl.
  - split; [discriminate|]. intros (l & E & _). discriminate.
  - split.
    + destruct (h !! l) as [[c'|]|] eqn:Hl; intros E; simplify_eq; eauto.
    + intros (l' & E & Hl). simplify_eq. now rewrite Hl.
Qed.

(** Replacing a cell that is no buffer, and allocating, keep the buffers. *)
Lemma keeps_around (pre post new : heap) (x y : option cell) :
  (∀ c, x = Some c → is_buffer (cell_content c) = false) →
  keeps (pre ++ x :: post) (pre ++ y :: post ++ new).
Proof.
  intros Hx p c E B. apply cell_at_Some in E as (l & -> & E).
  apply cell_at_Some. exists l. split; [reflexivity|].
  destruct (decide (l < List.length pre)%nat) as [Hl|Hl].
  - rewrite lookup_app_l in E by exact Hl.
    rewrite lookup_app_l by exact Hl. exact E.
  - rewrite lookup_app_r in E by lia. rewrite lookup_app_r by lia.
    destruct (l - List.length pre)%nat as [|j] eqn:Ej; simpl in *.
    + simplify_eq. rewrite (Hx c eq_refl) in B. discriminate.
    + now apply lookup_app_l_Some.
Qed.

Lemma lookup_around (pre post : heap) (x : option cell) :
  (pre ++ x :: post) !! List.length pre = Some x.
Proof. apply list_lookup_middle. reflexivity. Qed.

Lemma insert_around (pre post : heap) (x y : option cell) :
  <[List.length pre := y]> (pre ++ x :: post) = pre ++ y :: post.
Proof. rewrite insert_app_r_alt by lia. now rewrite Nat.sub_diag. Qed.

Lemma lookup_behind (pre post : heap) (x : option cell) j :
  (pre ++ x :: post) !! (List.length pre + S j)%nat = post !! j.
Proof.
  rewrite lookup_app_r by lia.
  now replace (List.length pre + S j - List.length pre)%nat with (S j) by lia.
Qed.

Lemma alloc_around (pre post : heap) (x : option cell) k b :
  alloc k b (pre ++ x :: post) =
    Ok (Ptr (List.length pre + S (List.length post)))
       (pre ++ x :: (post ++ [Some (Cell k b)])).
Proof.
  unfold alloc. rewrite length_app. simpl. now rewrite <- app_assoc.
Qed.

Lemma set_series_around pre k cols post i f c :
  cols !! i = Some c →
  set_series (Ptr (List.length pre)) i f
    (pre ++ Some (Cell k (BSeriesArr cols)) :: post)
  = Ok () (pre ++ Some (Cell k (BSeriesArr (<[i := f c]> cols))) :: post).
Proof.
  intros Hc. unfold set_series, bind, load. rewrite lookup_around. simpl.
  rewrite Hc. unfold store. rewrite lookup_around. simpl.
  now rewrite insert_around.
Qed.

Lemma read_c_str_c_str s : read_c_str (c_str s) = Some (until_NUL s).
Proof.
  induction s as [|c s IH]; simpl; [reflexivity|].
  destruct (Ascii.eqb c NUL); [reflexivity|].
  unfold c_str in IH. now rewrite IH.
Qed.

Lemma until_NUL_free s : NUL_free s = true → until_NUL s = s.
Proof.
  induction s as [|c s IH]; simpl; [reflexivity|].
  destruct (Ascii.eqb c NUL); simpl; [discriminate|].
  intros H. now rewrite IH.
Qed.

Lemma until_NUL_idem s : until_NUL (until_NUL s) = until_NUL s.
Proof.
  induction s as [|c s IH]; simpl; [reflexivity|].
  destruct (Ascii.eqb c NUL) eqn:E; simpl; [reflexivity|].
  now rewrite E, IH.
Qed.

Lemma strdup_c_str s h :
  strdup (c_str s) h = alloc Malloc (BChars (c_str (until_NUL s))) h.
Proof. unfold strdup. now rewrite read_c_str_c_str. Qed.

Lemma strdup_around s (pre post : heap) (x : option cell) :
  strdup (c_str s) (pre ++ x :: post) =
    Ok (Ptr (List.length pre + S (List.length post)))
       (pre ++ x :: (post ++ [Some (Cell Malloc (BChars (c_str (until_NUL s))))])).
Proof. rewrite strdup_c_str. apply alloc_around. Qed.

(** *** Text *)

Lemma py_str_Ok s h : valid_utf8 s = true → py_str s h = Ok s h.
Proof. intros E. unfold py_str. now rewrite E. Qed.

Lemma map_M_py_str (l : list string) h :
  Forall (λ s, valid_utf8 s = true) l → map_M py_str l h = Ok l h.
Proof.
  induction 1 as [|s l Hs _ IH]; [reflexivity|].
  cbn [map_M]. rewrite (bind_Ok _ _ _ _ _ (py_str_Ok _ _ Hs)).
  now rewrite (bind_Ok _ _ _ _ _ IH).
Qed.

(** A byte that starts a character of several bytes asks for bytes that
    are not NUL. *)
Lemma utf8_continuation_high c pending :
  utf8_continuation c = Some pending → Forall (λ r, 0 < r.1) pending.
Proof.
  unfold utf8_continuation. cbv zeta.
  repeat match goal with
         | |- context [if ?b then _ else _] => destruct b
         end;
    intros E; try discriminate; injection E as <-; repeat constructor.
Qed.

Lemma utf8_from_until_NUL s :
  ∀ pending, Forall (λ r, 0 < r.1) pending →
    utf8_from pending s = true → utf8_from pending (until_NUL s) = true.
Proof.
  induction s as [|c s IH]; intros pending Hp H; [exact H|].
  cbn [until_NUL]. destruct (Ascii.eqb c NUL) eqn:E.
  - apply Ascii.eqb_eq in E. subst c.
    destruct pending as [|[lo hi] pending]; [reflexivity|].
    apply Forall_cons_1 in Hp as [Hlo _]. cbn [fst] in Hlo.
    cbn [utf8_from] in H.
    apply andb_true_iff in H as [H _]. apply andb_true_iff in H as [H _].
    apply Z.leb_le in H. change (byte NUL) with 0 in H. lia.
  - cbn [utf8_from] in *.
    destruct pending as [|[lo hi] pending].
    + destruct (utf8_continuation c) as [pending'|] eqn:C; [|discriminate].
      apply IH; [|exact H]. now apply (utf8_continuation_high c).
    + apply Forall_cons_1 in Hp as [_ Hp].
      apply andb_true_iff in H as [H1 H2]. rewrite H1.
      now apply IH.
Qed.

(** The part of a text before its first NUL character is text. *)
Lemma valid_utf8_until_NUL s :
  valid_utf8 s = true → valid_utf8 (until_NUL s) = true.
Proof. apply utf8_from_until_NUL. constructor. Qed.

(** The cells of the copies of the strings [v]. *)
Lemma map_M_copy_strings (v : list string) (h : heap) :
  map_M (λ s, alloc NewArr (BChars (c_str s))) v h =
    Ok (Ptr <$> seq (List.length h) (List.length v))
       (h ++ ((λ s, Some (Cell NewArr (BChars (c_str s)))) <$> v)).
Proof.
  revert h. induction v as [|s v IH]; intros h; simpl.
  - now rewrite app_nil_r.
  - rewrite (bind_Ok _ _ _ _ _ (eq_refl : alloc _ _ h = Ok _ _)).
    rewrite (bind_Ok _ _ _ _ _ (IH _)).
    unfold ret. rewrite length_app, Nat.add_1_r, <- app_assoc. reflexivity.
Qed.

Lemma copyVectorStringToCharPtrPtr_run (v : list string) (h : heap) :
  copyVectorStringToCharPtrPtr v h =
    Ok (Ptr (List.length h + List.length v))
       (h ++ ((λ s, Some (Cell NewArr (BChars (c_str s)))) <$> v)
          ++ [Some (Cell NewArr (BCharPtrs
                (Ptr <$> seq (List.length h) (List.length v))))]).
Proof.
  unfold copyVectorStringToCharPtrPtr.
  rewrite (bind_Ok _ _ _ _ _ (map_M_copy_strings _ _)).
  unfold alloc. now rewrite length_app, length_fmap, <- app_assoc.
Qed.

Lemma set_series_around_insert pre k cols post i f c :
  (i < List.length cols)%nat →
  set_series (Ptr (List.length pre)) i f
    (pre ++ Some (Cell k (BSeriesArr (<[i := c]> cols))) :: post)
  = Ok () (pre ++ Some (Cell k (BSeriesArr (<[i := f c]> cols))) :: post).
Proof.
  intros Hi.
  rewrite (set_series_around _ _ _ _ _ _ c)
    by (now apply list_lookup_insert_eq).
  now rewrite list_insert_insert_eq.
Qed.

Lemma cell_at_behind (pre post : heap) (x : option cell) j c :
  post !! j = Some (Some c) →
  cell_at (pre ++ x :: post) (Ptr (List.length pre + S j)) = Some c.
Proof. intros E. simpl. now rewrite lookup_behind, E. Qed.

Lemma strings_at_cells (h0 tail : heap) (v : list string) :
  strings_at
    (h0 ++ ((λ s, Some (Cell NewArr (BChars (c_str s)))) <$> v) ++ tail)
    (Ptr <$> seq (List.length h0) (List.length v)) v.
Proof.
  revert h0. induction v as [|s v IH]; intros h0; [constructor|].
  cbn [List.length seq fmap list_fmap app]. constructor.
  - simpl. now rewrite list_lookup_middle.
  - specialize (IH (h0 ++ [Some (Cell NewArr (BChars (c_str s)))])).
    rewrite length_app, Nat.add_1_r, <- app_assoc in IH. exact IH.
Qed.

Lemma copyVectorStringToCharPtrPtr_around v (pre post : heap) (x : option cell) :
  copyVectorStringToCharPtrPtr v (pre ++ x :: post) =
    Ok (Ptr (List.length pre + S (List.length post + List.length v)))
       (pre ++ x :: (post
          ++ ((λ s, Some (Cell NewArr (BChars (c_str s)))) <$> v)
          ++ [Some (Cell NewArr (BCharPtrs
                (Ptr <$> seq (List.length pre + S (List.length post))
                             (List.length v))))])).
Proof.
  rewrite copyVectorStringToCharPtrPtr_run, length_app. cbn [List.length].
  rewrite <- app_assoc. cbn [app].
  now replace (List.length pre + S (List.length post) + List.length v)%nat
    with (List.length pre + S (List.length post + List.length v))%nat by lia.
Qed.

Lemma strings_at_behind (pre post tail : heap) (x : option cell) v n :
  n = (List.length pre + S (List.length post))%nat →
  strings_at
    (pre ++ x :: (post
       ++ ((λ s, Some (Cell NewArr (BChars (c_str s)))) <$> v) ++ tail))
    (Ptr <$> seq n (List.length v)) v.
Proof.
  intros ->.
  pose proof (strings_at_cells (pre ++ x :: post) tail v) as Hs.
  rewrite length_app, <- app_assoc in Hs. exact Hs.
Qed.

Lemma cell_at_behind_last (pre post : heap) (x : option cell) c n :
  n = List.length post →
  cell_at (pre ++ x :: (post ++ [Some c])) (Ptr (List.length pre + S n))
  = Some c.
Proof. intros ->. apply cell_at_behind. now rewrite list_lookup_middle. Qed.

Lemma app_cons_assoc {A} (l l' : list A) (x : A) :
  l ++ x :: l' = (l ++ [x]) ++ l'.
Proof. now rewrite <- app_assoc. Qed.

Lemma cast_item_Ok {pyobj T} (cast : pyobj → option T) values i v h :
  values !! i ≫= cast = Some v → cast_item cast values i h = Ok v h.
Proof.
  unfold cast_item. destruct (values !! i) as [o|]; simpl; [|discriminate].
  now intros ->.
Qed.

(** ** [createDataframe] *)

Section createDataframe_spec.
Context `{RT : Runtime} {pyobj : Type} `{PY : Pybind11 pyobj}.
Variable columnsValues : list pyobj.
Variable columnsNames : list string.
Variable columnsTypes : list Z.
Variable isIndex : list bool.

Lemma createDataframe_column_run (pre post : heap) cols i c0 name b type :
  (i < List.length cols)%nat →
  columnsNames !! i = Some name →
  valid_utf8 name = true →
  isIndex !! i = Some b →
  columnsTypes !! i = Some type →
  converts type (columnsValues !! i) →
  ∃ new c,
    createDataframe_column (Ptr (List.length pre)) columnsValues columnsNames
      columnsTypes isIndex i
      (pre ++ Some (Cell NewArr (BSeriesArr (<[i := c0]> cols))) :: post)
    = Ok () (pre ++ Some (Cell NewArr (BSeriesArr (<[i := c]> cols)))
                 :: (post ++ new)) ∧
    column_built
      (pre ++ Some (Cell NewArr (BSeriesArr (<[i := c]> cols))) :: (post ++ new))
      name b type (columnsValues !! i) c.
Proof.
  intros Hi Hname Htext Hb Htype Hconv.
  unfold createDataframe_column.
  run (vector_at_Ok _ _ _ _ Hname).
  run (py_str_Ok _ _ Htext).
  run (strdup_around _ _ _ _).
  run (set_series_around_insert _ _ _ _ _ _ _ Hi).
  run (vector_at_Ok _ _ _ _ Hb).
  run (set_series_around_insert _ _ _ _ _ _ _ Hi).
  run (vector_at_Ok _ _ _ _ Htype).
  run (set_series_around_insert _ _ _ _ _ _ _ Hi).
  unfold converts in Hconv. unfold column_built, data_built.
  set (name_cell := Some (Cell Malloc (BChars (c_str (until_NUL name))))).
  assert (Hname_cell : ∀ x new,
    cell_at (pre ++ x :: post ++ name_cell :: new)
            (Ptr (List.length pre + S (List.length post)))
    = Some (Cell Malloc (BChars (c_str (until_NUL name))))).
  { intros x new. apply cell_at_behind. now rewrite list_lookup_middle. }
  destruct (decide (type = 0)) as [Ht0|Ht0];
    [|destruct (decide (type = 1)) as [Ht1|Ht1];
      [|destruct (decide (type = 2 ∨ type = 3)) as [Ht2|Ht2]]].
  - destruct Hconv as [v Hv].
    run (cast_item_Ok _ _ _ _ _ Hv).
    run (set_series_around_insert _ _ _ _ _ _ _ Hi).
    run (copyVectorStringToCharPtrPtr_around _ _ _ _).
    rewrite (set_series_around_insert _ _ _ _ _ _ _ Hi).
    rewrite <- !(app_assoc post).
    eexists (name_cell :: _ ++ [_]), _. split; [reflexivity|].
    split; [apply Hname_cell|].
    split; [reflexivity|]. split; [reflexivity|].
    exists v, (List.length pre + S (List.length (post ++ [name_cell])))%nat.
    split; [exact Hv|]. split; [reflexivity|].
    cbn [series_data with_data_ptr with_data_length array_ptr].
    split.
    + rewrite (app_cons_assoc post (_ ++ _)), (app_assoc (post ++ _)).
      apply cell_at_behind_last. rewrite !length_app, length_fmap. lia.
    + rewrite (app_cons_assoc post (_ ++ _)). now apply strings_at_behind.
  - destruct Hconv as [v Hv].
    run (cast_item_Ok _ _ _ _ _ Hv).
    run (set_series_around_insert _ _ _ _ _ _ _ Hi).
    unfold copyVectorDouble.
    run (alloc_around _ _ _ _ _).
    rewrite (set_series_around_insert _ _ _ _ _ _ _ Hi).
    rewrite <- !(app_assoc post).
    eexists [name_cell; _], _. split; [reflexivity|].
    split; [apply Hname_cell|].
    split; [reflexivity|]. split; [reflexivity|].
    exists v. split; [exact Hv|]. split; [reflexivity|].
    cbn [series_data with_data_ptr with_data_length array_ptr].
    rewrite (app_cons_assoc post [_]). now apply cell_at_behind_last.
  - destruct Hconv as [v Hv].
    run (cast_item_Ok _ _ _ _ _ Hv).
    run (set_series_around_insert _ _ _ _ _ _ _ Hi).
    unfold copyVectorInt.
    run (alloc_around _ _ _ _ _).
    rewrite (set_series_around_insert _ _ _ _ _ _ _ Hi).
    rewrite <- !(app_assoc post).
    eexists [name_cell; _], _. split; [reflexivity|].
    split; [apply Hname_cell|].
    split; [reflexivity|]. split; [reflexivity|].
    exists v. split; [exact Hv|]. split; [reflexivity|].
    cbn [series_data with_data_ptr with_data_length array_ptr].
    rewrite (app_cons_assoc post [_]). now apply cell_at_behind_last.
  - eexists [name_cell], _. split; [reflexivity|].
    split; [apply Hname_cell|]. now repeat split.
Qed.

Lemma strings_at_keeps h h' qs v :
  keeps h h' → strings_at h qs v → strings_at h' qs v.
Proof.
  intros K Hs. eapply Forall2_impl; [exact Hs|].
  intros q s E. now apply K.
Qed.

Lemma column_built_keeps h h' name b type o c :
  keeps h h' →
  column_built h name b type o c → column_built h' name b type o c.
Proof.
  intros K (Hn & Hi & Ht & Hd). repeat split; try assumption.
  - now apply K.
  - unfold data_built in *.
    repeat case_decide.
    + destruct Hd as (v & a & Hv & Hl & Hp & Hs).
      exists v, a. repeat split; try assumption.
      * now apply K.
      * now apply (strings_at_keeps h).
    + destruct Hd as (v & Hv & Hl & Hp). exists v.
      repeat split; try assumption. now apply K.
    + destruct Hd as (v & Hv & Hl & Hp). exists v.
      repeat split; try assumption. now apply K.
    + exact I.
Qed.

Hypothesis arguments :
  well_formed columnsValues columnsNames columnsTypes isIndex.
Hypothesis names : text_names columnsNames.

Lemma createDataframe_loop (pre : heap) (m : nat) :
  ∀ k cols post,
  (k + m)%nat = List.length columnsNames →
  List.length cols = List.length columnsNames →
  columns_built (pre ++ Some (Cell NewArr (BSeriesArr cols)) :: post)
    columnsValues columnsNames columnsTypes isIndex cols k →
  ∃ cols' new,
    for_each (seq k m)
      (createDataframe_column (Ptr (List.length pre)) columnsValues
         columnsNames columnsTypes isIndex)
      (pre ++ Some (Cell NewArr (BSeriesArr cols)) :: post)
    = Ok () (pre ++ Some (Cell NewArr (BSeriesArr cols')) :: (post ++ new)) ∧
    List.length cols' = List.length columnsNames ∧
    columns_built
      (pre ++ Some (Cell NewArr (BSeriesArr cols')) :: (post ++ new))
      columnsValues columnsNames columnsTypes isIndex cols' (k + m).
Proof.
  induction m as [|m IH]; intros k cols post Hk Hlen Hinv.
  - exists cols, []. rewrite app_nil_r, Nat.add_0_r. now repeat split.
  - destruct (arguments k ltac:(lia)) as (type & b & Htype & Hb & Hconv).
    destruct (lookup_lt_is_Some_2 columnsNames k ltac:(lia)) as [name Hname].
    destruct (lookup_lt_is_Some_2 cols k ltac:(lia)) as [c0 Hc0].
    pose proof (proj1 (Forall_lookup _ _) names k name Hname) as Htext.
    destruct (createDataframe_column_run pre post cols k c0 name b type
                ltac:(lia) Hname Htext Hb Htype Hconv)
      as (new1 & c & Hrun & Hcol).
    rewrite (list_insert_id _ _ _ Hc0) in Hrun.
    destruct (IH (S k) (<[k := c]> cols) (post ++ new1)) as
      (cols' & new2 & Hloop & Hlen' & Hinv').
    + lia.
    + now rewrite length_insert.
    + intros j name' Hj Hname'.
      destruct (decide (j = k)) as [->|Hjk].
      * exists c, b, type. rewrite list_lookup_insert_eq by lia.
        now simplify_eq.
      * destruct (Hinv j name' ltac:(lia) Hname')
          as (c' & b' & type' & Hc' & Hb' & Htype' & Hbuilt).
        exists c', b', type'. rewrite list_lookup_insert_ne by congruence.
        refine (conj Hc' (conj Hb' (conj Htype' _))).
        eapply column_built_keeps; [|exact Hbuilt].
        apply keeps_around. now intros ? [= <-].
    + exists cols', (new1 ++ new2).
      cbn [seq for_each]. rewrite (bind_Ok _ _ _ _ _ Hrun).
      rewrite app_assoc. rewrite Hloop.
      split; [reflexivity|]. split; [assumption|].
      now replace (k + S m)%nat with (S k + m)%nat by lia.
Qed.

Lemma set_dataframe_around pre k df post f :
  set_dataframe (Ptr (List.length pre)) f
    (pre ++ Some (Cell k (BDataframe df)) :: post)
  = Ok () (pre ++ Some (Cell k (BDataframe (f df))) :: post).
Proof.
  unfold set_dataframe, load_dataframe, bind, load.
  rewrite lookup_around. simpl. rewrite lookup_around. simpl.
  now rewrite insert_around.
Qed.

(** On arguments that fit together, with names that are text,
    [createDataframe] returns a table built from them, in cells behind
    those of the heap it started from. *)
Lemma createDataframe_builds (h : heap) :
  ∃ new,
    createDataframe columnsValues columnsNames columnsTypes isIndex h
    = Ok (Ptr (List.length h)) (h ++ new) ∧
    table_built (h ++ new) columnsValues columnsNames columnsTypes isIndex
      (Ptr (List.length h)).
Proof.
  unfold createDataframe.
  rewrite (bind_Ok _ _ _ _ _ (eq_refl : alloc _ _ h = Ok _ _)).
  set (hdr0 := Some (Cell New (BDataframe (Dataframe Null 0)))).
  pose (cols0 := indeterminate_series <$> seq 0 (List.length columnsNames)).
  destruct (createDataframe_loop (h ++ [hdr0]) (List.length columnsNames)
              0 cols0 []) as (cols & new & Hloop & Hlen & Hbuilt).
  - reflexivity.
  - unfold cols0. now rewrite length_fmap, length_seq.
  - intros j name Hj. lia.
  - exists (Some (Cell New (BDataframe
              (Dataframe (Ptr (S (List.length h)))
                         (Z.of_nat (List.length columnsNames)))))
            :: Some (Cell NewArr (BSeriesArr cols)) :: new).
    assert (Hkeep : keeps
      ((h ++ [hdr0]) ++ Some (Cell NewArr (BSeriesArr cols)) :: [] ++ new)
      (h ++ Some (Cell New (BDataframe
              (Dataframe (Ptr (S (List.length h)))
                         (Z.of_nat (List.length columnsNames)))))
         :: Some (Cell NewArr (BSeriesArr cols)) :: new)).
    { rewrite <- (app_assoc h). cbn [app].
      rewrite <- (app_nil_r new) at 2.
      apply (keeps_around h (_ :: new) []). now intros ? [= <-]. }
    split.
    + apply unwinding_Ok.
      rewrite (bind_Ok _ _ _ _ _ (eq_refl : alloc _ _ (h ++ [hdr0]) = Ok _ _)).
      unfold for_loop. run Hloop.
      rewrite <- (app_assoc h). cbn [app]. subst hdr0.
      run (set_dataframe_around _ _ _ _ _).
      run (set_dataframe_around _ _ _ _ _).
      unfold ret. rewrite length_app, Nat.add_1_r. reflexivity.
    + exists (Ptr (S (List.length h))), cols. split; [|split; [|split]].
      * simpl. now rewrite list_lookup_middle.
      * replace (S (List.length h)) with (List.length h + 1)%nat by lia.
        now apply cell_at_behind.
      * exact Hlen.
      * intros j name Hname.
        destruct (Hbuilt j name) as (c & b & type & Hc & Hb & Htype & Hcol);
          [apply (lookup_lt_Some _ _ _ Hname)|exact Hname|].
        exists c, b, type. refine (conj Hc (conj Hb (conj Htype _))).
        eapply column_built_keeps; [exact Hkeep|exact Hcol].
Qed.

End createDataframe_spec.

(** ** Reading a table back *)

Lemma cell_at_content h p c :
  cell_at h p = Some c → content_at h p = Some (cell_content c).
Proof.
  destruct p as [|l]; simpl; [discriminate|].
  destruct (h !! l) as [[c'|]|]; intros E; now simplify_eq.
Qed.

Lemma string_of_char_ptr_Ok h q chars s :
  content_at h q = Some (BChars chars) → read_c_str chars = Some s →
  string_of_char_ptr q h = Ok s h.
Proof.
  intros Hq Hs. unfold string_of_char_ptr.
  rewrite (bind_Ok _ _ _ _ _ (load_Ok _ _ _ Hq)). now rewrite Hs.
Qed.

Lemma char_ptr_at_Ok h p qs i q :
  content_at h p = Some (BCharPtrs qs) → qs !! i = Some q →
  char_ptr_at p i h = Ok q h.
Proof.
  intros Hp Hq. unfold char_ptr_at.
  rewrite (bind_Ok _ _ _ _ _ (load_Ok _ _ _ Hp)). now apply vector_at_Ok.
Qed.

(** Reading [m] strings through the pointers from position [k] on. *)
Lemma map_M_read_strings h p qs :
  content_at h p = Some (BCharPtrs qs) →
  ∀ m k v, List.length v = m →
    (∀ j s, v !! j = Some s →
       ∃ q chars, qs !! (k + j)%nat = Some q ∧
                  content_at h q = Some (BChars chars) ∧
                  read_c_str chars = Some s) →
    map_M (λ i, q ← char_ptr_at p i; string_of_char_ptr q) (seq k m) h
    = Ok v h.
Proof.
  intros Hp. induction m as [|m IH]; intros k v Hlen Hv.
  - destruct v; [reflexivity|discriminate].
  - destruct v as [|s v]; [discriminate|].
    destruct (Hv 0%nat s eq_refl) as (q & chars & Hq & Hc & Hs).
    rewrite Nat.add_0_r in Hq.
    cbn [seq map_M].
    run (char_ptr_at_Ok _ _ _ _ _ Hp Hq).
    run (string_of_char_ptr_Ok _ _ _ _ Hc Hs).
    assert (Hv' : ∀ j s', v !! j = Some s' →
       ∃ q' chars', qs !! (S k + j)%nat = Some q' ∧
                    content_at h q' = Some (BChars chars') ∧
                    read_c_str chars' = Some s').
    { intros j s' Hj. destruct (Hv (S j) s' Hj) as (q' & chars' & Hq' & H').
      exists q', chars'. now rewrite <- Nat.add_succ_comm in Hq'. }
    simpl in Hlen.
    now rewrite (bind_Ok _ _ _ _ _ (IH (S k) v ltac:(lia) Hv')).
Qed.

Lemma strings_behind_copies h p qs v :
  content_at h p = Some (BCharPtrs qs) →
  strings_at h qs v →
  strings_behind p (List.length v) h = Ok (until_NUL <$> v) h.
Proof.
  intros Hp Hs. unfold strings_behind.
  apply (map_M_read_strings h p qs Hp).
  - now rewrite length_fmap.
  - intros j s Hj. apply list_lookup_fmap_Some in Hj as (s0 & -> & Hj).
    destruct (Forall2_lookup_r _ _ _ _ _ Hs Hj) as (q & Hq & Hcell).
    exists q, (c_str s0). split; [exact Hq|]. split.
    + apply (cell_at_content _ _ _ Hcell).
    + apply read_c_str_c_str.
Qed.

Lemma until_NUL_free_all (v : list string) :
  Forall (λ s, NUL_free s = true) v → until_NUL <$> v = v.
Proof.
  induction 1 as [|s v Hs _ IH]; [reflexivity|].
  cbn [fmap list_fmap]. now rewrite (until_NUL_free s Hs), IH.
Qed.

Lemma first_items_all {A} (l : list A) h :
  first_items (List.length l) l h = Ok l h.
Proof.
  unfold first_items. rewrite decide_True by lia. now rewrite firstn_all.
Qed.

Lemma ndarray_items_doubles h p v s :
  content_at h p = Some (BDoubles v) →
  ndarray_items (NdArray dtype_double (Z.of_nat (List.length v)) p s) h
  = Ok (Float <$> v) h.
Proof.
  intros Hp. unfold ndarray_items. cbn [arr_shape arr_data arr_dtype].
  rewrite Nat2Z.id. case_decide as Hn.
  - destruct v; [reflexivity|discriminate].
  - rewrite (bind_Ok _ _ _ _ _ (load_Ok _ _ _ Hp)).
    rewrite <- (length_fmap Float v). apply first_items_all.
Qed.

Lemma ndarray_items_ints h p v s :
  content_at h p = Some (BInts v) →
  ndarray_items (NdArray dtype_int (Z.of_nat (List.length v)) p s) h
  = Ok (Int <$> v) h.
Proof.
  intros Hp. unfold ndarray_items. cbn [arr_shape arr_data arr_dtype].
  rewrite Nat2Z.id. case_decide as Hn.
  - destruct v; [reflexivity|discriminate].
  - rewrite (bind_Ok _ _ _ _ _ (load_Ok _ _ _ Hp)).
    rewrite <- (length_fmap Int v). apply first_items_all.
Qed.

Lemma column_at_Ok h df columns n cols i c :
  cell_at h df = Some (Cell New (BDataframe (Dataframe columns n))) →
  cell_at h columns = Some (Cell NewArr (BSeriesArr cols)) →
  cols !! i = Some c →
  column_at df i h = Ok c h.
Proof.
  intros Hdf Hcols Hc. unfold column_at.
  rewrite (bind_Ok _ _ _ _ _
             (load_dataframe_Ok _ _ _ (cell_at_content _ _ _ Hdf))).
  unfold load_series. cbn [df_series].
  rewrite (bind_Ok _ _ _ _ _ (load_Ok _ _ _ (cell_at_content _ _ _ Hcols))).
  now apply vector_at_Ok.
Qed.

(** ** Round trip through [createDataframe] and the [data] property *)

Section round_trip.
Context `{RT : Runtime} {pyobj : Type} `{PY : Pybind11 pyobj}.

Lemma table_built_column h columnsValues columnsNames columnsTypes isIndex
    df indice type o :
  table_built h columnsValues columnsNames columnsTypes isIndex df →
  (indice < List.length columnsNames)%nat →
  columnsTypes !! indice = Some type →
  columnsValues !! indice = Some o →
  ∃ c name b, column_at df indice h = Ok c h ∧
              columnsNames !! indice = Some name ∧
              column_built h name b type (Some o) c.
Proof.
  intros (columns & cols & Hdf & Hcols & Hlen & Hall) Hi Htype Ho.
  destruct (lookup_lt_is_Some_2 columnsNames indice Hi) as [name Hname].
  destruct (Hall indice name Hname) as (c & b & type' & Hc & Hb & Ht & Hcol).
  simplify_eq. rewrite Ho in Hcol.
  exists c, name, b. split; [|split; assumption].
  eapply column_at_Ok; eassumption.
Qed.

Lemma Series_data_string (c : series) (h : heap) :
  series_type c = 0 →
  Series_data c h =
    bind (toVector_string (series_data c))
         (λ l, bind (map_M py_str l) (λ l, ret (PyStrList l))) h.
Proof. intros E. unfold Series_data. now rewrite E. Qed.

Lemma Series_data_double (c : series) (h : heap) :
  series_type c = 1 →
  Series_data c h = Ok (PyArray (seriesAsNumpyArray dtype_double c)) h.
Proof. intros E. unfold Series_data. now rewrite E. Qed.

Lemma Series_data_int (c : series) (h : heap) :
  series_type c = 2 →
  Series_data c h = Ok (PyArray (seriesAsNumpyArray dtype_int c)) h.
Proof. intros E. unfold Series_data. now rewrite E. Qed.

Lemma Series_data_bool (c : series) (h : heap) :
  series_type c = 3 →
  Series_data c h = Ok (PyArray (seriesAsNumpyArray dtype_bool c)) h.
Proof. intros E. unfold Series_data. now rewrite E. Qed.

End round_trip.

(** C1: on arguments that fit together, with names that are text,
    [createDataframe] returns a table such that the [data] property of a
    column of type STRING, FLOAT64 or INT32 gives back the values the
    column was built from, provided, for STRING, that every string is
    text, well-formed UTF-8, and holds no NUL character; the list of
    strings that the property returns for STRING reads the same on
    whatever heap. *)
Theorem createDataframe_round_trip `{RT : Runtime} {pyobj : Type}
    `{PY : Pybind11 pyobj} (columnsValues : list pyobj)
    (columnsNames : list string) (columnsTypes : list Z) (isIndex : list bool)
    (h : heap) (indice : nat) (type : Z) (o : pyobj) :
  well_formed columnsValues columnsNames columnsTypes isIndex →
  text_names columnsNames →
  (indice < List.length columnsNames)%nat →
  columnsTypes !! indice = Some type →
  columnsValues !! indice = Some o →
  ∃ h',
    createDataframe columnsValues columnsNames columnsTypes isIndex h
    = Ok (Ptr (List.length h)) h' ∧
    (type = 0 → ∀ v, cast_vector_string o = Some v →
       Forall (λ s, NUL_free s = true) v →
       Forall (λ s, valid_utf8 s = true) v →
       column_data (Ptr (List.length h)) indice h' = Ok (PyStrList v) h' ∧
       ∀ h'', python_items (PyStrList v) h'' = Ok (Str <$> v) h'') ∧
    (type = 1 → ∀ v, cast_vector_double o = Some v →
       read_column (Ptr (List.length h)) indice h' = Ok (Float <$> v) h') ∧
    (type = 2 → ∀ v, cast_vector_int o = Some v →
       read_column (Ptr (List.length h)) indice h' = Ok (Int <$> v) h').
Proof.
  intros Hwf Hnames Hi Htype Ho.
  destruct (createDataframe_builds _ _ _ _ Hwf Hnames h)
    as (new & Hrun & Hbuilt).
  exists (h ++ new). split; [exact Hrun|].
  destruct (table_built_column _ _ _ _ _ _ _ _ _ Hbuilt Hi Htype Ho)
    as (c & name & b & Hc & Hname & (_ & _ & Hty & Hdata)).
  unfold data_built in Hdata. unfold read_column, column_data.
  split; [|split]; intros -> v Hv.
  - intros Hfree Htext. split; [|reflexivity].
    rewrite decide_True in Hdata by reflexivity.
    destruct Hdata as (v' & a & Hv' & Hlen & Hp & Hs).
    simpl in Hv'. simplify_eq.
    rewrite (bind_Ok _ _ _ _ _ Hc), (Series_data_string _ _ Hty).
    unfold toVector_string. rewrite Hlen, Nat2Z.id.
    rewrite (bind_Ok _ _ _ _ _
      (strings_behind_copies _ _ _ _ (cell_at_content _ _ _ Hp) Hs)).
    rewrite until_NUL_free_all by exact Hfree.
    now rewrite (bind_Ok _ _ _ _ _ (map_M_py_str _ _ Htext)).
  - rewrite decide_False, decide_True in Hdata by lia.
    destruct Hdata as (v' & Hv' & Hlen & Hp). simpl in Hv'. simplify_eq.
    run Hc. rewrite (bind_Ok _ _ _ _ _ (Series_data_double _ _ Hty)).
    unfold python_items, seriesAsNumpyArray. rewrite Hlen.
    apply ndarray_items_doubles, (cell_at_content _ _ _ Hp).
  - rewrite !decide_False, decide_True in Hdata by lia.
    destruct Hdata as (v' & Hv' & Hlen & Hp). simpl in Hv'. simplify_eq.
    run Hc. rewrite (bind_Ok _ _ _ _ _ (Series_data_int _ _ Hty)).
    unfold python_items, seriesAsNumpyArray. rewrite Hlen.
    apply ndarray_items_ints, (cell_at_content _ _ _ Hp).
Qed.

(** Arguments given in full fit together when each column does. *)
Ltac check_arguments :=
  let indice := fresh "indice" in
  let Hi := fresh "Hi" in
  intros indice Hi;
  repeat (destruct indice as [|indice];
          [eexists _, _; split; [reflexivity|]; split; [reflexivity|];
           unfold converts; simpl; try (eexists; reflexivity); try exact I|]);
  simpl in Hi; lia.

Lemma createDataframe_round_trip_witness :
  ∃ h',
    createDataframe (RT := cxx) (PY := pylist_casts) bus_values
      ["id"; "v"]%string [0; 1] [true; false] []
    = Ok (Ptr 0) h' ∧
    (1 = 0 → ∀ v, cast_vector_string (PyFloats
                     [0x3FF0CCCCCCCCCCCD; 0x3FEF5C28F5C28F5C]) = Some v →
       Forall (λ s, NUL_free s = true) v →
       Forall (λ s, valid_utf8 s = true) v →
       column_data (Ptr 0) 1 h' = Ok (PyStrList v) h' ∧
       ∀ h'', python_items (PyStrList v) h'' = Ok (Str <$> v) h'') ∧
    (1 = 1 → ∀ v, cast_vector_double (PyFloats
                     [0x3FF0CCCCCCCCCCCD; 0x3FEF5C28F5C28F5C]) = Some v →
       read_column (Ptr 0) 1 h' = Ok (Float <$> v) h') ∧
    (1 = 2 → ∀ v, cast_vector_int (PyFloats
                     [0x3FF0CCCCCCCCCCCD; 0x3FEF5C28F5C28F5C]) = Some v →
       read_column (Ptr 0) 1 h' = Ok (Int <$> v) h').
Proof.
  apply (createDataframe_round_trip (RT := cxx) (PY := pylist_casts)
           bus_values ["id"; "v"]%string [0; 1] [true; false] [] 1 1
           (PyFloats [0x3FF0CCCCCCCCCCCD; 0x3FEF5C28F5C28F5C])).
  - check_arguments.
  - repeat constructor.
  - simpl. lia.
  - reflexivity.
  - reflexivity.
Defined.

(** The scenario: the table of an index column "id" and a column "v" reads
    back as B1, B2 and as 1.05, 0.98. *)
Example bus_table_reads_back :
  ∃ df h,
    bus_table (RT := cxx) [] = Ok df h ∧
    read_column df 0 h = Ok [Str "B1"; Str "B2"] h ∧
    read_column df 1 h =
      Ok [Float 0x3FF0CCCCCCCCCCCD; Float 0x3FEF5C28F5C28F5C] h.
Proof. do 2 eexists. repeat split; reflexivity. Qed.

(** C1, as stated, fails: a string with a NUL character comes back cut at
    that character, and a column of type BOOL built from two true values
    reads as true, false, each [bool] item of the array being one byte of
    the [int] array that [createDataframe] filled. *)
Lemma createDataframe_round_trip_fails :
  (∃ df h items,
     createDataframe (RT := cxx) (PY := pylist_casts)
       [PyStrs [a_NUL_b]] ["id"]%string [0] [true] [] = Ok df h ∧
     read_column df 0 h = Ok items h ∧
     items = [Str "a"] ∧ items ≠ [Str a_NUL_b]) ∧
  (∃ df h items,
     createDataframe (RT := cxx) (PY := pylist_casts)
       [PyBools [true; true]] ["connected"]%string [3] [false] [] = Ok df h ∧
     read_column df 0 h = Ok items h ∧
     items = [Bool true; Bool false] ∧ items ≠ Bool <$> [true; true]).
Proof.
  split; do 3 eexists; (split; [reflexivity|]); (split; [reflexivity|]);
    (split; [reflexivity|]); discriminate.
Qed.

(** ** Column names *)

(** C9: [createDataframe] does not check that a name is not empty.  On
    arguments that fit together whose names are text, well-formed UTF-8,
    the empty name among them or not, it returns a table, and the name of
    each column of this table is the name given, up to its first NUL
    character. *)
Theorem createDataframe_accepts_empty_names `{RT : Runtime} {pyobj : Type}
    `{PY : Pybind11 pyobj} (columnsValues : list pyobj)
    (columnsNames : list string) (columnsTypes : list Z) (isIndex : list bool)
    (h : heap) :
  well_formed columnsValues columnsNames columnsTypes isIndex →
  text_names columnsNames →
  ∃ h',
    createDataframe columnsValues columnsNames columnsTypes isIndex h
    = Ok (Ptr (List.length h)) h' ∧
    ∀ indice name, columnsNames !! indice = Some name →
      ∃ column,
        column_at (Ptr (List.length h)) indice h' = Ok column h' ∧
        string_of_char_ptr (series_name column) h' = Ok (until_NUL name) h'.
Proof.
  intros Hwf Hnames.
  destruct (createDataframe_builds _ _ _ _ Hwf Hnames h)
    as (new & Hrun & Hbuilt).
  exists (h ++ new). split; [exact Hrun|].
  intros indice name Hname.
  destruct Hbuilt as (columns & cols & Hdf & Hcols & Hlen & Hall).
  destruct (Hall indice name Hname) as (c & b & type & Hc & _ & _ & Hn & _).
  exists c. split.
  - eapply column_at_Ok; eassumption.
  - eapply string_of_char_ptr_Ok.
    + apply (cell_at_content _ _ _ Hn).
    + simpl. now rewrite read_c_str_c_str, until_NUL_idem.
Qed.

Lemma createDataframe_accepts_empty_names_witness :
  ∃ h',
    createDataframe (RT := cxx) (PY := pylist_casts)
      [PyStrs ["B1"]%string] [""]%string [0] [true] []
    = Ok (Ptr 0) h' ∧
    ∀ indice name, [""]%string !! indice = Some name →
      ∃ column,
        column_at (Ptr 0) indice h' = Ok column h' ∧
        string_of_char_ptr (series_name column) h' = Ok (until_NUL name) h'.
Proof.
  apply (createDataframe_accepts_empty_names (RT := cxx) (PY := pylist_casts)
           [PyStrs ["B1"]%string] [""]%string [0] [true] []).
  - check_arguments.
  - repeat constructor.
Defined.

(** C9, as stated, fails: given the empty name, [createDataframe] returns a
    table whose column has the empty name. *)
Lemma createDataframe_empty_name_accepted :
  ∃ df h column,
    createDataframe (RT := cxx) (PY := pylist_casts)
      [PyStrs ["B1"]%string] [""]%string [0] [true] [] = Ok df h ∧
    column_at df 0 h = Ok column h ∧
    string_of_char_ptr (series_name column) h = Ok ""%string h.
Proof. do 3 eexists. repeat split; reflexivity. Qed.

(** The scenario: three tables of 2, 3 and 1 rows, built one after the
    other, then passed together. *)
Lemma createDataframeArray_copies_headers_witness :
  let h0 := heap_after (three_tables (RT := cxx)) [] in
  let dataframeArray := Ptr (List.length h0) in
  let built :=
    h0 ++ [Some (Cell New (BDataframeArray
              (DataframeArray (Ptr (S (List.length h0))) 3)));
           Some (Cell NewArr (BDataframes
              [Dataframe (Ptr 1) 2; Dataframe (Ptr 9) 2;
               Dataframe (Ptr 18) 2]))] in
  createDataframeArray (RT := cxx) [Ptr 0; Ptr 8; Ptr 17] h0
  = Ok dataframeArray built ∧
  dataframeArray_deleter (RT := cxx) dataframeArray built
  = Ok () (h0 ++ [None; None]).
Proof.
  apply (createDataframeArray_copies_headers (RT := cxx)
           (heap_after (three_tables (RT := cxx)) [])
           [Ptr 0; Ptr 8; Ptr 17]
           [Dataframe (Ptr 1) 2; Dataframe (Ptr 9) 2; Dataframe (Ptr 18) 2]).
  repeat constructor.
Defined.

(** ** Releasing cells *)

Lemma released_snoc ls l (h : heap) :
  released (ls ++ [l]) h = <[l := None]> (released ls h).
Proof. unfold released. now rewrite foldl_app. Qed.

Lemma lookup_released ls (h : heap) l :
  l ∉ ls → released ls h !! l = h !! l.
Proof.
  revert h. induction ls as [|a ls IH]; intros h Hl; [reflexivity|].
  apply not_elem_of_cons in Hl as [Hne Hl]. simpl.
  rewrite (IH _ Hl). now apply list_lookup_insert_ne.
Qed.

Lemma length_released ls (h : heap) :
  List.length (released ls h) = List.length h.
Proof.
  revert h. induction ls as [|a ls IH]; intros h; [reflexivity|].
  simpl. now rewrite IH, length_insert.
Qed.

Lemma lookup_released_in ls (h : heap) l :
  l ∈ ls → (l < List.length h)%nat → released ls h !! l = Some None.
Proof.
  induction ls as [|a ls IH] using rev_ind; intros Hl Hlt.
  - now apply elem_of_nil in Hl.
  - rewrite released_snoc. destruct (decide (l = a)) as [->|Hne].
    + apply list_lookup_insert_eq. now rewrite length_released.
    + rewrite list_lookup_insert_ne by congruence. apply IH; [|exact Hlt].
      apply elem_of_app in Hl as [Hl|Hl]; [exact Hl|].
      apply list_elem_of_singleton in Hl. congruence.
Qed.

Lemma elem_of_concat {A} (x : A) (l : list A) (ls : list (list A)) :
  x ∈ l → l ∈ ls → x ∈ concat ls.
Proof.
  intros Hx. induction 1 as [|l' l ls _ IH]; simpl;
    apply elem_of_app; auto.
Qed.

Lemma NoDup_app_notin {A} (l1 l2 : list A) x :
  NoDup (l1 ++ l2) → x ∈ l2 → x ∉ l1.
Proof.
  intros H Hx Hx1. apply NoDup_app in H as (_ & H & _). now apply (H x).
Qed.

Section releasing.
Context `{RT : Runtime}.

Lemma releasable_Ptr h how is_T p l :
  releasable h how is_T p = Some l → p = Ptr l.
Proof.
  destruct p as [|l']; simpl; [discriminate|].
  destruct (h !! l') as [[c|]|]; try discriminate.
  destruct (_ && _); [|discriminate]. now intros [= ->].
Qed.

Lemma releasable_lt h how is_T p l :
  releasable h how is_T p = Some l → (l < List.length h)%nat.
Proof.
  intros H. pose proof (releasable_Ptr _ _ _ _ _ H) as ->. simpl in H.
  destruct (h !! l) as [o|] eqn:E; [|discriminate].
  now apply lookup_lt_Some in E.
Qed.

Lemma dealloc_released h done how is_T p l :
  releasable h how is_T p = Some l → l ∉ done →
  dealloc how is_T p (released done h) = Ok () (released (done ++ [l]) h).
Proof.
  intros H Hl. pose proof (releasable_Ptr _ _ _ _ _ H) as ->.
  simpl in H. unfold dealloc. rewrite (lookup_released _ _ _ Hl).
  destruct (h !! l) as [[c|]|]; try discriminate.
  destruct (dealloc_accepts (cell_kind c) how); simpl in *; [|discriminate].
  destruct (is_T (cell_content c)); [|discriminate].
  now rewrite released_snoc.
Qed.

Lemma content_at_released h done p l b :
  p = Ptr l → l ∉ done →
  content_at h p = Some b → content_at (released done h) p = Some b.
Proof. intros -> Hl. simpl. now rewrite (lookup_released _ _ _ Hl). Qed.

(** The loop of [deleteCharPtrPtr], from position [k] on. *)
Lemma deleteCharPtrPtr_loop h p la qs :
  p = Ptr la → content_at h p = Some (BCharPtrs qs) →
  ∀ todo k done rest,
    (∀ j l, todo !! j = Some l →
       ∃ q, qs !! (k + j)%nat = Some q ∧
            releasable h NewArr is_chars q = Some l) →
    NoDup (done ++ todo ++ rest) → la ∈ rest →
    for_each (seq k (List.length todo))
      (λ i, q ← char_ptr_at p i; dealloc NewArr is_chars q)
      (released done h)
    = Ok () (released (done ++ todo) h).
Proof.
  intros Hp Hqs. induction todo as [|l todo IH]; intros k done rest Hall Hnd Hla.
  - now rewrite app_nil_r.
  - destruct (Hall 0%nat l eq_refl) as (q & Hq & Hrel).
    rewrite Nat.add_0_r in Hq.
    assert (Hla' : la ∉ done).
    { apply (NoDup_app_notin _ _ _ Hnd). apply elem_of_app. now right. }
    assert (Hl : l ∉ done).
    { apply (NoDup_app_notin _ _ _ Hnd). apply elem_of_app. left. left. }
    cbn [List.length seq for_each].
    run (char_ptr_at_Ok _ _ _ _ _
           (content_at_released _ _ _ _ _ Hp Hla' Hqs) Hq).
    rewrite (bind_Ok _ _ _ _ _ (dealloc_released _ _ _ _ _ _ Hrel Hl)).
    rewrite (IH (S k) (done ++ [l]) rest).
    + now rewrite <- app_assoc.
    + intros j l' Hj. destruct (Hall (S j) l' Hj) as (q' & Hq' & Hrel').
      exists q'. now rewrite <- Nat.add_succ_comm in Hq'.
    + now rewrite <- app_assoc.
    + exact Hla.
Qed.

Lemma deleteCharPtrPtr_released h p n ls done :
  char_ptr_ptr_cells h p n = Some ls →
  NoDup (done ++ ls) →
  deleteCharPtrPtr p n (released done h) = Ok () (released (done ++ ls) h).
Proof.
  unfold char_ptr_ptr_cells.
  destruct (content_at h p) as [[| qs | | | | | | |]|] eqn:Hqs; try discriminate.
  case_decide as Hn; [|discriminate].
  destruct (mapM _ _) as [strs|] eqn:Hstrs; [|discriminate].
  destruct (releasable h NewArr is_char_ptrs p) as [la|] eqn:Hla;
    [|discriminate].
  intros [= <-] Hnd.
  pose proof (releasable_Ptr _ _ _ _ _ Hla) as Hp.
  apply mapM_Some in Hstrs.
  pose proof (Forall2_length _ _ _ Hstrs) as Hlen.
  rewrite length_take, Nat.min_l in Hlen by exact Hn.
  assert (Hall : ∀ j l, strs !! j = Some l →
    ∃ q, qs !! (0 + j)%nat = Some q ∧
         releasable h NewArr is_chars q = Some l).
  { intros j l Hj.
    destruct (Forall2_lookup_r _ _ _ _ _ Hstrs Hj) as (q & Hq & Hrel).
    exists q. split; [|exact Hrel].
    apply lookup_take_Some in Hq. apply Hq. }
  unfold deleteCharPtrPtr, for_loop. rewrite Hlen.
  assert (Hin : la ∈ [la]) by left.
  rewrite (bind_Ok _ _ _ _ _
    (deleteCharPtrPtr_loop h p la qs Hp Hqs strs 0 done [la] Hall Hnd Hin)).
  rewrite app_assoc. apply (dealloc_released _ _ _ _ _ _ Hla).
  apply (NoDup_app_notin _ [la]); [now rewrite <- app_assoc|left].
Qed.

Lemma deleteDataframe_column_released h c ls done :
  series_cells h c = Some ls →
  NoDup (done ++ ls) →
  deleteDataframe_column c (released done h)
  = Ok () (released (done ++ ls) h).
Proof.
  unfold series_cells, buffer_cells, deleteDataframe_column.
  destruct (releasable h NewArr is_chars (series_name c)) as [l|] eqn:Hname;
    [|now destruct (if decide _ then _ else _)].
  assert (Hlast : ∀ bl, NoDup (done ++ bl ++ [l]) →
    dealloc NewArr is_chars (series_name c) (released (done ++ bl) h)
    = Ok () (released (done ++ bl ++ [l]) h)).
  { intros bl Hnd. rewrite (app_assoc done).
    apply (dealloc_released _ _ _ _ _ _ Hname).
    apply (NoDup_app_notin _ [l]); [now rewrite <- app_assoc|left]. }
  repeat case_decide.
  - destruct (char_ptr_ptr_cells h _ _) as [bl|] eqn:Hbl; [|discriminate].
    intros [= <-] Hnd.
    assert (Hnd' : NoDup (done ++ bl))
      by (rewrite app_assoc in Hnd; now apply NoDup_app in Hnd).
    rewrite (bind_Ok _ _ _ _ _ (deleteCharPtrPtr_released _ _ _ _ _ Hbl Hnd')).
    now apply Hlast.
  - destruct (releasable h NewArr is_doubles _) as [x|] eqn:Hx;
      [|discriminate].
    intros [= <-] Hnd.
    assert (Hx' : x ∉ done) by (apply (NoDup_app_notin _ _ _ Hnd); left).
    rewrite (bind_Ok _ _ _ _ _ (dealloc_released _ done _ _ _ _ Hx Hx')).
    now apply Hlast.
  - destruct (releasable h NewArr is_ints _) as [x|] eqn:Hx; [|discriminate].
    intros [= <-] Hnd.
    assert (Hx' : x ∉ done) by (apply (NoDup_app_notin _ _ _ Hnd); left).
    rewrite (bind_Ok _ _ _ _ _ (dealloc_released _ done _ _ _ _ Hx Hx')).
    now apply Hlast.
  - intros [= <-] Hnd. rewrite bind_ret.
    rewrite <- (app_nil_r done) at 1. now apply Hlast.
Qed.

(** The loop of [deleteDataframe], from column [k] on. *)
Lemma deleteDataframe_loop h columns s cols :
  columns = Ptr s → content_at h columns = Some (BSeriesArr cols) →
  ∀ todo k done rest,
    (∀ j ls, todo !! j = Some ls →
       ∃ c, cols !! (k + j)%nat = Some c ∧ series_cells h c = Some ls) →
    NoDup (done ++ concat todo ++ rest) → s ∈ rest →
    for_each (seq k (List.length todo))
      (λ indice, column ← load_series columns indice;
                 deleteDataframe_column column)
      (released done h)
    = Ok () (released (done ++ concat todo) h).
Proof.
  intros Hp Hcols.
  induction todo as [|ls todo IH]; intros k done rest Hall Hnd Hs.
  - simpl. now rewrite app_nil_r.
  - destruct (Hall 0%nat ls eq_refl) as (c & Hc & Hcells).
    rewrite Nat.add_0_r in Hc.
    cbn [concat] in Hnd. rewrite <- !app_assoc in Hnd.
    assert (Hs' : s ∉ done).
    { apply (NoDup_app_notin _ _ _ Hnd). rewrite !elem_of_app. auto. }
    cbn [List.length seq for_each concat]. unfold load_series at 1.
    run (load_Ok _ _ _ (content_at_released _ _ _ _ _ Hp Hs' Hcols)).
    run (vector_at_Ok _ _ _ _ Hc).
    assert (Hnd' : NoDup (done ++ ls))
      by (rewrite app_assoc in Hnd; now apply NoDup_app in Hnd).
    rewrite (bind_Ok _ _ _ _ _
               (deleteDataframe_column_released _ _ _ _ Hcells Hnd')).
    rewrite (IH (S k) (done ++ ls) rest).
    + now rewrite <- app_assoc.
    + intros j ls' Hj. destruct (Hall (S j) ls' Hj) as (c' & Hc' & Hcells').
      exists c'. now rewrite <- Nat.add_succ_comm in Hc'.
    + now rewrite <- app_assoc.
    + exact Hs.
Qed.

(** [deleteDataframe] releases the cells of a table one after the other,
    when no cell is among them twice. *)
Lemma deleteDataframe_released h df ls :
  table_cells h df = Some ls → NoDup ls →
  deleteDataframe df h = Ok () (released ls h).
Proof.
  unfold table_cells.
  destruct (content_at h df) as [[| | | | |hdr| | |]|] eqn:Hdf;
    try discriminate.
  destruct (content_at h (df_series hdr)) as [[| | | |cols| | | |]|] eqn:Hcols;
    try discriminate.
  case_decide as Hn; [|discriminate].
  destruct (mapM _ _) as [lss|] eqn:Hlss; [|discriminate].
  destruct (releasable h NewArr is_series_arr (df_series hdr)) as [s|] eqn:Hs;
    [|discriminate].
  destruct (releasable h New is_dataframe df) as [d|] eqn:Hd; [|discriminate].
  intros [= <-] Hnd.
  pose proof (releasable_Ptr _ _ _ _ _ Hs) as Hps.
  pose proof (releasable_Ptr _ _ _ _ _ Hd) as Hpd.
  apply mapM_Some in Hlss.
  pose proof (Forall2_length _ _ _ Hlss) as Hlen.
  rewrite length_take, Nat.min_l in Hlen by exact Hn.
  assert (Hall : ∀ j ls, lss !! j = Some ls →
    ∃ c, cols !! (0 + j)%nat = Some c ∧ series_cells h c = Some ls).
  { intros j ls Hj.
    destruct (Forall2_lookup_r _ _ _ _ _ Hlss Hj) as (c & Hc & Hcells).
    exists c. split; [|exact Hcells].
    apply lookup_take_Some in Hc. apply Hc. }
  assert (Hd' : d ∉ concat lss ++ [s]).
  { apply (NoDup_app_notin _ [d]); [|left].
    now rewrite <- app_assoc. }
  assert (Hs' : s ∉ concat lss).
  { apply (NoDup_app_notin _ [s; d]); [exact Hnd|left]. }
  unfold deleteDataframe.
  run (load_dataframe_Ok _ _ _ Hdf).
  unfold for_loop. rewrite Hlen.
  assert (Hin : s ∈ [s; d]) by left.
  run (deleteDataframe_loop h _ s cols Hps Hcols lss 0 [] [s; d] Hall Hnd Hin).
  cbn [app].
  assert (Hd'' : d ∉ concat lss).
  { intros Hdl. apply Hd'. apply elem_of_app. now left. }
  run (load_dataframe_Ok _ _ _ (content_at_released _ _ _ _ _ Hpd Hd'' Hdf)).
  rewrite (bind_Ok _ _ _ _ _ (dealloc_released _ _ _ _ _ _ Hs Hs')).
  rewrite (dealloc_released _ _ _ _ _ _ Hd Hd').
  now rewrite <- app_assoc.
Qed.

End releasing.

(** ** [deleteDataframe] throws nothing *)














(** ** Load flow parameters *)

Lemma set_parameters_Ok h l k c f :
  h !! l = Some (Some (Cell k (BParameters c))) →
  set_parameters (Ptr l) f h =
    Ok () (<[l := Some (Cell k (BParameters (f c)))]> h).
Proof.
  intros E. unfold set_parameters, load_parameters, bind, load.
  rewrite E. simpl. now rewrite E.
Qed.

Lemma set_parameters_around pre k c post f :
  set_parameters (Ptr (List.length pre)) f
    (pre ++ Some (Cell k (BParameters c)) :: post)
  = Ok () (pre ++ Some (Cell k (BParameters (f c))) :: post).
Proof.
  rewrite (set_parameters_Ok _ _ _ _ _ (lookup_around _ _ _)).
  now rewrite insert_around.
Qed.

Lemma load_parameters_Ok h p c :
  content_at h p = Some (BParameters c) → load_parameters p h = Ok c h.
Proof.
  intros E. unfold load_parameters.
  now rewrite (bind_Ok _ _ _ _ _ (load_Ok _ _ _ E)).
Qed.

Lemma content_at_lt h p b :
  content_at h p = Some b → ∃ l, p = Ptr l ∧ (l < List.length h)%nat.
Proof.
  destruct p as [|l]; simpl; [discriminate|].
  destruct (h !! l) as [o|] eqn:E; [|discriminate].
  intros _. exists l. split; [reflexivity|]. now apply lookup_lt_Some in E.
Qed.

Lemma content_at_extends h h' p b :
  extends h h' → content_at h p = Some b → content_at h' p = Some b.
Proof.
  intros Hext E. destruct (content_at_lt _ _ _ E) as (l & -> & Hl).
  simpl in *. now rewrite (Hext l Hl).
Qed.

Lemma c_strings_at_extends h h' qs v :
  extends h h' → c_strings_at h qs v → c_strings_at h' qs v.
Proof.
  intros Hext Hs. eapply Forall2_impl; [exact Hs|].
  intros q s (chars & Hq & Hr). exists chars. split; [|exact Hr].
  now apply (content_at_extends h).
Qed.

Lemma parameters_at_extends h h' p c cs :
  extends h h' → parameters_at h p c cs → parameters_at h' p c cs.
Proof.
  intros Hext (Hp & Hn & qs & Hqs & Hs). split; [|split; [exact Hn|]].
  - now apply (content_at_extends h).
  - exists qs. split.
    + now apply (content_at_extends h).
    + now apply (c_strings_at_extends h).
Qed.

Lemma extends_app (h t : heap) : extends h (h ++ t).
Proof. intros l Hl. now apply lookup_app_l. Qed.

Lemma vector_of_char_ptrs_reads h p qs cs :
  content_at h p = Some (BCharPtrs qs) →
  c_strings_at h (take (List.length cs) qs) cs →
  vector_of_char_ptrs p (Z.of_nat (List.length cs)) h = Ok cs h.
Proof.
  intros Hp Hs. unfold vector_of_char_ptrs, strings_behind.
  rewrite decide_False by lia. rewrite Nat2Z.id.
  apply (map_M_read_strings h p qs Hp); [reflexivity|].
  intros j s Hj.
  destruct (Forall2_lookup_r _ _ _ _ _ Hs Hj) as (q & Hq & chars & Hc & Hr).
  exists q, chars. split; [|now split].
  apply lookup_take_Some in Hq. apply Hq.
Qed.

Lemma get_countries_to_balance_Ok h p c cs :
  parameters_at h p c cs → get_countries_to_balance p h = Ok cs h.
Proof.
  intros (Hp & Hn & qs & Hqs & Hs). unfold get_countries_to_balance.
  rewrite (bind_Ok _ _ _ _ _ (load_parameters_Ok _ _ _ Hp)), Hn.
  now apply (vector_of_char_ptrs_reads _ _ qs).
Qed.

Lemma initLoadFlowParameters_run (d : pointer) (h : heap) cfg cs :
  parameters_at h d cfg cs →
  initLoadFlowParameters d h
  = Ok (Ptr (List.length h)) (h ++ copied_parameters (List.length h) cfg cs).
Proof.
  intros Hd.
  pose proof (parameters_at_extends _ (h ++ [Some (Cell New (BParameters
      (LoadFlowParameters 0 0 0 0 0 0 0 0 0 0 0 Null 0 0)))]) _ _ _
      (extends_app _ _) Hd) as (Hcfg & Hn & qs & Hqs & Hs).
  unfold initLoadFlowParameters, createLoadFlowParameters.
  rewrite (bind_Ok _ _ _ _ _ (eq_refl : alloc _ _ h = Ok _ _)).
  rewrite bind_ret.
  run (load_parameters_Ok _ _ _ Hcfg).
  do 11 run (set_parameters_around _ _ _ _ _).
  rewrite Hn.
  match goal with |- context [Some (Cell New (BParameters ?c))] =>
    pose proof (parameters_at_extends _ (h ++ [Some (Cell New (BParameters c))])
                  _ _ _ (extends_app _ _) Hd) as (_ & _ & qs' & Hqs' & Hs')
  end.
  run (vector_of_char_ptrs_reads _ _ _ _ Hqs' Hs').
  run (copyVectorStringToCharPtrPtr_around _ _ _ _).
  do 3 run (set_parameters_around _ _ _ _ _).
  unfold ret, copied_parameters, copied_strings, parameters_copy.
  cbn [List.length app].
  replace (List.length h + S (0 + List.length cs))%nat
    with (S (List.length h) + List.length cs)%nat by lia.
  replace (List.length h + 1)%nat with (S (List.length h)) by lia.
  destruct cfg. reflexivity.
Qed.

Lemma lookup_app_at {A} (l1 l2 : list A) (x : A) n :
  n = List.length l1 → (l1 ++ x :: l2) !! n = Some x.
Proof. intros ->. now apply list_lookup_middle. Qed.

Lemma read_c_str_until_NUL chars s :
  read_c_str chars = Some s → until_NUL s = s.
Proof.
  revert s. induction chars as [|c chars IH]; intros s; simpl; [discriminate|].
  destruct (Ascii.eqb c NUL) eqn:E.
  - now intros [= <-].
  - destruct (read_c_str chars) as [s'|]; [|discriminate].
    intros [= <-]. simpl. now rewrite E, (IH s' eq_refl).
Qed.

Lemma c_strings_at_until_NUL h qs cs :
  c_strings_at h qs cs → until_NUL <$> cs = cs.
Proof.
  induction 1 as [|q s qs cs (chars & _ & Hr) _ IH]; [reflexivity|].
  cbn [fmap list_fmap]. now rewrite (read_c_str_until_NUL _ _ Hr), IH.
Qed.

Lemma strings_at_c_strings h qs v :
  strings_at h qs v → c_strings_at h qs (until_NUL <$> v).
Proof.
  intros Hs. apply Forall2_fmap_r. eapply Forall2_impl; [exact Hs|].
  intros q s Hq. exists (c_str s). split.
  - apply (cell_at_content _ _ _ Hq).
  - apply read_c_str_c_str.
Qed.

(** The struct and the countries that [initLoadFlowParameters] wrote, where
    they stand in a heap. *)
Lemma parameters_at_copied (X Y : heap) c v :
  parameters_at (X ++ copied_parameters (List.length X) c v ++ Y)
    (Ptr (List.length X))
    (parameters_copy c (Ptr (S (List.length X) + List.length v))
                     (Z.of_nat (List.length v)))
    (until_NUL <$> v).
Proof.
  unfold copied_parameters, copied_strings. cbn [app].
  split; [|split].
  - simpl. now rewrite list_lookup_middle.
  - destruct c. simpl. now rewrite length_fmap.
  - exists (Ptr <$> seq (S (List.length X)) (List.length v)).
    rewrite length_fmap.
    rewrite take_ge by (now rewrite length_fmap, length_seq).
    split.
    + destruct c. cbn [parameters_copy with_countries_to_balance
        with_countries_to_balance_count countries_to_balance content_at].
      rewrite <- app_assoc. cbn [app].
      rewrite (app_comm_cons _ _ (Some _)), (app_assoc X).
      rewrite (lookup_app_at _ _ _ _); [reflexivity|].
      rewrite length_app. cbn [List.length]. rewrite length_fmap. lia.
    + apply strings_at_c_strings. rewrite <- app_assoc.
      apply (strings_at_behind X []). simpl. lia.
Qed.

Lemma released_cons l ls (h : heap) :
  released (l :: ls) h = released ls (<[l := None]> h).
Proof. reflexivity. Qed.

Lemma released_seq (W T Y : heap) :
  released (seq (List.length W) (List.length T)) (W ++ T ++ Y)
  = W ++ replicate (List.length T) None ++ Y.
Proof.
  revert W. induction T as [|x T IH]; intros W; [reflexivity|].
  cbn [List.length seq replicate app]. rewrite released_cons.
  rewrite insert_around.
  specialize (IH (W ++ [None])).
  rewrite length_app, Nat.add_1_r, <- !app_assoc in IH. exact IH.
Qed.

Section set_countries.
Context `{RT : Runtime}.

Lemma mapM_releasable_strings (W tail : heap) (v : list string) :
  mapM (releasable
          (W ++ ((λ s, Some (Cell NewArr (BChars (c_str s)))) <$> v) ++ tail)
          NewArr is_chars)
       (Ptr <$> seq (List.length W) (List.length v))
  = Some (seq (List.length W) (List.length v)).
Proof.
  apply mapM_Some. revert W.
  induction v as [|s v IH]; intros W; [constructor|].
  cbn [List.length seq fmap list_fmap app]. constructor.
  - simpl. rewrite list_lookup_middle by reflexivity. simpl.
    now rewrite dealloc_accepts_matching.
  - specialize (IH (W ++ [Some (Cell NewArr (BChars (c_str s)))])).
    rewrite length_app, Nat.add_1_r, <- app_assoc in IH. exact IH.
Qed.

Lemma char_ptr_ptr_cells_copied (W Y : heap) (v : list string) :
  char_ptr_ptr_cells (W ++ copied_strings (List.length W) v ++ Y)
    (Ptr (List.length W + List.length v)) (Z.of_nat (List.length v))
  = Some (seq (List.length W) (S (List.length v))).
Proof.
  unfold char_ptr_ptr_cells, copied_strings. rewrite <- !app_assoc.
  assert (Hl : ∀ tail : heap,
    (W ++ ((λ s, Some (Cell NewArr (BChars (c_str s)))) <$> v)
       ++ [Some (Cell NewArr (BCharPtrs
              (Ptr <$> seq (List.length W) (List.length v))))] ++ tail)
    !! (List.length W + List.length v)%nat
    = Some (Some (Cell NewArr (BCharPtrs
              (Ptr <$> seq (List.length W) (List.length v)))))).
  { intros tail. rewrite app_assoc. cbn [app]. apply lookup_app_at.
    now rewrite length_app, length_fmap. }
  cbn [content_at releasable]. rewrite Hl. cbn [cell_content cell_kind].
  rewrite Nat2Z.id, length_fmap, length_seq.
  rewrite decide_True by lia.
  rewrite take_ge by (now rewrite length_fmap, length_seq).
  rewrite mapM_releasable_strings.
  rewrite dealloc_accepts_matching. cbn [andb is_char_ptrs].
  now rewrite seq_S.
Qed.

Lemma deleteCharPtrPtr_copied (W Y : heap) (v : list string) :
  deleteCharPtrPtr (Ptr (List.length W + List.length v))
    (Z.of_nat (List.length v))
    (W ++ copied_strings (List.length W) v ++ Y)
  = Ok () (W ++ replicate (S (List.length v)) None ++ Y).
Proof.
  pose proof (deleteCharPtrPtr_released _ _ _ _ []
                (char_ptr_ptr_cells_copied W Y v) (NoDup_seq _ _)) as H.
  cbn [released foldl] in H. rewrite H. cbn [app].
  replace (S (List.length v))
    with (List.length (copied_strings (List.length W) v))
    by (unfold copied_strings; rewrite length_app, length_fmap; simpl; lia).
  apply f_equal, released_seq.
Qed.

Lemma deleteCharPtrPtr_copied_at (W Y : heap) (v : list string) n p :
  n = List.length W → p = Ptr (n + List.length v) →
  deleteCharPtrPtr p (Z.of_nat (List.length v))
    (W ++ copied_strings n v ++ Y)
  = Ok () (W ++ replicate (S (List.length v)) None ++ Y).
Proof. intros -> ->. apply deleteCharPtrPtr_copied. Qed.

Lemma parameters_copy_copy c q n q' n' :
  parameters_copy (parameters_copy c q n) q' n' = parameters_copy c q' n'.
Proof. now destruct c. Qed.

Lemma set_countries_to_balance_run (X Y : heap) c v vs :
  set_countries_to_balance (Ptr (List.length X)) vs
    (X ++ copied_parameters (List.length X) c v ++ Y)
  = Ok ()
      (X ++ Some (Cell New (BParameters
               (parameters_copy c
                  (Ptr (List.length X + S (S (List.length v)) + List.length Y
                        + List.length vs))
                  (Z.of_nat (List.length vs)))))
         :: replicate (S (List.length v)) None ++ Y
         ++ copied_strings
              (List.length X + S (S (List.length v)) + List.length Y) vs).
Proof.
  destruct (parameters_at_copied X Y c v) as (Hp & _).
  unfold set_countries_to_balance.
  run (load_parameters_Ok _ _ _ Hp).
  replace (countries_to_balance (parameters_copy c
             (Ptr (S (List.length X) + List.length v))
             (Z.of_nat (List.length v))))
    with (Ptr (S (List.length X) + List.length v)) by now destruct c.
  replace (countries_to_balance_count (parameters_copy c
             (Ptr (S (List.length X) + List.length v))
             (Z.of_nat (List.length v))))
    with (Z.of_nat (List.length v)) by now destruct c.
  unfold copied_parameters. cbn [app].
  rewrite (app_cons_assoc X (copied_strings _ v ++ Y)).
  match goal with |- context [(X ++ [?P]) ++ _] =>
    assert (Hn : S (List.length X) = List.length (X ++ [P]))
      by (rewrite length_app; simpl; lia)
  end.
  run (deleteCharPtrPtr_copied_at _ Y v (S (List.length X)) _ Hn eq_refl).
  run (copyVectorStringToCharPtrPtr_run _ _).
  rewrite <- !app_assoc. cbn [app].
  run (set_parameters_around _ _ _ _ _).
  rewrite (set_parameters_around _ _ _ _ _).
  unfold copied_strings.
  assert (HN : ∀ P : option cell,
    List.length (X ++ P :: replicate (S (List.length v)) None ++ Y)
    = (List.length X + S (S (List.length v)) + List.length Y)%nat).
  { intros P. rewrite length_app. cbn [List.length].
    rewrite length_app, length_replicate. lia. }
  rewrite !HN.
  change (with_countries_to_balance_count ?n (with_countries_to_balance ?q ?c))
    with (parameters_copy c q n).
  now rewrite parameters_copy_copy.
Qed.

End set_countries.

Lemma parameters_at_copied_at (X Y : heap) c v n :
  n = List.length X →
  parameters_at (X ++ copied_parameters n c v ++ Y) (Ptr n)
    (parameters_copy c (Ptr (S n + List.length v)) (Z.of_nat (List.length v)))
    (until_NUL <$> v).
Proof. intros ->. apply parameters_at_copied. Qed.

Lemma parameters_at_copied_strings (W : heap) p k c v :
  W !! p = Some (Some (Cell k (BParameters
             (parameters_copy c (Ptr (List.length W + List.length v))
                              (Z.of_nat (List.length v)))))) →
  parameters_at (W ++ copied_strings (List.length W) v) (Ptr p)
    (parameters_copy c (Ptr (List.length W + List.length v))
                     (Z.of_nat (List.length v)))
    (until_NUL <$> v).
Proof.
  intros Hp. unfold copied_strings. split; [|split].
  - simpl. now rewrite (lookup_app_l_Some _ _ _ _ Hp).
  - destruct c. simpl. now rewrite length_fmap.
  - exists (Ptr <$> seq (List.length W) (List.length v)).
    rewrite length_fmap.
    rewrite take_ge by (now rewrite length_fmap, length_seq).
    split.
    + destruct c. cbn [parameters_copy with_countries_to_balance
        with_countries_to_balance_count countries_to_balance content_at].
      rewrite app_assoc, lookup_app_at; [reflexivity|].
      now rewrite length_app, length_fmap.
    + apply strings_at_c_strings, strings_at_cells.
Qed.

(** C6: from a default configuration whose list of countries reads [cs],
    [initLoadFlowParameters] called twice returns two structs in new cells,
    each with the scalar fields of the configuration and a list that reads
    [cs] from cells of its own; once the setter of [countries_to_balance]
    has given the first struct another list, the configuration and the
    second struct still read [cs], the first reads the new list, and every
    cell of the heap that was there before the calls is as it was.  The
    same holds when the setter is applied to the second struct. *)
Theorem initLoadFlowParameters_isolation `{RT : Runtime} (d : pointer)
    (h : heap) (cfg : load_flow_parameters) (cs vs : list string) :
  parameters_at h d cfg cs →
  ∃ p1 p2 h1 h2 h3,
    initLoadFlowParameters d h = Ok p1 h1 ∧
    initLoadFlowParameters d h1 = Ok p2 h2 ∧
    set_countries_to_balance p1 vs h2 = Ok () h3 ∧
    content_at h1 p1 = Some (BParameters
      (parameters_copy cfg (Ptr (S (List.length h) + List.length cs))
                       (Z.of_nat (List.length cs)))) ∧
    get_countries_to_balance p1 h2 = Ok cs h2 ∧
    get_countries_to_balance p2 h2 = Ok cs h2 ∧
    get_countries_to_balance d h3 = Ok cs h3 ∧
    get_countries_to_balance p2 h3 = Ok cs h3 ∧
    get_countries_to_balance p1 h3 = Ok (until_NUL <$> vs) h3 ∧
    extends h h3 ∧
    ∃ h3',
      set_countries_to_balance p2 vs h2 = Ok () h3' ∧
      get_countries_to_balance d h3' = Ok cs h3' ∧
      get_countries_to_balance p1 h3' = Ok cs h3'.
Proof.
  intros Hd.
  assert (Hcs : until_NUL <$> cs = cs).
  { destruct Hd as (_ & _ & qs & _ & Hs).
    apply (c_strings_at_until_NUL _ _ _ Hs). }
  set (h1 := h ++ copied_parameters (List.length h) cfg cs).
  set (Y := copied_parameters (List.length h1) cfg cs).
  pose proof (parameters_at_extends _ h1 _ _ _ (extends_app _ _) Hd) as Hd1.
  pose proof (set_countries_to_balance_run h Y cfg cs vs) as Hset.
  set (N := (List.length h + S (S (List.length cs)) + List.length Y)%nat) in *.
  set (P1 := Some (Cell New (BParameters
    (parameters_copy cfg (Ptr (N + List.length vs))
                     (Z.of_nat (List.length vs)))))) in *.
  assert (Hlen1 : List.length h1
                  = List.length (h ++ P1 :: replicate (S (List.length cs)) None)).
  { unfold h1, copied_parameters, copied_strings.
    rewrite !length_app. cbn [List.length].
    rewrite length_app, length_fmap, length_replicate. simpl. lia. }
  exists (Ptr (List.length h)), (Ptr (List.length h1)), h1, (h1 ++ Y).
  eexists. split; [apply (initLoadFlowParameters_run _ _ _ _ Hd)|].
  split; [apply (initLoadFlowParameters_run _ _ _ _ Hd1)|].
  split; [unfold h1; rewrite <- app_assoc; exact Hset|].
  split.
  { pose proof (parameters_at_copied h [] cfg cs) as (Hp & _).
    now rewrite app_nil_r in Hp. }
  split.
  { eapply get_countries_to_balance_Ok.
    pose proof (parameters_at_copied h Y cfg cs) as Hp.
    rewrite Hcs in Hp. unfold h1. rewrite <- app_assoc. exact Hp. }
  split.
  { eapply get_countries_to_balance_Ok.
    pose proof (parameters_at_copied h1 [] cfg cs) as Hp.
    rewrite Hcs, app_nil_r in Hp. exact Hp. }
  split.
  { eapply get_countries_to_balance_Ok.
    apply (parameters_at_extends h); [apply extends_app|exact Hd]. }
  split.
  { eapply get_countries_to_balance_Ok.
    pose proof (parameters_at_copied_at
                  (h ++ P1 :: replicate (S (List.length cs)) None)
                  (copied_strings N vs) cfg cs (List.length h1) Hlen1) as Hp.
    rewrite Hcs, <- app_assoc in Hp. exact Hp. }
  split.
  { eapply get_countries_to_balance_Ok.
    assert (HN : N = List.length
                       (h ++ P1 :: replicate (S (List.length cs)) None ++ Y)).
    { unfold N. rewrite length_app. cbn [List.length].
      rewrite length_app, length_replicate. lia. }
    pose proof (parameters_at_copied_strings
                  (h ++ P1 :: replicate (S (List.length cs)) None ++ Y)
                  (List.length h) New cfg vs) as Hp.
    rewrite <- HN, <- app_assoc in Hp. cbn [app] in Hp.
    rewrite <- app_assoc in Hp. apply Hp.
    now rewrite list_lookup_middle. }
  split; [apply extends_app|].
  pose proof (set_countries_to_balance_run h1 [] cfg cs vs) as Hset'.
  rewrite app_nil_r in Hset'. fold Y in Hset'.
  eexists. split; [exact Hset'|]. split.
  - eapply get_countries_to_balance_Ok.
    apply (parameters_at_extends h); [|exact Hd].
    unfold h1. rewrite <- app_assoc. apply extends_app.
  - eapply get_countries_to_balance_Ok.
    pose proof (parameters_at_copied h
      (Some (Cell New (BParameters (parameters_copy cfg
         (Ptr (List.length h1 + S (S (List.length cs)) + List.length (@nil (option cell))
               + List.length vs))
         (Z.of_nat (List.length vs)))))
       :: replicate (S (List.length cs)) None ++ []
       ++ copied_strings
            (List.length h1 + S (S (List.length cs)) + List.length (@nil (option cell))) vs)
      cfg cs) as Hp.
    rewrite Hcs in Hp. unfold h1. rewrite <- app_assoc. exact Hp.
Qed.

Lemma initLoadFlowParameters_isolation_witness :
  ∃ p1 p2 h1 h2 h3,
    initLoadFlowParameters (Ptr 0) configuration_heap = Ok p1 h1 ∧
    initLoadFlowParameters (Ptr 0) h1 = Ok p2 h2 ∧
    set_countries_to_balance (RT := cxx) p1 ["DE"]%string h2 = Ok () h3 ∧
    content_at h1 p1 = Some (BParameters
      (parameters_copy default_configuration (Ptr 7) 2)) ∧
    get_countries_to_balance p1 h2 = Ok ["FR"; "BE"]%string h2 ∧
    get_countries_to_balance p2 h2 = Ok ["FR"; "BE"]%string h2 ∧
    get_countries_to_balance (Ptr 0) h3 = Ok ["FR"; "BE"]%string h3 ∧
    get_countries_to_balance p2 h3 = Ok ["FR"; "BE"]%string h3 ∧
    get_countries_to_balance p1 h3 = Ok ["DE"]%string h3 ∧
    extends configuration_heap h3 ∧
    ∃ h3',
      set_countries_to_balance (RT := cxx) p2 ["DE"]%string h2 = Ok () h3' ∧
      get_countries_to_balance (Ptr 0) h3' = Ok ["FR"; "BE"]%string h3' ∧
      get_countries_to_balance p1 h3' = Ok ["FR"; "BE"]%string h3'.
Proof.
  apply (initLoadFlowParameters_isolation (RT := cxx) (Ptr 0)
           configuration_heap default_configuration
           ["FR"; "BE"]%string ["DE"]%string).
  split; [reflexivity|]. split; [reflexivity|].
  exists [Ptr 1; Ptr 2]. split; [reflexivity|].
  repeat constructor; eexists; split; reflexivity.
Defined.

(** ** Views *)

(** The array that [seriesAsNumpyArray] builds reads through the pointer of
    the buffer of the series, over the length of that buffer, and holds the
    series as its base. *)
Lemma seriesAsNumpyArray_aliases (T : dtype) (s : series) :
  arr_data (seriesAsNumpyArray T s) = array_ptr (series_data s) ∧
  arr_shape (seriesAsNumpyArray T s) = array_length (series_data s) ∧
  arr_base (seriesAsNumpyArray T s) = s.
Proof. repeat split. Qed.

(** The [data] property of a numeric column allocates nothing and copies
    nothing. *)
Lemma Series_data_numeric_heap (s : series) (h : heap) :
  1 ≤ series_type s ≤ 3 →
  ∃ T, Series_data s h = Ok (PyArray (seriesAsNumpyArray T s)) h.
Proof.
  intros Hty.
  destruct (decide (series_type s = 1)) as [E|];
    [exists dtype_double; now apply Series_data_double|].
  destruct (decide (series_type s = 2)) as [E|];
    [exists dtype_int; now apply Series_data_int|].
  exists dtype_bool. apply Series_data_bool. lia.
Qed.

(** Once the table is released, the list of strings that the [data]
    property gave still reads B1, B2, and reading the array of doubles is a
    read of released memory. *)
Example views_after_release :
  ∃ df h ids v h',
    bus_table (RT := libc) [] = Ok df h ∧
    column_data df 0 h = Ok ids h ∧
    column_data df 1 h = Ok v h ∧
    deleteDataframe (RT := libc) df h = Ok () h' ∧
    python_items ids h' = Ok [Str "B1"; Str "B2"] h' ∧
    python_items v h' = Fault (InvalidAccess 7).
Proof. do 5 eexists. repeat split; reflexivity. Qed.

(** ** Names from [strdup] under the runtime of the C++ standard *)

Lemma bind_Fault {A B} (m : M A) (k : A → M B) h f :
  m h = Fault f → bind m k h = Fault f.
Proof. intros E. unfold bind. now rewrite E. Qed.

Lemma load_series_Ok h p cols i c :
  content_at h p = Some (BSeriesArr cols) → cols !! i = Some c →
  load_series p i h = Ok c h.
Proof.
  intros Hp Hc. unfold load_series.
  rewrite (bind_Ok _ _ _ _ _ (load_Ok _ _ _ Hp)). now apply vector_at_Ok.
Qed.

Lemma Forall2_fmap_Ptr (P : pointer → nat → Prop) (ls : list nat) :
  (∀ l, l ∈ ls → P (Ptr l) l) → Forall2 P (Ptr <$> ls) ls.
Proof.
  induction ls as [|l ls IH]; intros H; [constructor|].
  cbn [fmap list_fmap]. constructor.
  - apply H. left.
  - apply IH. intros l' Hl'. apply H. now right.
Qed.

Lemma strings_at_seq_cells h a (v : list string) l :
  strings_at h (Ptr <$> seq a (List.length v)) v →
  l ∈ seq a (List.length v) →
  ∃ s, h !! l = Some (Some (Cell NewArr (BChars (c_str s)))).
Proof.
  intros Hs Hl. apply list_elem_of_lookup_1 in Hl as [i Hi].
  assert (Hq : (Ptr <$> seq a (List.length v)) !! i = Some (Ptr l))
    by (now rewrite list_lookup_fmap, Hi).
  destruct (Forall2_lookup_l _ _ _ _ _ Hs Hq) as (s & _ & Hcell).
  exists s. apply cell_at_Some in Hcell as (l' & [= <-] & Hcell).
  exact Hcell.
Qed.

Section standard.
Variable junk : nat → series.
Variable junk' : nat → dataframe.
Let std : Runtime := standard_runtime junk junk'.

Lemma releasable_standard (h : heap) l b (is_T : block → bool) :
  h !! l = Some (Some (Cell NewArr b)) → is_T b = true →
  releasable (RT := std) h NewArr is_T (Ptr l) = Some l.
Proof.
  intros E HT. unfold releasable. rewrite E. cbn [cell_kind cell_content].
  now rewrite dealloc_accepts_matching, HT.
Qed.

Lemma dealloc_strdup_mismatch (h : heap) ls n b (is_T : block → bool) :
  h !! n = Some (Some (Cell Malloc b)) → n ∉ ls →
  dealloc (RT := std) NewArr is_T (Ptr n) (released ls h)
  = Fault (AllocDeallocMismatch n Malloc NewArr).
Proof.
  intros E Hn. unfold dealloc. now rewrite (lookup_released _ _ _ Hn), E.
Qed.

(** The buffer of a built column is released whole, and its cells are all
    cells of [new[]]. *)
Lemma buffer_of_built_column_released {pyobj : Type} `{PY : Pybind11 pyobj}
    (h : heap) type (o : option pyobj) (c : series) :
  series_type c = type →
  data_built h type o (series_data c) →
  ∃ ls,
    (if decide (series_type c = 0) then
       deleteCharPtrPtr (RT := std) (array_ptr (series_data c))
                        (array_length (series_data c))
     else if decide (series_type c = 1) then
       dealloc (RT := std) NewArr is_doubles (array_ptr (series_data c))
     else if decide (series_type c = 2 ∨ series_type c = 3) then
       dealloc (RT := std) NewArr is_ints (array_ptr (series_data c))
     else ret ()) h = Ok () (released ls h) ∧
    ∀ l, l ∈ ls → ∃ b, h !! l = Some (Some (Cell NewArr b)).
Proof.
  intros <- Hd. unfold data_built in Hd. repeat case_decide.
  - destruct Hd as (v & a & _ & Hlen & Hp & Hs).
    apply cell_at_Some in Hp as (la & Hla & Hp).
    rewrite Hla, Hlen.
    assert (Hcells : char_ptr_ptr_cells (RT := std) h (Ptr la)
                       (Z.of_nat (List.length v))
                     = Some (seq a (List.length v) ++ [la])).
    { unfold char_ptr_ptr_cells. cbn [content_at]. rewrite Hp.
      cbn [cell_content]. rewrite Nat2Z.id.
      rewrite decide_True by (now rewrite length_fmap, length_seq).
      rewrite take_ge by (now rewrite length_fmap, length_seq).
      assert (Hm : mapM (releasable (RT := std) h NewArr is_chars)
                        (Ptr <$> seq a (List.length v))
                   = Some (seq a (List.length v))).
      { apply mapM_Some, Forall2_fmap_Ptr. intros l Hl.
        destruct (strings_at_seq_cells _ _ _ _ Hs Hl) as (s & Hcell).
        now apply (releasable_standard _ _ _ _ Hcell). }
      rewrite Hm.
      now rewrite (releasable_standard _ _ _ is_char_ptrs Hp eq_refl). }
    assert (Hnd : NoDup ([] ++ seq a (List.length v) ++ [la])).
    { cbn [app]. apply NoDup_app. split; [apply NoDup_seq|].
      split; [|apply NoDup_singleton].
      intros l Hl Hin. apply list_elem_of_singleton in Hin as ->.
      destruct (strings_at_seq_cells _ _ _ _ Hs Hl) as (s & Hcell).
      congruence. }
    exists (seq a (List.length v) ++ [la]). split.
    + apply (deleteCharPtrPtr_released (RT := std) h _ _ _ [] Hcells Hnd).
    + intros l Hl. apply elem_of_app in Hl as [Hl|Hl].
      * destruct (strings_at_seq_cells _ _ _ _ Hs Hl) as (s & Hcell). eauto.
      * apply list_elem_of_singleton in Hl as ->. eauto.
  - destruct Hd as (v & _ & _ & Hp).
    apply cell_at_Some in Hp as (la & Hla & Hp). rewrite Hla.
    exists [la]. split.
    + apply (dealloc_released (RT := std) h [] _ _ _ _
               (releasable_standard _ _ _ is_doubles Hp eq_refl)).
      apply not_elem_of_nil.
    + intros l Hl. apply list_elem_of_singleton in Hl as ->. eauto.
  - destruct Hd as (v & _ & _ & Hp).
    apply cell_at_Some in Hp as (la & Hla & Hp). rewrite Hla.
    exists [la]. split.
    + apply (dealloc_released (RT := std) h [] _ _ _ _
               (releasable_standard _ _ _ is_ints Hp eq_refl)).
      apply not_elem_of_nil.
    + intros l Hl. apply list_elem_of_singleton in Hl as ->. eauto.
  - exists []. split; [reflexivity|]. intros l Hl.
    now apply elem_of_nil in Hl.
Qed.

(** Releasing a built column stops at its name. *)
Lemma deleteDataframe_column_built_mismatch {pyobj : Type}
    `{PY : Pybind11 pyobj} (h : heap) name b type (o : option pyobj) c :
  column_built h name b type o c →
  ∃ n, series_name c = Ptr n ∧
       deleteDataframe_column (RT := std) c h
       = Fault (AllocDeallocMismatch n Malloc NewArr).
Proof.
  intros (Hn & _ & Ht & Hd).
  apply cell_at_Some in Hn as (n & Hname & Hn).
  destruct (buffer_of_built_column_released h type o c Ht Hd)
    as (ls & Hrun & Hls).
  exists n. split; [exact Hname|].
  unfold deleteDataframe_column.
  rewrite (bind_Ok _ _ _ _ _ Hrun), Hname.
  apply (dealloc_strdup_mismatch _ _ _ _ _ Hn).
  intros Hin. destruct (Hls n Hin) as (b' & Hb'). congruence.
Qed.

(** Whatever table of at least one column [createDataframe] builds from
    names that are text, [deleteDataframe] stops at the name of its first
    column. *)
Lemma deleteDataframe_built_table_mismatch {pyobj : Type}
    `{PY : Pybind11 pyobj} (columnsValues : list pyobj)
    (columnsNames : list string) (columnsTypes : list Z)
    (isIndex : list bool) (h : heap) :
  well_formed columnsValues columnsNames columnsTypes isIndex →
  text_names columnsNames →
  columnsNames ≠ [] →
  ∃ h' n,
    createDataframe (RT := std) columnsValues columnsNames columnsTypes
      isIndex h = Ok (Ptr (List.length h)) h' ∧
    deleteDataframe (RT := std) (Ptr (List.length h)) h'
    = Fault (AllocDeallocMismatch n Malloc NewArr).
Proof.
  intros Hwf Hnames Hne.
  destruct (createDataframe_builds (RT := std) _ _ _ _ Hwf Hnames h)
    as (new & Hrun & columns & cols & Hdf & Hcols & Hlen & Hall).
  destruct columnsNames as [|name0 names]; [congruence|].
  destruct (Hall 0%nat name0 eq_refl) as (c & b & type & Hc & _ & _ & Hcol).
  destruct (deleteDataframe_column_built_mismatch _ _ _ _ _ _ Hcol)
    as (n & _ & Hfault).
  exists (h ++ new), n. split; [exact Hrun|].
  unfold deleteDataframe.
  run (load_dataframe_Ok _ _ _ (cell_at_content _ _ _ Hdf)).
  cbn [df_series_count df_series]. rewrite Nat2Z.id.
  unfold for_loop. cbn [List.length seq for_each].
  apply bind_Fault. apply bind_Fault.
  rewrite (bind_Ok _ _ _ _ _
             (load_series_Ok _ _ _ _ _ (cell_at_content _ _ _ Hcols) Hc)).
  exact Hfault.
Qed.

End standard.

(** * More of bindings.cpp *)

(** ** The scalar properties of [LoadFlowParameters] *)

Lemma content_at_insert_ne (h : heap) l x p :
  p ≠ Ptr l → content_at (<[l := x]> h) p = content_at h p.
Proof.
  intros Hp. destruct p as [|l']; [reflexivity|]. simpl.
  rewrite list_lookup_insert_ne by congruence. reflexivity.
Qed.

Lemma content_at_insert_eq (h : heap) l c k b :
  h !! l = Some (Some c) →
  content_at (<[l := Some (Cell k b)]> h) (Ptr l) = Some b.
Proof.
  intros E. simpl. rewrite list_lookup_insert_eq; [reflexivity|].
  now apply lookup_lt_Some in E.
Qed.

(** Each setter writes the field that its getter reads. *)
Lemma property_field_with pr z c :
  pr ∈ scalar_properties → property_field pr (property_with pr z c) = z.
Proof.
  intros Hin. unfold scalar_properties in Hin.
  repeat (apply elem_of_cons in Hin as [->|Hin]; [now destruct c|]).
  now apply elem_of_nil in Hin.
Qed.

(** No setter writes the field of another property. *)
Lemma property_field_with_ne pr pr' z c :
  pr ∈ scalar_properties → pr' ∈ scalar_properties →
  property_name pr ≠ property_name pr' →
  property_field pr' (property_with pr z c) = property_field pr' c.
Proof.
  intros Hin Hin' Hne. unfold scalar_properties in Hin, Hin'.
  repeat (apply elem_of_cons in Hin as [->|Hin];
          [repeat (apply elem_of_cons in Hin' as [->|Hin'];
                   [first [now destruct c | now destruct Hne]|]);
           now apply elem_of_nil in Hin'|]).
  now apply elem_of_nil in Hin.
Qed.

(** No setter of a scalar property writes the list of countries. *)
Lemma property_with_countries pr z c :
  pr ∈ scalar_properties →
  countries_to_balance (property_with pr z c) = countries_to_balance c ∧
  countries_to_balance_count (property_with pr z c)
  = countries_to_balance_count c.
Proof.
  intros Hin. unfold scalar_properties in Hin.
  repeat (apply elem_of_cons in Hin as [->|Hin]; [now destruct c|]).
  now apply elem_of_nil in Hin.
Qed.

Lemma property_value_copy pr c q n :
  pr ∈ scalar_properties →
  property_value pr (parameters_copy c q n) = property_value pr c.
Proof.
  intros Hin. unfold scalar_properties in Hin.
  repeat (apply elem_of_cons in Hin as [->|Hin]; [now destruct c|]).
  now apply elem_of_nil in Hin.
Qed.

Lemma get_property_Ok pr h p c :
  content_at h p = Some (BParameters c) →
  get_property pr p h = Ok (property_value pr c) h.
Proof.
  intros E. unfold get_property.
  now rewrite (bind_Ok _ _ _ _ _ (load_parameters_Ok _ _ _ E)).
Qed.

(** X1: a scalar property of [LoadFlowParameters] reads back the value that
    its setter was given: the [bool] for a flag, the enumerator for an
    enumeration.  The setter writes the struct and no other cell. *)
Theorem scalar_property_round_trip (pr : scalar_property) (h : heap)
    (l : nat) (k : alloc_kind) (c : load_flow_parameters) (b : bool) (v : Z) :
  pr ∈ scalar_properties →
  h !! l = Some (Some (Cell k (BParameters c))) →
  (property_kind_of pr = flag →
     ∃ c', set_flag pr (Ptr l) b h
           = Ok () (<[l := Some (Cell k (BParameters c'))]> h) ∧
           get_property pr (Ptr l) (<[l := Some (Cell k (BParameters c'))]> h)
           = Ok (Bool b) (<[l := Some (Cell k (BParameters c'))]> h)) ∧
  (property_kind_of pr = enumeration →
     ∃ c', set_enumeration pr (Ptr l) v h
           = Ok () (<[l := Some (Cell k (BParameters c'))]> h) ∧
           get_property pr (Ptr l) (<[l := Some (Cell k (BParameters c'))]> h)
           = Ok (Int v) (<[l := Some (Cell k (BParameters c'))]> h)).
Proof.
  intros Hin Hl. split; intros Hk.
  - exists (property_with pr (Z.b2z b) c). split.
    + apply (set_parameters_Ok _ _ _ _ _ Hl).
    + rewrite (get_property_Ok pr _ _ _ (content_at_insert_eq _ _ _ _ _ Hl)).
      unfold property_value. rewrite Hk, property_field_with by exact Hin.
      now destruct b.
  - exists (property_with pr v c). split.
    + apply (set_parameters_Ok _ _ _ _ _ Hl).
    + rewrite (get_property_Ok pr _ _ _ (content_at_insert_eq _ _ _ _ _ Hl)).
      unfold property_value. now rewrite Hk, property_field_with by exact Hin.
Qed.

Lemma scalar_property_round_trip_witness :
  (flag = flag →
     ∃ c', set_flag (ScalarProperty "simul_shunt" flag simul_shunt
                       with_simul_shunt) (Ptr 0) false configuration_heap
           = Ok () (<[0%nat := Some (Cell Malloc (BParameters c'))]>
                      configuration_heap) ∧
           get_property (ScalarProperty "simul_shunt" flag simul_shunt
                           with_simul_shunt) (Ptr 0)
             (<[0%nat := Some (Cell Malloc (BParameters c'))]>
                configuration_heap)
           = Ok (Bool false)
                (<[0%nat := Some (Cell Malloc (BParameters c'))]>
                   configuration_heap)) ∧
  (flag = enumeration →
     ∃ c', set_enumeration (ScalarProperty "simul_shunt" flag simul_shunt
                              with_simul_shunt) (Ptr 0) 2 configuration_heap
           = Ok () (<[0%nat := Some (Cell Malloc (BParameters c'))]>
                      configuration_heap) ∧
           get_property (ScalarProperty "simul_shunt" flag simul_shunt
                           with_simul_shunt) (Ptr 0)
             (<[0%nat := Some (Cell Malloc (BParameters c'))]>
                configuration_heap)
           = Ok (Int 2)
                (<[0%nat := Some (Cell Malloc (BParameters c'))]>
                   configuration_heap)).
Proof.
  apply (scalar_property_round_trip
           (ScalarProperty "simul_shunt" flag simul_shunt with_simul_shunt)
           configuration_heap 0 Malloc default_configuration false 2).
  - unfold scalar_properties. do 5 right. left.
  - reflexivity.
Defined.

(** X2: the setter of a scalar property of [LoadFlowParameters] leaves what
    every other scalar property reads, and the list of countries that the
    [countries_to_balance] property reads, as they were; it writes the
    struct and no other cell. *)
Theorem scalar_property_frame (pr pr' : scalar_property) (h : heap) (l : nat)
    (c : load_flow_parameters) (cs : list string) (z : Z) :
  pr ∈ scalar_properties → pr' ∈ scalar_properties →
  property_name pr ≠ property_name pr' →
  parameters_at h (Ptr l) c cs →
  ∃ h',
    set_property pr (Ptr l) z h = Ok () h' ∧
    List.length h' = List.length h ∧
    (∀ l', l' ≠ l → h' !! l' = h !! l') ∧
    get_property pr' (Ptr l) h = Ok (property_value pr' c) h ∧
    get_property pr' (Ptr l) h' = Ok (property_value pr' c) h' ∧
    get_countries_to_balance (Ptr l) h = Ok cs h ∧
    get_countries_to_balance (Ptr l) h' = Ok cs h'.
Proof.
  intros Hin Hin' Hne Hat.
  pose proof Hat as (Hp & Hn & qs & Hqs & Hs).
  assert (∃ k, h !! l = Some (Some (Cell k (BParameters c)))) as [k Hl].
  { simpl in Hp. destruct (h !! l) as [[[k b]|]|]; simpl in Hp; simplify_eq.
    now exists k. }
  exists (<[l := Some (Cell k (BParameters (property_with pr z c)))]> h).
  destruct (property_with_countries pr z c Hin) as [Hq Hcount].
  assert (Hkeep : ∀ p b, b ≠ BParameters c → content_at h p = Some b →
    content_at (<[l := Some (Cell k (BParameters (property_with pr z c)))]> h)
               p = Some b).
  { intros p b Hb E. rewrite content_at_insert_ne; [exact E|].
    intros ->. rewrite Hp in E. congruence. }
  split; [apply (set_parameters_Ok _ _ _ _ _ Hl)|].
  split; [apply length_insert|].
  split; [intros l' Hl'; now apply list_lookup_insert_ne|].
  split; [now apply get_property_Ok|].
  split.
  - rewrite (get_property_Ok pr' _ _ _ (content_at_insert_eq _ _ _ _ _ Hl)).
    unfold property_value.
    now rewrite (property_field_with_ne pr pr' z c Hin Hin' Hne).
  - split; [now apply (get_countries_to_balance_Ok _ _ c)|].
    apply (get_countries_to_balance_Ok _ _ (property_with pr z c)).
    split; [apply (content_at_insert_eq _ _ _ _ _ Hl)|].
    split; [now rewrite Hcount|].
    exists qs. rewrite Hq. split; [now apply Hkeep|].
    eapply Forall2_impl; [exact Hs|].
    intros q s (chars & Hc & Hr). exists chars. split; [|exact Hr].
    now apply Hkeep.
Qed.

Lemma scalar_property_frame_witness :
  ∃ h',
    set_property (ScalarProperty "balance_type" enumeration balance_type
                    with_balance_type) (Ptr 0) 3 configuration_heap
    = Ok () h' ∧
    List.length h' = List.length configuration_heap ∧
    (∀ l', l' ≠ 0%nat → h' !! l' = configuration_heap !! l') ∧
    get_property (ScalarProperty "distributed_slack" flag distributed_slack
                    with_distributed_slack) (Ptr 0) configuration_heap
    = Ok (Bool true) configuration_heap ∧
    get_property (ScalarProperty "distributed_slack" flag distributed_slack
                    with_distributed_slack) (Ptr 0) h'
    = Ok (Bool true) h' ∧
    get_countries_to_balance (Ptr 0) configuration_heap
    = Ok ["FR"; "BE"]%string configuration_heap ∧
    get_countries_to_balance (Ptr 0) h' = Ok ["FR"; "BE"]%string h'.
Proof.
  apply (scalar_property_frame
           (ScalarProperty "balance_type" enumeration balance_type
              with_balance_type)
           (ScalarProperty "distributed_slack" flag distributed_slack
              with_distributed_slack)
           configuration_heap 0 default_configuration ["FR"; "BE"]%string 3).
  - unfold scalar_properties. do 9 right. left.
  - unfold scalar_properties. do 8 right. left.
  - simpl. discriminate.
  - split; [reflexivity|]. split; [reflexivity|].
    exists [Ptr 1; Ptr 2]. split; [reflexivity|].
    repeat constructor; eexists; split; reflexivity.
Defined.

(** X3: every scalar property of the struct that [initLoadFlowParameters]
    returns reads what the same property reads on the default
    configuration, and [initLoadFlowParameters] leaves the cells of the
    heap it started from as they were. *)
Theorem initLoadFlowParameters_scalars (d : pointer)
    (h : heap) (cfg : load_flow_parameters) (cs : list string)
    (pr : scalar_property) :
  parameters_at h d cfg cs →
  pr ∈ scalar_properties →
  ∃ new,
    initLoadFlowParameters d h = Ok (Ptr (List.length h)) (h ++ new) ∧
    get_property pr d (h ++ new) = Ok (property_value pr cfg) (h ++ new) ∧
    get_property pr (Ptr (List.length h)) (h ++ new)
    = Ok (property_value pr cfg) (h ++ new).
Proof.
  intros Hd Hin. exists (copied_parameters (List.length h) cfg cs).
  split; [now apply initLoadFlowParameters_run|].
  split.
  - apply get_property_Ok, content_at_app_l, Hd.
  - pose proof (parameters_at_copied h [] cfg cs) as (Hp & _).
    rewrite app_nil_r in Hp.
    rewrite (get_property_Ok pr _ _ _ Hp).
    now rewrite property_value_copy.
Qed.

Lemma initLoadFlowParameters_scalars_witness :
  ∃ new,
    initLoadFlowParameters (Ptr 0) configuration_heap
    = Ok (Ptr 4) (configuration_heap ++ new) ∧
    get_property (ScalarProperty "balance_type" enumeration balance_type
                    with_balance_type) (Ptr 0) (configuration_heap ++ new)
    = Ok (Int 2) (configuration_heap ++ new) ∧
    get_property (ScalarProperty "balance_type" enumeration balance_type
                    with_balance_type) (Ptr 4) (configuration_heap ++ new)
    = Ok (Int 2) (configuration_heap ++ new).
Proof.
  apply (initLoadFlowParameters_scalars (Ptr 0)
           configuration_heap default_configuration ["FR"; "BE"]%string
           (ScalarProperty "balance_type" enumeration balance_type
              with_balance_type)).
  - split; [reflexivity|]. split; [reflexivity|].
    exists [Ptr 1; Ptr 2]. split; [reflexivity|].
    repeat constructor; eexists; split; reflexivity.
  - unfold scalar_properties. do 9 right. left.
Defined.

(** ** The [name] and [index] properties of [Series] *)

(** X4: on arguments that fit together whose names are text, well-formed
    UTF-8, the [name] property of each column of the table that
    [createDataframe] returns reads the name given, up to its first NUL
    character, the [index] property reads the index flag given, and the
    type tag of the column is the one given. *)
Theorem Series_name_index_of_built_column `{RT : Runtime} {pyobj : Type}
    `{PY : Pybind11 pyobj} (columnsValues : list pyobj)
    (columnsNames : list string) (columnsTypes : list Z) (isIndex : list bool)
    (h : heap) (indice : nat) (name : string) (b : bool) (type : Z) :
  well_formed columnsValues columnsNames columnsTypes isIndex →
  text_names columnsNames →
  columnsNames !! indice = Some name →
  isIndex !! indice = Some b →
  columnsTypes !! indice = Some type →
  ∃ h' column,
    createDataframe columnsValues columnsNames columnsTypes isIndex h
    = Ok (Ptr (List.length h)) h' ∧
    column_at (Ptr (List.length h)) indice h' = Ok column h' ∧
    Series_name column h' = Ok (Some (until_NUL name)) h' ∧
    Series_index column = b ∧
    series_type column = type.
Proof.
  intros Hwf Hnames Hname Hb Htype.
  pose proof (proj1 (Forall_lookup _ _) Hnames indice name Hname) as Htext.
  destruct (createDataframe_builds _ _ _ _ Hwf Hnames h)
    as (new & Hrun & Hbuilt).
  destruct Hbuilt as (columns & cols & Hdf & Hcols & Hlen & Hall).
  destruct (Hall indice name Hname)
    as (c & b' & type' & Hc & Hb' & Htype' & Hn & Hi & Ht & _).
  simplify_eq.
  exists (h ++ new), c. split; [exact Hrun|].
  split; [eapply column_at_Ok; eassumption|].
  split; [|split; [|reflexivity]].
  - unfold Series_name.
    apply cell_at_Some in Hn as (l & Hl & Hn). rewrite Hl.
    erewrite bind_Ok;
      [|eapply string_of_char_ptr_Ok;
        [simpl; now rewrite Hn
        |simpl; now rewrite read_c_str_c_str, until_NUL_idem]].
    now rewrite (bind_Ok _ _ _ _ _
                   (py_str_Ok _ _ (valid_utf8_until_NUL _ Htext))).
  - unfold Series_index. rewrite Hi. now destruct b.
Qed.

Lemma Series_name_index_of_built_column_witness :
  ∃ h' column,
    createDataframe (RT := cxx) (PY := pylist_casts) bus_values
      ["id"; "v"]%string [0; 1] [true; false] []
    = Ok (Ptr 0) h' ∧
    column_at (Ptr 0) 0 h' = Ok column h' ∧
    Series_name column h' = Ok (Some "id"%string) h' ∧
    Series_index column = true ∧
    series_type column = 0.
Proof.
  apply (Series_name_index_of_built_column (RT := cxx) (PY := pylist_casts)
           bus_values ["id"; "v"]%string [0; 1] [true; false] [] 0 "id"
           true 0).
  - check_arguments.
  - repeat constructor.
  - reflexivity.
  - reflexivity.
  - reflexivity.
Defined.

(** ** The buffer of a [Matrix] *)

Lemma to_ssize_t_small z : - 2 ^ 63 ≤ z < 2 ^ 63 → to_ssize_t z = z.
Proof.
  intros Hz. unfold to_ssize_t. rewrite Z.mod_small by lia. lia.
Qed.

Lemma to_size_t_small z : 0 ≤ z < 2 ^ 64 → to_size_t z = z.
Proof. intros Hz. unfold to_size_t. now apply Z.mod_small. Qed.

Lemma Matrix_buffer_strides (m : matrix) :
  0 ≤ column_count m < 2 ^ 31 →
  buffer_strides (Matrix_buffer m) = [8 * column_count m; 8].
Proof.
  intros Hc. unfold Matrix_buffer, sizeof_double. cbn [buffer_strides].
  rewrite (to_size_t_small (column_count m)) by lia.
  rewrite (to_size_t_small (8 * column_count m)) by lia.
  now rewrite !to_ssize_t_small by lia.
Qed.

Lemma Matrix_buffer_in_shape (m : matrix) i j :
  0 ≤ row_count m < 2 ^ 31 → 0 ≤ column_count m < 2 ^ 31 →
  in_shape (Matrix_buffer m) [i; j] →
  0 ≤ i < row_count m ∧ 0 ≤ j < column_count m.
Proof.
  intros Hr Hc Hin. unfold in_shape, Matrix_buffer in Hin.
  cbn [buffer_shape] in Hin.
  rewrite !to_ssize_t_small in Hin by lia.
  apply Forall2_cons_1 in Hin as [Hi Hin].
  apply Forall2_cons_1 in Hin as [Hj _]. now split.
Qed.

(** X5: the buffer of a [Matrix] of [row_count] rows and [column_count]
    columns over an array of [row_count * column_count] doubles is laid out
    row after row: the item at row [i] and column [j] is the double at
    position [i * column_count + j] of the array, within its bounds, and
    two different positions of the matrix never read the same double. *)
Theorem Matrix_buffer_row_major (m : matrix) (h : heap) (ds : list float64)
    (i j : Z) :
  content_at h (matrix_values m) = Some (BDoubles ds) →
  Z.of_nat (List.length ds) = row_count m * column_count m →
  0 ≤ row_count m < 2 ^ 31 → 0 ≤ column_count m < 2 ^ 31 →
  in_shape (Matrix_buffer m) [i; j] →
  (∃ d, ds !! Z.to_nat (i * column_count m + j) = Some d ∧
        buffer_item (Matrix_buffer m) [i; j] h = Ok d h) ∧
  ∀ i' j', in_shape (Matrix_buffer m) [i'; j'] →
    buffer_offset (Matrix_buffer m) [i'; j']
    = buffer_offset (Matrix_buffer m) [i; j] →
    i' = i ∧ j' = j.
Proof.
  intros Hds Hlen Hr Hc Hin.
  destruct (Matrix_buffer_in_shape m i j Hr Hc Hin) as [Hi Hj].
  assert (Hoff : ∀ x y, buffer_offset (Matrix_buffer m) [x; y]
                        = 8 * (x * column_count m + y)).
  { intros x y. unfold buffer_offset.
    rewrite (Matrix_buffer_strides m Hc). simpl. lia. }
  split.
  - assert (Hlt : (Z.to_nat (i * column_count m + j) < List.length ds)%nat)
      by nia.
    destruct (lookup_lt_is_Some_2 ds _ Hlt) as [d Hd].
    exists d. split; [exact Hd|].
    unfold buffer_item.
    change (buffer_ptr (Matrix_buffer m)) with (matrix_values m).
    rewrite (bind_Ok _ _ _ _ _ (load_Ok _ _ _ Hds)).
    change (buffer_itemsize (Matrix_buffer m)) with 8.
    rewrite Hoff.
    replace (8 * (i * column_count m + j) / 8)
      with (i * column_count m + j)
      by (rewrite (Z.mul_comm 8), Z.div_mul; lia).
    rewrite decide_True.
    + now apply vector_at_Ok.
    + split; [nia|]. rewrite (Z.mul_comm 8). apply Z.mod_mul. lia.
  - intros i' j' Hin' Heq.
    destruct (Matrix_buffer_in_shape m i' j' Hr Hc Hin') as [Hi' Hj'].
    rewrite !Hoff in Heq.
    assert (Hii : i' = i).
    { destruct (Z.lt_trichotomy i' i) as [Hlt|[Heq'|Hlt]]; [|exact Heq'|].
      - pose proof (Z.mul_le_mono_nonneg_r (i' + 1) i (column_count m)
                      ltac:(lia) ltac:(lia)). lia.
      - pose proof (Z.mul_le_mono_nonneg_r (i + 1) i' (column_count m)
                      ltac:(lia) ltac:(lia)). lia. }
    subst i'. split; [reflexivity|lia].
Qed.

Lemma Matrix_buffer_row_major_witness :
  (∃ d, [10; 11; 12; 20; 21; 22] !! Z.to_nat (1 * 3 + 2) = Some d ∧
        buffer_item (Matrix_buffer (Matrix (Ptr 0) 2 3)) [1; 2] matrix_heap
        = Ok d matrix_heap) ∧
  ∀ i' j', in_shape (Matrix_buffer (Matrix (Ptr 0) 2 3)) [i'; j'] →
    buffer_offset (Matrix_buffer (Matrix (Ptr 0) 2 3)) [i'; j']
    = buffer_offset (Matrix_buffer (Matrix (Ptr 0) 2 3)) [1; 2] →
    i' = 1 ∧ j' = 2.
Proof.
  apply (Matrix_buffer_row_major (Matrix (Ptr 0) 2 3) matrix_heap
           [10; 11; 12; 20; 21; 22] 1 2).
  - reflexivity.
  - reflexivity.
  - simpl. lia.
  - simpl. lia.
  - repeat constructor; vm_compute; congruence.
Defined.

(** ** [createElement] *)

(** The deleter of a table array, wherever its two cells stand. *)
Lemma dataframeArray_deleter_released `{RT : Runtime} (h : heap) a n dfs :
  h !! a = Some (Some (Cell New (BDataframeArray
             (DataframeArray (Ptr (S a)) n)))) →
  h !! S a = Some (Some (Cell NewArr (BDataframes dfs))) →
  dataframeArray_deleter (Ptr a) h = Ok () (released [S a; a] h).
Proof.
  intros Ha Hd. unfold dataframeArray_deleter, load_dataframe_array.
  assert (Hhdr : content_at h (Ptr a) = Some (BDataframeArray
                   (DataframeArray (Ptr (S a)) n)))
    by (simpl; now rewrite Ha).
  run (load_Ok _ _ _ Hhdr).
  rewrite bind_ret. cbn [dataframes].
  erewrite bind_Ok;
    [|eapply dealloc_Ok;
      [exact Hd|apply dealloc_accepts_matching|reflexivity]].
  assert (Ha' : <[S a := None]> h !! a = h !! a)
    by (apply list_lookup_insert_ne; lia).
  rewrite Ha in Ha'.
  now rewrite (dealloc_Ok _ _ _ _ _ Ha' (dealloc_accepts_matching _) eq_refl).
Qed.

(** X6: [createElement] hands to the native call a fresh array of the
    headers of the tables passed, and releases the two cells of this array
    once the call is over, whether the call returns or throws, provided the
    call left these two cells as they were: what [createElement] leaves is
    what the native call left, less these two cells, and the exception of
    the native call, if any, is the one of [createElement]. *)
Theorem createElement_releases_the_array `{RT : Runtime}
    {JavaHandle element_type : Type}
    (native : JavaHandle → pointer → element_type → M unit)
    (network : JavaHandle) (ptrs : list pointer) (dfs : list dataframe)
    (elementType : element_type) (h : heap) :
  Forall2 (λ p df, content_at h p = Some (BDataframe df)) ptrs dfs →
  (∀ h1,
     outcome_heap
       (native network (Ptr (List.length h)) elementType
          (h ++ [Some (Cell New (BDataframeArray
                   (DataframeArray (Ptr (S (List.length h)))
                                   (Z.of_nat (List.length ptrs)))));
                 Some (Cell NewArr (BDataframes dfs))])) = Some h1 →
     h1 !! List.length h
     = Some (Some (Cell New (BDataframeArray
                (DataframeArray (Ptr (S (List.length h)))
                                (Z.of_nat (List.length ptrs)))))) ∧
     h1 !! S (List.length h) = Some (Some (Cell NewArr (BDataframes dfs)))) →
  createElement native network ptrs elementType h
  = map_heap (released [S (List.length h); List.length h])
      (native network (Ptr (List.length h)) elementType
         (h ++ [Some (Cell New (BDataframeArray
                  (DataframeArray (Ptr (S (List.length h)))
                                  (Z.of_nat (List.length ptrs)))));
                Some (Cell NewArr (BDataframes dfs))])).
Proof.
  intros Htables Hkept. unfold createElement.
  rewrite (bind_Ok _ _ _ _ _ (createDataframeArray_run h ptrs dfs Htables)).
  unfold scoped, bind at 1, unwinding.
  destruct (native network _ elementType _) as [[] h1|e h1|f]; simpl in *.
  - destruct (Hkept h1 eq_refl) as [Ha Hd].
    now rewrite (bind_Ok _ _ _ _ _
                   (dataframeArray_deleter_released h1 _ _ _ Ha Hd)).
  - destruct (Hkept h1 eq_refl) as [Ha Hd].
    now rewrite (dataframeArray_deleter_released h1 _ _ _ Ha Hd).
  - reflexivity.
Qed.

Lemma createElement_releases_the_array_witness :
  createElement (RT := cxx) reject_empty_tables () [Ptr 0] 5
    [Some (Cell New (BDataframe (Dataframe Null 0)))]
  = Throw (PyPowsyblError "empty table")
      [Some (Cell New (BDataframe (Dataframe Null 0))); None; None].
Proof.
  apply (createElement_releases_the_array (RT := cxx) reject_empty_tables ()
           [Ptr 0] [Dataframe Null 0] 5
           [Some (Cell New (BDataframe (Dataframe Null 0)))]).
  - repeat constructor.
  - intros h1 E. vm_compute in E. injection E as <-.
    split; reflexivity.
Defined.

(** ** Releasing a table twice *)

(** X7: once [deleteDataframe] has released a table, the header of the
    table is gone: a second [deleteDataframe] on the same pointer, and the
    access to any column through it, read released memory. *)
Theorem deleteDataframe_twice `{RT : Runtime} (h : heap) (df : pointer)
    (ls : list nat) :
  table_cells h df = Some ls → NoDup ls →
  ∃ d h',
    df = Ptr d ∧
    deleteDataframe df h = Ok () h' ∧
    h' !! d = Some None ∧
    deleteDataframe df h' = Fault (InvalidAccess d) ∧
    ∀ indice, column_at df indice h' = Fault (InvalidAccess d).
Proof.
  intros Hcells Hnd.
  pose proof (deleteDataframe_released h df ls Hcells Hnd) as Hrun.
  unfold table_cells in Hcells.
  destruct (content_at h df) as [[| | | | |hdr| | |]|]; try discriminate.
  destruct (content_at h (df_series hdr)) as [[| | | |cols| | | |]|];
    try discriminate.
  case_decide; [|discriminate].
  destruct (mapM _ _) as [lss|]; [|discriminate].
  destruct (releasable h NewArr is_series_arr (df_series hdr)) as [s|];
    [|discriminate].
  destruct (releasable h New is_dataframe df) as [d|] eqn:Hd; [|discriminate].
  injection Hcells as <-.
  pose proof (releasable_Ptr _ _ _ _ _ Hd) as ->.
  assert (Hgone : released (concat lss ++ [s; d]) h !! d = Some None).
  { apply lookup_released_in; [|apply (releasable_lt _ _ _ _ _ Hd)].
    rewrite elem_of_app, !elem_of_cons. auto. }
  exists d, (released (concat lss ++ [s; d]) h).
  split; [reflexivity|]. split; [exact Hrun|]. split; [exact Hgone|].
  split; [|intros indice];
    unfold deleteDataframe, column_at, load_dataframe, bind, load;
    now rewrite Hgone.
Qed.

Lemma deleteDataframe_twice_witness :
  ∃ d h',
    Ptr 0 = Ptr d ∧
    deleteDataframe (RT := cxx) (Ptr 0) foreign_table = Ok () h' ∧
    h' !! d = Some None ∧
    deleteDataframe (RT := cxx) (Ptr 0) h' = Fault (InvalidAccess d) ∧
    ∀ indice, column_at (Ptr 0) indice h' = Fault (InvalidAccess d).
Proof.
  apply (deleteDataframe_twice (RT := cxx) foreign_table (Ptr 0)
           [2; 4; 3; 1; 0]%nat).
  - reflexivity.
  - apply NoDup_ListNoDup; repeat constructor; simpl; lia.
Defined.

(** ** A table of no column *)

(** X8: given no name, [createDataframe] returns a table of no column: a
    header and an empty column array, whatever the other arguments; and
    [deleteDataframe] releases these two cells, whatever the runtime
    accepts beyond matching deallocations. *)
Theorem createDataframe_no_columns `{RT : Runtime} {pyobj : Type}
    `{PY : Pybind11 pyobj} (columnsValues : list pyobj)
    (columnsTypes : list Z) (isIndex : list bool) (h : heap) :
  createDataframe columnsValues [] columnsTypes isIndex h
  = Ok (Ptr (List.length h))
       (h ++ [Some (Cell New (BDataframe
                 (Dataframe (Ptr (S (List.length h))) 0)));
              Some (Cell NewArr (BSeriesArr []))]) ∧
  deleteDataframe (Ptr (List.length h))
    (h ++ [Some (Cell New (BDataframe
              (Dataframe (Ptr (S (List.length h))) 0)));
           Some (Cell NewArr (BSeriesArr []))])
  = Ok () (h ++ [None; None]).
Proof.
  split.
  - unfold createDataframe. cbn [List.length seq fmap list_fmap].
    rewrite (bind_Ok _ _ _ _ _ (eq_refl : alloc _ _ h = Ok _ _)).
    apply unwinding_Ok.
    rewrite (bind_Ok _ _ _ _ _ (eq_refl : alloc _ _ (h ++ [_]) = Ok _ _)).
    unfold for_loop. cbn [seq for_each]. rewrite bind_ret.
    rewrite <- (app_assoc h). cbn [app].
    run (set_dataframe_around _ _ _ _ _).
    run (set_dataframe_around _ _ _ _ _).
    unfold ret. now rewrite length_app, Nat.add_1_r.
  - unfold deleteDataframe.
    match goal with |- _ ?h' = _ =>
      assert (Hdf : content_at h' (Ptr (List.length h))
                    = Some (BDataframe (Dataframe (Ptr (S (List.length h))) 0)))
        by (simpl; now rewrite lookup_last_two_fst)
    end.
    run (load_dataframe_Ok _ _ _ Hdf).
    cbn [df_series_count]. change (Z.to_nat 0) with 0%nat.
    unfold for_loop. cbn [seq for_each]. rewrite bind_ret.
    run (load_dataframe_Ok _ _ _ Hdf). cbn [df_series].
    erewrite bind_Ok;
      [|eapply dealloc_Ok;
        [apply lookup_last_two_snd|apply dealloc_accepts_matching
        |reflexivity]].
    rewrite insert_last_two_snd.
    erewrite dealloc_Ok;
      [|apply lookup_last_two_fst|apply dealloc_accepts_matching
       |reflexivity].
    now rewrite insert_last_two_fst.
Qed.

(** ** The cells of a table, one by one *)

Lemma bind_Throw {A B} (m : M A) (k : A → M B) h e h' :
  m h = Throw e h' → bind m k h = Throw e h'.
Proof. intros E. unfold bind. now rewrite E. Qed.

Lemma cast_item_Throw {pyobj T} (cast : pyobj → option T) values i :
  values !! i ≫= cast = None →
  ∃ e, (e = index_error ∨ e = cast_error) ∧
       ∀ h, cast_item cast values i h = Throw e h.
Proof.
  unfold cast_item. destruct (values !! i) as [o|]; simpl.
  - intros ->. exists cast_error. split; [now right|reflexivity].
  - intros _. exists index_error. split; [now left|reflexivity].
Qed.

Section createDataframe_cells.
Context `{RT : Runtime} {pyobj : Type} `{PY : Pybind11 pyobj}.
Variable columnsValues : list pyobj.
Variable columnsNames : list string.
Variable columnsTypes : list Z.
Variable isIndex : list bool.

(** The body of the loop on a column whose values convert: the heap it
    leaves, cell by cell. *)
Lemma createDataframe_column_exact (pre post : heap) cols i c0 name b type :
  (i < List.length cols)%nat →
  columnsNames !! i = Some name →
  valid_utf8 name = true →
  isIndex !! i = Some b →
  columnsTypes !! i = Some type →
  converts type (columnsValues !! i) →
  createDataframe_column (Ptr (List.length pre)) columnsValues columnsNames
    columnsTypes isIndex i
    (pre ++ Some (Cell NewArr (BSeriesArr (<[i := c0]> cols))) :: post)
  = Ok () (pre ++ Some (Cell NewArr (BSeriesArr
             (<[i := column_of (List.length pre + S (List.length post)) b
                       type (columnsValues !! i) c0]> cols)))
           :: (post ++ column_cells (List.length pre + S (List.length post))
                         name type (columnsValues !! i))).
Proof.
  intros Hi Hname Htext Hb Htype Hconv.
  unfold createDataframe_column.
  run (vector_at_Ok _ _ _ _ Hname).
  run (py_str_Ok _ _ Htext).
  run (strdup_around _ _ _ _).
  run (set_series_around_insert _ _ _ _ _ _ _ Hi).
  run (vector_at_Ok _ _ _ _ Hb).
  run (set_series_around_insert _ _ _ _ _ _ _ Hi).
  run (vector_at_Ok _ _ _ _ Htype).
  run (set_series_around_insert _ _ _ _ _ _ _ Hi).
  unfold converts in Hconv.
  unfold column_of, column_buffer, column_cells, copied_strings.
  destruct (decide (type = 0)) as [Ht0|Ht0];
    [|destruct (decide (type = 1)) as [Ht1|Ht1];
      [|destruct (decide (type = 2 ∨ type = 3)) as [Ht2|Ht2]]].
  - destruct Hconv as [v Hv]. rewrite Hv. cbn [from_option].
    run (cast_item_Ok _ _ _ _ _ Hv).
    run (set_series_around_insert _ _ _ _ _ _ _ Hi).
    run (copyVectorStringToCharPtrPtr_around _ _ _ _).
    rewrite (set_series_around_insert _ _ _ _ _ _ _ Hi).
    rewrite <- !(app_assoc post). rewrite !length_app. cbn [List.length app].
    rewrite !Nat.add_1_r.
    replace (List.length pre + S (S (List.length post) + List.length v))%nat
      with (S (List.length pre + S (List.length post)) + List.length v)%nat
      by lia.
    replace (List.length pre + S (S (List.length post)))%nat
      with (S (List.length pre + S (List.length post))) by lia.
    reflexivity.
  - destruct Hconv as [v Hv]. rewrite Hv. cbn [from_option].
    run (cast_item_Ok _ _ _ _ _ Hv).
    run (set_series_around_insert _ _ _ _ _ _ _ Hi).
    unfold copyVectorDouble.
    run (alloc_around _ _ _ _ _).
    rewrite (set_series_around_insert _ _ _ _ _ _ _ Hi).
    rewrite <- !(app_assoc post). rewrite !length_app. cbn [List.length app].
    rewrite !Nat.add_1_r.
    replace (List.length pre + S (S (List.length post)))%nat
      with (S (List.length pre + S (List.length post))) by lia.
    reflexivity.
  - destruct Hconv as [v Hv]. rewrite Hv. cbn [from_option].
    run (cast_item_Ok _ _ _ _ _ Hv).
    run (set_series_around_insert _ _ _ _ _ _ _ Hi).
    unfold copyVectorInt.
    run (alloc_around _ _ _ _ _).
    rewrite (set_series_around_insert _ _ _ _ _ _ _ Hi).
    rewrite <- !(app_assoc post). rewrite !length_app. cbn [List.length app].
    rewrite !Nat.add_1_r.
    replace (List.length pre + S (S (List.length post)))%nat
      with (S (List.length pre + S (List.length post))) by lia.
    reflexivity.
  - reflexivity.
Qed.

(** The body of the loop on a column whose values do not convert: the
    exception leaves the copy of the name behind. *)
Lemma createDataframe_column_throws (pre post : heap) cols i c0 name b type :
  (i < List.length cols)%nat →
  columnsNames !! i = Some name →
  valid_utf8 name = true →
  isIndex !! i = Some b →
  columnsTypes !! i = Some type →
  ¬ converts type (columnsValues !! i) →
  ∃ e, (e = index_error ∨ e = cast_error) ∧
    createDataframe_column (Ptr (List.length pre)) columnsValues columnsNames
      columnsTypes isIndex i
      (pre ++ Some (Cell NewArr (BSeriesArr (<[i := c0]> cols))) :: post)
    = Throw e (pre ++ Some (Cell NewArr (BSeriesArr
                 (<[i := column_of (List.length pre + S (List.length post)) b
                           type (columnsValues !! i) c0]> cols)))
               :: (post ++ column_cells (List.length pre + S (List.length post))
                             name type (columnsValues !! i))).
Proof.
  intros Hi Hname Htext Hb Htype Hconv.
  unfold converts in Hconv.
  assert (Hnone : ∀ T (x : option T), ¬ is_Some x → x = None).
  { intros T [x|] Hx; [|reflexivity]. destruct Hx. eauto. }
  assert (He : ∃ e, (e = index_error ∨ e = cast_error) ∧
    ∀ h,
      (if decide (type = 0) then
         values ← cast_item cast_vector_string columnsValues i;
         set_series (Ptr (List.length pre)) i
           (with_data_length (Z.of_nat (List.length values)));;
         p ← copyVectorStringToCharPtrPtr values;
         set_series (Ptr (List.length pre)) i (with_data_ptr p)
       else if decide (type = 1) then
         values ← cast_item cast_vector_double columnsValues i;
         set_series (Ptr (List.length pre)) i
           (with_data_length (Z.of_nat (List.length values)));;
         p ← copyVectorDouble values;
         set_series (Ptr (List.length pre)) i (with_data_ptr p)
       else if decide (type = 2 ∨ type = 3) then
         values ← cast_item cast_vector_int columnsValues i;
         set_series (Ptr (List.length pre)) i
           (with_data_length (Z.of_nat (List.length values)));;
         p ← copyVectorInt values;
         set_series (Ptr (List.length pre)) i (with_data_ptr p)
       else ret ()) h = Throw e h).
  { repeat case_decide; try (now destruct Hconv).
    - destruct (cast_item_Throw cast_vector_string columnsValues i
                  (Hnone _ _ Hconv)) as (e & He & Hc).
      exists e. split; [exact He|]. intros h. apply bind_Throw, Hc.
    - destruct (cast_item_Throw cast_vector_double columnsValues i
                  (Hnone _ _ Hconv)) as (e & He & Hc).
      exists e. split; [exact He|]. intros h. apply bind_Throw, Hc.
    - destruct (cast_item_Throw cast_vector_int columnsValues i
                  (Hnone _ _ Hconv)) as (e & He & Hc).
      exists e. split; [exact He|]. intros h. apply bind_Throw, Hc. }
  destruct He as (e & He & Hthrow).
  exists e. split; [exact He|].
  unfold createDataframe_column.
  run (vector_at_Ok _ _ _ _ Hname).
  run (py_str_Ok _ _ Htext).
  run (strdup_around _ _ _ _).
  run (set_series_around_insert _ _ _ _ _ _ _ Hi).
  run (vector_at_Ok _ _ _ _ Hb).
  run (set_series_around_insert _ _ _ _ _ _ _ Hi).
  run (vector_at_Ok _ _ _ _ Htype).
  run (set_series_around_insert _ _ _ _ _ _ _ Hi).
  rewrite Hthrow.
  unfold column_of, column_buffer, column_cells.
  repeat case_decide; try (now destruct Hconv);
    now rewrite (Hnone _ _ Hconv).
Qed.

Lemma converts_or_not type (o : option pyobj) :
  converts type o ∨ ¬ converts type o.
Proof.
  assert (Hdec : ∀ T (x : option T), is_Some x ∨ ¬ is_Some x).
  { intros T [x|]; [left; eauto|right; now intros [? ?]]. }
  unfold converts. repeat case_decide; auto.
Qed.

Lemma live_copied_strings n (v : list string) : Forall live (copied_strings n v).
Proof.
  unfold copied_strings. apply Forall_app. split.
  - apply Forall_fmap, Forall_true. intros s. now eexists.
  - repeat constructor. now eexists.
Qed.

Lemma live_column_cells n name type (o : option pyobj) :
  Forall live (column_cells n name type o).
Proof.
  unfold column_cells. constructor; [now eexists|].
  repeat case_decide; try constructor;
    match goal with |- context [from_option _ _ ?x] => destruct x end;
    cbn [from_option]; try constructor;
    solve [apply live_copied_strings | now eexists | constructor].
Qed.

(** The loop of [createDataframe], from column [k] on, when every name has
    a type tag and an index flag: it ends, or throws at the first column
    whose values do not convert. *)
Lemma createDataframe_loop_outcome (pre : heap) (m : nat) :
  described columnsNames columnsTypes isIndex →
  text_names columnsNames →
  ∀ k cols post,
  (k + m)%nat = List.length columnsNames →
  List.length cols = List.length columnsNames →
  (∃ cols' new,
     for_each (seq k m)
       (createDataframe_column (Ptr (List.length pre)) columnsValues
          columnsNames columnsTypes isIndex)
       (pre ++ Some (Cell NewArr (BSeriesArr cols)) :: post)
     = Ok () (pre ++ Some (Cell NewArr (BSeriesArr cols')) :: (post ++ new)) ∧
     ∀ j, (k ≤ j < k + m)%nat →
       ∃ type, columnsTypes !! j = Some type ∧
               converts type (columnsValues !! j))
  ∨ (∃ e cols' new,
       (e = index_error ∨ e = cast_error) ∧
       for_each (seq k m)
         (createDataframe_column (Ptr (List.length pre)) columnsValues
            columnsNames columnsTypes isIndex)
         (pre ++ Some (Cell NewArr (BSeriesArr cols)) :: post)
       = Throw e (pre ++ Some (Cell NewArr (BSeriesArr cols')) :: (post ++ new)) ∧
       Forall live new ∧ new ≠ []).
Proof.
  intros [Htypes Hflags] Hnames.
  induction m as [|m IH]; intros k cols post Hk Hlen.
  - left. exists cols, []. rewrite app_nil_r. split; [reflexivity|].
    intros j Hj. lia.
  - destruct (lookup_lt_is_Some_2 columnsNames k ltac:(lia)) as [name Hname].
    destruct (lookup_lt_is_Some_2 columnsTypes k ltac:(lia)) as [type Htype].
    destruct (lookup_lt_is_Some_2 isIndex k ltac:(lia)) as [b Hb].
    destruct (lookup_lt_is_Some_2 cols k ltac:(lia)) as [c0 Hc0].
    pose proof (proj1 (Forall_lookup _ _) Hnames k name Hname) as Htext.
    cbn [seq for_each].
    destruct (converts_or_not type (columnsValues !! k)) as [Hconv|Hconv].
    + pose proof (createDataframe_column_exact pre post cols k c0 name b type
                    ltac:(lia) Hname Htext Hb Htype Hconv) as Hrun.
      rewrite (list_insert_id _ _ _ Hc0) in Hrun.
      rewrite (bind_Ok _ _ _ _ _ Hrun).
      match type of Hrun with _ = Ok () (_ ++ Some (Cell _ (BSeriesArr ?cs))
                                           :: (_ ++ ?cells)) =>
        destruct (IH (S k) cs (post ++ cells) ltac:(lia)
                    ltac:(now rewrite length_insert))
          as [(cols' & new & Hloop & Hall)|(e & cols' & new & He & Hloop & Hl & Hn)];
        [left; exists cols', (cells ++ new)
        |right; exists e, cols', (cells ++ new)]
      end.
      * rewrite app_assoc. split; [exact Hloop|].
        intros j Hj. destruct (decide (j = k)) as [->|Hjk].
        -- now exists type.
        -- apply Hall. lia.
      * rewrite app_assoc. split; [exact He|]. split; [exact Hloop|].
        split.
        -- apply Forall_app. split; [apply live_column_cells|exact Hl].
        -- intros Happ. apply app_eq_nil in Happ as [_ ->]. congruence.
    + destruct (createDataframe_column_throws pre post cols k c0 name b type
                  ltac:(lia) Hname Htext Hb Htype Hconv) as (e & He & Hrun).
      rewrite (list_insert_id _ _ _ Hc0) in Hrun.
      right. eexists e, _, _. split; [exact He|].
      split; [apply bind_Throw, Hrun|].
      split; [apply live_column_cells|discriminate].
Qed.

End createDataframe_cells.

Lemma unwinding_Throw {A} (deleter : M unit) (body : M A) h e h' h'' :
  body h = Throw e h' → deleter h' = Ok () h'' →
  unwinding deleter body h = Throw e h''.
Proof. intros E D. unfold unwinding. now rewrite E, D. Qed.

(** The deleter of [createDataframe] on the header as [new dataframe()]
    left it: no column, no column array. *)
Lemma deleteDataframe_fresh_header `{RT : Runtime} (pre post : heap) :
  deleteDataframe (Ptr (List.length pre))
    (pre ++ Some (Cell New (BDataframe (Dataframe Null 0))) :: post)
  = Ok () (pre ++ None :: post).
Proof.
  unfold deleteDataframe.
  match goal with |- _ ?h' = _ =>
    assert (Hdf : content_at h' (Ptr (List.length pre))
                  = Some (BDataframe (Dataframe Null 0)))
      by (simpl; now rewrite lookup_around)
  end.
  run (load_dataframe_Ok _ _ _ Hdf).
  cbn [df_series_count]. change (Z.to_nat 0) with 0%nat.
  unfold for_loop. cbn [seq for_each]. rewrite bind_ret.
  run (load_dataframe_Ok _ _ _ Hdf). cbn [df_series].
  rewrite (bind_Ok _ _ _ _ _ (eq_refl : dealloc _ _ Null _ = Ok () _)).
  erewrite dealloc_Ok;
    [|apply lookup_around|apply dealloc_accepts_matching|reflexivity].
  now rewrite insert_around.
Qed.

(** ** [createDataframe] on values that do not convert *)

(** X9: when every name is text, well-formed UTF-8, and has a type tag and
    an index flag, and the values of some column are missing or do not
    convert to the vector that its type tag asks for, [createDataframe]
    throws the exception of the conversion of the values;
    the deleter of the result releases the header and nothing else: the
    column array, the copy of the name of the failing column and whatever
    was built for the columns before it stay allocated. *)
Theorem createDataframe_failure_leaks `{RT : Runtime} {pyobj : Type}
    `{PY : Pybind11 pyobj} (columnsValues : list pyobj)
    (columnsNames : list string) (columnsTypes : list Z) (isIndex : list bool)
    (h : heap) :
  described columnsNames columnsTypes isIndex →
  text_names columnsNames →
  ¬ well_formed columnsValues columnsNames columnsTypes isIndex →
  ∃ e cols leaked,
    (e = index_error ∨ e = cast_error) ∧
    createDataframe columnsValues columnsNames columnsTypes isIndex h
    = Throw e (h ++ None :: Some (Cell NewArr (BSeriesArr cols)) :: leaked) ∧
    Forall live leaked ∧ leaked ≠ [].
Proof.
  intros Hdesc Hnames Hnwf.
  unfold createDataframe.
  rewrite (bind_Ok _ _ _ _ _ (eq_refl : alloc _ _ h = Ok _ _)).
  set (hdr0 := Some (Cell New (BDataframe (Dataframe Null 0)))).
  pose (cols0 := indeterminate_series <$> seq 0 (List.length columnsNames)).
  assert (Hlen0 : List.length cols0 = List.length columnsNames)
    by (unfold cols0; now rewrite length_fmap, length_seq).
  destruct (createDataframe_loop_outcome columnsValues columnsNames
              columnsTypes isIndex (h ++ [hdr0]) (List.length columnsNames)
              Hdesc Hnames 0 cols0 [] eq_refl Hlen0)
    as [(cols & new & _ & Hall)|(e & cols & new & He & Hloop & Hlive & Hne)].
  - destruct Hnwf. intros indice Hi.
    destruct (Hall indice ltac:(lia)) as (type & Htype & Hconv).
    destruct Hdesc as [_ Hflags].
    destruct (lookup_lt_is_Some_2 isIndex indice ltac:(lia)) as [b Hb].
    now exists type, b.
  - exists e, cols, new. split; [exact He|]. split; [|now split].
    eapply unwinding_Throw.
    + rewrite (bind_Ok _ _ _ _ _
                 (eq_refl : alloc _ _ (h ++ [hdr0]) = Ok _ _)).
      unfold for_loop. apply bind_Throw. exact Hloop.
    + cbn [app]. rewrite <- (app_assoc h). cbn [app].
      apply deleteDataframe_fresh_header.
Qed.

Lemma createDataframe_failure_leaks_witness :
  ∃ e cols leaked,
    (e = index_error ∨ e = cast_error) ∧
    createDataframe (RT := cxx) (PY := pylist_casts)
      [PyStrs ["B1"; "B2"]%string; PyStrs ["1.05"; "0.98"]%string]
      ["id"; "v"]%string [0; 1] [true; false] []
    = Throw e ([] ++ None :: Some (Cell NewArr (BSeriesArr cols)) :: leaked) ∧
    Forall live leaked ∧ leaked ≠ [].
Proof.
  apply (createDataframe_failure_leaks (RT := cxx) (PY := pylist_casts)
           [PyStrs ["B1"; "B2"]%string; PyStrs ["1.05"; "0.98"]%string]
           ["id"; "v"]%string [0; 1] [true; false] []).
  - split; simpl; lia.
  - repeat constructor.
  - intros Hwf. destruct (Hwf 1%nat ltac:(simpl; lia))
      as (type & b & Htype & _ & Hconv).
    injection Htype as <-. unfold converts in Hconv. simpl in Hconv.
    destruct Hconv as [v Hv]. discriminate.
Defined.

(** ** [createDataframe], then [deleteDataframe] *)

Lemma released_Permutation (ls ls' : list nat) (h : heap) :
  ls ≡ₚ ls' → released ls h = released ls' h.
Proof.
  intros Hp. revert h.
  induction Hp as [|x l l' _ IH|x y l|l l' l'' _ IH1 _ IH2]; intros h.
  - reflexivity.
  - rewrite !released_cons. apply IH.
  - rewrite !released_cons. f_equal.
    destruct (decide (x = y)) as [->|Hne]; [reflexivity|].
    now apply list_insert_insert_ne.
  - now rewrite IH1.
Qed.

Lemma is_chars_buffer b : is_chars b = true → is_buffer b = true.
Proof. now destruct b. Qed.
Lemma is_char_ptrs_buffer b : is_char_ptrs b = true → is_buffer b = true.
Proof. now destruct b. Qed.
Lemma is_doubles_buffer b : is_doubles b = true → is_buffer b = true.
Proof. now destruct b. Qed.
Lemma is_ints_buffer b : is_ints b = true → is_buffer b = true.
Proof. now destruct b. Qed.

Section cells_of_columns.
Context `{RT : Runtime}.

Lemma releasable_keeps h h' how is_T p l :
  keeps h h' → (∀ b, is_T b = true → is_buffer b = true) →
  releasable h how is_T p = Some l → releasable h' how is_T p = Some l.
Proof.
  intros K HT. destruct p as [|a]; [discriminate|]. unfold releasable.
  destruct (h !! a) as [[c|]|] eqn:E; try discriminate.
  destruct (dealloc_accepts (cell_kind c) how && is_T (cell_content c))
    eqn:X; [|discriminate].
  intros [= <-].
  assert (B : is_buffer (cell_content c) = true).
  { apply HT. now apply andb_true_iff in X as [_ X]. }
  assert (Hc : cell_at h (Ptr a) = Some c) by (simpl; now rewrite E).
  apply (K _ _ Hc) in B. apply cell_at_Some in B as (a' & [= <-] & E').
  now rewrite E', X.
Qed.

Lemma content_at_keeps h h' p b :
  keeps h h' → is_buffer b = true →
  content_at h p = Some b → content_at h' p = Some b.
Proof.
  intros K B. destruct p as [|a]; [discriminate|]. simpl.
  destruct (h !! a) as [[c|]|] eqn:E; try discriminate.
  intros [= <-].
  assert (Hc : cell_at h (Ptr a) = Some c) by (simpl; now rewrite E).
  apply (K _ _ Hc) in B. apply cell_at_Some in B as (a' & [= <-] & E').
  now rewrite E'.
Qed.

Lemma char_ptr_ptr_cells_keeps h h' p n ls :
  keeps h h' →
  char_ptr_ptr_cells h p n = Some ls → char_ptr_ptr_cells h' p n = Some ls.
Proof.
  intros K. unfold char_ptr_ptr_cells.
  destruct (content_at h p) as [[| qs | | | | | | |]|] eqn:Hqs; try discriminate.
  rewrite (content_at_keeps _ _ _ (BCharPtrs qs) K eq_refl Hqs).
  case_decide; [|discriminate].
  destruct (mapM _ _) as [strs|] eqn:Hstrs; [|discriminate].
  destruct (releasable h NewArr is_char_ptrs p) as [la|] eqn:Hla;
    [|discriminate].
  intros [= <-].
  rewrite (releasable_keeps _ _ _ _ _ _ K is_char_ptrs_buffer Hla).
  assert (Hm : mapM (releasable h' NewArr is_chars) (take (Z.to_nat n) qs)
               = Some strs).
  { apply mapM_Some. apply mapM_Some in Hstrs.
    eapply Forall2_impl; [exact Hstrs|].
    intros q l Hq.
    now apply (releasable_keeps _ _ _ _ _ _ K is_chars_buffer). }
  now rewrite Hm.
Qed.

Lemma series_cells_keeps h h' c ls :
  keeps h h' → series_cells h c = Some ls → series_cells h' c = Some ls.
Proof.
  intros K. unfold series_cells, buffer_cells.
  destruct (releasable h NewArr is_chars (series_name c)) as [l|] eqn:Hname;
    [|now destruct (if decide _ then _ else _)].
  rewrite (releasable_keeps _ _ _ _ _ _ K is_chars_buffer Hname).
  repeat case_decide.
  - destruct (char_ptr_ptr_cells h _ _) as [bl|] eqn:Hbl; [|discriminate].
    now rewrite (char_ptr_ptr_cells_keeps _ _ _ _ _ K Hbl).
  - destruct (releasable h NewArr is_doubles _) as [x|] eqn:Hx;
      [|discriminate].
    now rewrite (releasable_keeps _ _ _ _ _ _ K is_doubles_buffer Hx).
  - destruct (releasable h NewArr is_ints _) as [x|] eqn:Hx; [|discriminate].
    now rewrite (releasable_keeps _ _ _ _ _ _ K is_ints_buffer Hx).
  - exact id.
Qed.

Context {pyobj : Type} `{PY : Pybind11 pyobj}.
Hypothesis frees_malloc : dealloc_accepts Malloc NewArr = true.

(** The cells released for a column are the cells that were added for
    it. *)
Lemma series_cells_column_of (W Y : heap) n name b type (o : option pyobj) c0 :
  n = List.length W →
  converts type o →
  ∃ ls,
    series_cells (W ++ column_cells n name type o ++ Y)
                 (column_of n b type o c0) = Some ls ∧
    ls ≡ₚ seq n (List.length (column_cells n name type o)).
Proof.
  intros -> Hconv. unfold converts in Hconv.
  unfold series_cells, buffer_cells.
  assert (Hname : releasable (W ++ column_cells (List.length W) name type o ++ Y)
                    NewArr is_chars
                    (series_name (column_of (List.length W) b type o c0))
                  = Some (List.length W)).
  { unfold column_cells, column_of. cbn [series_name app releasable].
    rewrite list_lookup_middle by reflexivity.
    cbn [cell_kind cell_content]. now rewrite frees_malloc. }
  rewrite Hname.
  unfold column_cells, column_of, column_buffer.
  cbn [series_type series_data].
  set (name_cell := Some (Cell Malloc (BChars (c_str (until_NUL name))))).
  assert (Hbuf : ∀ (cells : heap) b0,
    (W ++ (name_cell :: Some (Cell NewArr b0) :: cells) ++ Y)
    !! S (List.length W) = Some (Some (Cell NewArr b0))).
  { intros cells b0. cbn [app].
    rewrite (app_cons_assoc W). apply lookup_app_at.
    rewrite length_app. simpl. lia. }
  repeat case_decide.
  - destruct Hconv as [v Hv]. rewrite Hv. cbn [from_option array_ptr array_length].
    pose proof (char_ptr_ptr_cells_copied (W ++ [name_cell]) Y v) as Hcells.
    rewrite length_app, Nat.add_1_r, <- app_assoc in Hcells.
    cbn [app] in Hcells. cbn [app]. rewrite Hcells.
    eexists. split; [reflexivity|].
    cbn [List.length]. unfold copied_strings.
    rewrite length_app, length_fmap. cbn [List.length].
    rewrite Nat.add_1_r. cbn [seq].
    symmetry. apply Permutation_cons_append.
  - destruct Hconv as [v Hv]. rewrite Hv. cbn [from_option array_ptr].
    cbn [releasable]. rewrite (Hbuf [] _).
    cbn [cell_kind cell_content]. rewrite dealloc_accepts_matching.
    eexists. split; [reflexivity|]. cbn. apply perm_swap.
  - destruct Hconv as [v Hv]. rewrite Hv. cbn [from_option array_ptr].
    cbn [releasable]. rewrite (Hbuf [] _).
    cbn [cell_kind cell_content]. rewrite dealloc_accepts_matching.
    eexists. split; [reflexivity|]. cbn. apply perm_swap.
  - eexists. split; [reflexivity|]. reflexivity.
Qed.

Variable columnsValues : list pyobj.
Variable columnsNames : list string.
Variable columnsTypes : list Z.
Variable isIndex : list bool.
Hypothesis arguments :
  well_formed columnsValues columnsNames columnsTypes isIndex.
Hypothesis names : text_names columnsNames.

(** The loop of [createDataframe], from column [k] on: the cells behind
    the column array are those that [deleteDataframe] releases for the
    columns, each once. *)
Lemma createDataframe_loop_cells (pre : heap) (m : nat) :
  ∀ k cols post lss,
  (k + m)%nat = List.length columnsNames →
  List.length cols = List.length columnsNames →
  Forall live post →
  Forall2 (λ c ls,
             series_cells (pre ++ Some (Cell NewArr (BSeriesArr cols)) :: post)
                          c = Some ls)
          (take k cols) lss →
  concat lss ≡ₚ seq (S (List.length pre)) (List.length post) →
  ∃ cols' post' lss',
    for_each (seq k m)
      (createDataframe_column (Ptr (List.length pre)) columnsValues
         columnsNames columnsTypes isIndex)
      (pre ++ Some (Cell NewArr (BSeriesArr cols)) :: post)
    = Ok () (pre ++ Some (Cell NewArr (BSeriesArr cols')) :: post') ∧
    List.length cols' = List.length columnsNames ∧
    Forall live post' ∧
    Forall2 (λ c ls,
               series_cells
                 (pre ++ Some (Cell NewArr (BSeriesArr cols')) :: post')
                 c = Some ls)
            (take (k + m) cols') lss' ∧
    concat lss' ≡ₚ seq (S (List.length pre)) (List.length post').
Proof.
  induction m as [|m IH]; intros k cols post lss Hk Hlen Hlive Hcells Hperm.
  - exists cols, post, lss. rewrite Nat.add_0_r. now repeat split.
  - destruct (arguments k ltac:(lia)) as (type & b & Htype & Hb & Hconv).
    destruct (lookup_lt_is_Some_2 columnsNames k ltac:(lia)) as [name Hname].
    destruct (lookup_lt_is_Some_2 cols k ltac:(lia)) as [c0 Hc0].
    pose proof (proj1 (Forall_lookup _ _) names k name Hname) as Htext.
    pose proof (createDataframe_column_exact columnsValues columnsNames
                  columnsTypes isIndex pre post cols k c0 name b type
                  ltac:(lia) Hname Htext Hb Htype Hconv) as Hrun.
    rewrite (list_insert_id _ _ _ Hc0) in Hrun.
    set (n := (List.length pre + S (List.length post))%nat) in *.
    set (c := column_of n b type (columnsValues !! k) c0) in *.
    set (cells := column_cells n name type (columnsValues !! k)) in *.
    destruct (series_cells_column_of
                (pre ++ Some (Cell NewArr (BSeriesArr (<[k := c]> cols))) :: post)
                [] n name b type (columnsValues !! k) c0)
      as (ls & Hls & Hlsp).
    { unfold n. rewrite length_app. reflexivity. }
    { exact Hconv. }
    fold c cells in Hls, Hlsp.
    rewrite app_nil_r, <- app_assoc in Hls. cbn [app] in Hls.
    destruct (IH (S k) (<[k := c]> cols) (post ++ cells) (lss ++ [ls]))
      as (cols' & post' & lss' & Hloop & Hlen' & Hlive' & Hcells' & Hperm').
    + lia.
    + now rewrite length_insert.
    + apply Forall_app. split; [exact Hlive|apply live_column_cells].
    + rewrite (take_S_r _ _ c)
        by (apply list_lookup_insert_eq; lia).
      rewrite take_insert_ge by lia.
      apply Forall2_app.
      * eapply Forall2_impl; [exact Hcells|].
        intros c' ls' Hc'. eapply series_cells_keeps; [|exact Hc'].
        apply keeps_around. now intros ? [= <-].
      * repeat constructor. exact Hls.
    + rewrite concat_app. cbn [concat]. rewrite app_nil_r.
      rewrite length_app, seq_app.
      apply Permutation_app; [exact Hperm|].
      replace (S (List.length pre) + List.length post)%nat with n
        by (unfold n; lia).
      exact Hlsp.
    + exists cols', post', lss'.
      cbn [seq for_each]. rewrite (bind_Ok _ _ _ _ _ Hrun).
      split; [exact Hloop|]. split; [exact Hlen'|]. split; [exact Hlive'|].
      replace (k + S m)%nat with (S k + m)%nat by lia.
      now split.
Qed.

(** The table that [createDataframe] returns, and the cells that
    [deleteDataframe] releases for it. *)
Lemma createDataframe_cells (h : heap) :
  ∃ new ls,
    createDataframe columnsValues columnsNames columnsTypes isIndex h
    = Ok (Ptr (List.length h)) (h ++ new) ∧
    Forall live new ∧
    table_cells (h ++ new) (Ptr (List.length h)) = Some ls ∧
    ls ≡ₚ seq (List.length h) (List.length new).
Proof.
  set (hdr0 := Some (Cell New (BDataframe (Dataframe Null 0)))).
  pose (cols0 := indeterminate_series <$> seq 0 (List.length columnsNames)).
  assert (Hlen0 : List.length cols0 = List.length columnsNames)
    by (unfold cols0; now rewrite length_fmap, length_seq).
  destruct (createDataframe_loop_cells (h ++ [hdr0])
              (List.length columnsNames) 0 cols0 [] [] eq_refl Hlen0)
    as (cols & post & lss & Hloop & Hlen & Hlive & Hcells & Hperm).
  { constructor. }
  { rewrite take_0. constructor. }
  { reflexivity. }
  set (hdr := Some (Cell New (BDataframe
                (Dataframe (Ptr (S (List.length h)))
                           (Z.of_nat (List.length columnsNames)))))).
  exists (hdr :: Some (Cell NewArr (BSeriesArr cols)) :: post),
         (concat lss ++ [S (List.length h); List.length h]).
  split; [|split; [|split]].
  - unfold createDataframe.
    rewrite (bind_Ok _ _ _ _ _ (eq_refl : alloc _ _ h = Ok _ _)).
    apply unwinding_Ok.
    rewrite (bind_Ok _ _ _ _ _ (eq_refl : alloc _ _ (h ++ [hdr0]) = Ok _ _)).
    unfold for_loop. run Hloop.
    rewrite <- (app_assoc h). cbn [app]. subst hdr0.
    run (set_dataframe_around _ _ _ _ _).
    run (set_dataframe_around _ _ _ _ _).
    unfold ret. rewrite length_app, Nat.add_1_r. reflexivity.
  - constructor; [now eexists|]. constructor; [now eexists|exact Hlive].
  - assert (Hkeep : keeps
      ((h ++ [hdr0]) ++ Some (Cell NewArr (BSeriesArr cols)) :: post)
      (h ++ hdr :: Some (Cell NewArr (BSeriesArr cols)) :: post)).
    { rewrite <- (app_assoc h). cbn [app].
      rewrite <- (app_nil_r post) at 2.
      apply (keeps_around h (_ :: post) []). now intros ? [= <-]. }
    assert (Hkeep' : keeps
      ((h ++ [hdr0]) ++ Some (Cell NewArr (BSeriesArr cols)) :: post)
      ((h ++ [hdr]) ++ Some (Cell NewArr (BSeriesArr cols)) :: post))
      by (rewrite <- (app_assoc h [hdr]); exact Hkeep).
    unfold hdr in Hkeep' |- *. unfold table_cells. cbn [content_at].
    rewrite list_lookup_middle by reflexivity.
    cbn [cell_content df_series df_series_count content_at].
    rewrite (app_cons_assoc h), lookup_app_at
      by (rewrite length_app; simpl; lia).
    cbn [cell_content]. rewrite Nat2Z.id.
    rewrite decide_True by lia.
    match goal with |- context [mapM (series_cells ?H) _] =>
      assert (Hm : mapM (series_cells H)
                     (take (List.length columnsNames) cols) = Some lss)
    end.
    { apply mapM_Some. eapply Forall2_impl; [exact Hcells|].
      intros c ls Hc. eapply series_cells_keeps; [|exact Hc].
      exact Hkeep'. }
    rewrite Hm. cbn [releasable].
    rewrite lookup_app_at by (rewrite length_app; simpl; lia).
    rewrite <- (app_assoc h [_]). cbn [app].
    rewrite list_lookup_middle by reflexivity.
    cbn [cell_kind cell_content]. rewrite !dealloc_accepts_matching.
    reflexivity.
  - cbn [List.length seq].
    rewrite length_app in Hperm. cbn [List.length] in Hperm.
    rewrite Nat.add_1_r in Hperm.
    rewrite Hperm.
    etransitivity; [apply Permutation_app_comm|]. cbn [app].
    apply perm_swap.
Qed.

End cells_of_columns.

(** X10: under a runtime whose [delete[]] releases what [malloc] allocated,
    [deleteDataframe] releases the table that [createDataframe] built from
    arguments that fit together whose names are text, well-formed UTF-8:
    every cell that [createDataframe] added to
    the heap is live when it returns and released, once, when
    [deleteDataframe] returns, and the cells that were there before are as
    they were. *)
Theorem createDataframe_then_deleteDataframe `{RT : Runtime} {pyobj : Type}
    `{PY : Pybind11 pyobj} (columnsValues : list pyobj)
    (columnsNames : list string) (columnsTypes : list Z) (isIndex : list bool)
    (h : heap) :
  dealloc_accepts Malloc NewArr = true →
  well_formed columnsValues columnsNames columnsTypes isIndex →
  text_names columnsNames →
  ∃ new,
    createDataframe columnsValues columnsNames columnsTypes isIndex h
    = Ok (Ptr (List.length h)) (h ++ new) ∧
    Forall live new ∧
    deleteDataframe (Ptr (List.length h)) (h ++ new)
    = Ok () (h ++ replicate (List.length new) None).
Proof.
  intros Hfree Hwf Hnames.
  destruct (createDataframe_cells Hfree _ _ _ _ Hwf Hnames h)
    as (new & ls & Hrun & Hlive & Hcells & Hperm).
  exists new. split; [exact Hrun|]. split; [exact Hlive|].
  assert (Hnd : NoDup ls) by (rewrite Hperm; apply NoDup_seq).
  rewrite (deleteDataframe_released _ _ _ Hcells Hnd).
  rewrite (released_Permutation _ _ _ Hperm).
  pose proof (released_seq h new []) as Hseq.
  rewrite !app_nil_r in Hseq. now rewrite Hseq.
Qed.

Lemma createDataframe_then_deleteDataframe_witness :
  ∃ new,
    createDataframe (RT := libc) (PY := pylist_casts) bus_values
      ["id"; "v"]%string [0; 1] [true; false] []
    = Ok (Ptr 0) ([] ++ new) ∧
    Forall live new ∧
    deleteDataframe (RT := libc) (Ptr 0) ([] ++ new)
    = Ok () ([] ++ replicate (List.length new) None).
Proof.
  apply (createDataframe_then_deleteDataframe (RT := libc)
           (PY := pylist_casts) bus_values ["id"; "v"]%string [0; 1]
           [true; false] []).
  - reflexivity.
  - check_arguments.
  - repeat constructor.
Defined.

(** ** [deleteDataframe] on a column of unknown type *)







(** X11: under the runtime of the C++ standard, [deleteDataframe] releases
    no table of at least one column that [createDataframe] built from
    arguments that fit together whose names are text: it stops
    at the name of the first column, which [strdup] allocated with [malloc]
    and which [delete[]] is applied to. *)
Theorem deleteDataframe_standard_stops_at_first_name {pyobj : Type}
    `{PY : Pybind11 pyobj} (junk : nat → series) (junk' : nat → dataframe)
    (columnsValues : list pyobj) (columnsNames : list string)
    (columnsTypes : list Z) (isIndex : list bool) (h : heap)
    (name : string) :
  well_formed columnsValues columnsNames columnsTypes isIndex →
  text_names columnsNames →
  columnsNames !! 0%nat = Some name →
  ∃ h' n,
    createDataframe (RT := standard_runtime junk junk') columnsValues
      columnsNames columnsTypes isIndex h = Ok (Ptr (List.length h)) h' ∧
    h' !! n = Some (Some (Cell Malloc (BChars (c_str (until_NUL name))))) ∧
    deleteDataframe (RT := standard_runtime junk junk') (Ptr (List.length h)) h'
    = Fault (AllocDeallocMismatch n Malloc NewArr).
Proof.
  intros Hwf Hnames Hname.
  destruct (createDataframe_builds (RT := standard_runtime junk junk')
              _ _ _ _ Hwf Hnames h)
    as (new & Hrun & columns & cols & Hdf & Hcols & Hlen & Hall).
  destruct (Hall 0%nat name Hname) as (c & b & type & Hc & _ & _ & Hcol).
  destruct (deleteDataframe_column_built_mismatch junk junk' _ _ _ _ _ _ Hcol)
    as (n & Hn & Hfault).
  destruct Hcol as (Hcell & _).
  rewrite Hn in Hcell. apply cell_at_Some in Hcell as (n' & [= <-] & Hcell).
  exists (h ++ new), n. split; [exact Hrun|]. split; [exact Hcell|].
  assert (Hpos : (0 < List.length columnsNames)%nat)
    by (now apply lookup_lt_Some in Hname).
  unfold deleteDataframe.
  run (load_dataframe_Ok _ _ _ (cell_at_content _ _ _ Hdf)).
  cbn [df_series_count df_series]. rewrite Nat2Z.id.
  unfold for_loop.
  destruct (List.length columnsNames) as [|m]; [lia|].
  cbn [seq for_each].
  apply bind_Fault. apply bind_Fault.
  rewrite (bind_Ok _ _ _ _ _
             (load_series_Ok _ _ _ _ _ (cell_at_content _ _ _ Hcols) Hc)).
  exact Hfault.
Qed.

Lemma deleteDataframe_standard_stops_at_first_name_witness :
  ∃ h' n,
    createDataframe (RT := standard_runtime stale_series stale_dataframe)
      (PY := pylist_casts) bus_values ["id"; "v"]%string [0; 1]
      [true; false] [] = Ok (Ptr 0) h' ∧
    h' !! n = Some (Some (Cell Malloc (BChars (c_str (until_NUL "id"))))) ∧
    deleteDataframe (RT := standard_runtime stale_series stale_dataframe)
      (Ptr 0) h'
    = Fault (AllocDeallocMismatch n Malloc NewArr).
Proof.
  apply (deleteDataframe_standard_stops_at_first_name (PY := pylist_casts)
           stale_series stale_dataframe bus_values ["id"; "v"]%string
           [0; 1] [true; false] [] "id").
  - check_arguments.
  - repeat constructor.
  - reflexivity.
Defined.

(** ** A column of type BOOL *)

Lemma length_int_bytes (zs : list Z) :
  List.length (zs ≫= int_bytes) = (4 * List.length zs)%nat.
Proof.
  induction zs as [|z zs IH]; [reflexivity|].
  cbn [mbind list_bind]. rewrite length_app, IH. simpl. lia.
Qed.

Lemma bool_bytes (bs : list bool) :
  (λ x, Bool (negb (x =? 0))) <$> ((Z.b2z <$> bs) ≫= int_bytes)
  = bs ≫= (λ b, [Bool b; Bool false; Bool false; Bool false]).
Proof.
  induction bs as [|b bs IH]; [reflexivity|].
  cbn [fmap list_fmap mbind list_bind]. rewrite fmap_app, IH.
  now destruct b.
Qed.

Lemma ndarray_items_bools h p zs s :
  content_at h p = Some (BInts zs) →
  ndarray_items (NdArray dtype_bool (Z.of_nat (List.length zs)) p s) h
  = Ok (take (List.length zs)
          ((λ x, Bool (negb (x =? 0))) <$> (zs ≫= int_bytes))) h.
Proof.
  intros Hp. unfold ndarray_items. cbn [arr_shape arr_data arr_dtype].
  rewrite Nat2Z.id. case_decide as Hn.
  - rewrite Hn. reflexivity.
  - rewrite (bind_Ok _ _ _ _ _ (load_Ok _ _ _ Hp)).
    cbn [block_bytes]. unfold first_items.
    rewrite decide_True; [reflexivity|].
    rewrite length_fmap, length_int_bytes. lia.
Qed.

(** X12: in a table that [createDataframe] built from arguments that fit
    together whose names are text, the array that the [data] property
    returns for a column of type BOOL reads one byte for each item, over the array of [int] that
    [createDataframe] filled with one [int] of four bytes, lowest first,
    for each value: for a column built from the [bool] values [bs], its
    items, as many as there are values, are the first of the sequence in
    which each value of [bs] is followed by three false items. *)
Theorem createDataframe_bool_column `{RT : Runtime} {pyobj : Type}
    `{PY : Pybind11 pyobj} (columnsValues : list pyobj)
    (columnsNames : list string) (columnsTypes : list Z) (isIndex : list bool)
    (h : heap) (indice : nat) (o : pyobj) (bs : list bool) :
  well_formed columnsValues columnsNames columnsTypes isIndex →
  text_names columnsNames →
  (indice < List.length columnsNames)%nat →
  columnsTypes !! indice = Some 3 →
  columnsValues !! indice = Some o →
  cast_vector_int o = Some (Z.b2z <$> bs) →
  ∃ h',
    createDataframe columnsValues columnsNames columnsTypes isIndex h
    = Ok (Ptr (List.length h)) h' ∧
    read_column (Ptr (List.length h)) indice h'
    = Ok (take (List.length bs)
            (bs ≫= (λ b, [Bool b; Bool false; Bool false; Bool false]))) h'.
Proof.
  intros Hwf Hnames Hi Htype Ho Hv.
  destruct (createDataframe_builds _ _ _ _ Hwf Hnames h)
    as (new & Hrun & Hbuilt).
  exists (h ++ new). split; [exact Hrun|].
  destruct (table_built_column _ _ _ _ _ _ _ _ _ Hbuilt Hi Htype Ho)
    as (c & name & b & Hc & Hname & (_ & _ & Hty & Hdata)).
  unfold data_built in Hdata. unfold read_column, column_data.
  rewrite !decide_False, decide_True in Hdata by lia.
  destruct Hdata as (v' & Hv' & Hlen & Hp). simpl in Hv'.
  rewrite Hv in Hv'. injection Hv' as <-.
  run Hc. rewrite (bind_Ok _ _ _ _ _ (Series_data_bool _ _ Hty)).
  unfold python_items, seriesAsNumpyArray. rewrite Hlen.
  rewrite (ndarray_items_bools _ _ _ _ (cell_at_content _ _ _ Hp)).
  now rewrite bool_bytes, length_fmap.
Qed.

Lemma createDataframe_bool_column_witness :
  ∃ h',
    createDataframe (RT := cxx) (PY := pylist_casts)
      [PyStrs ["L1"; "L2"; "L3"]%string; PyBools [true; false; true]]
      ["id"; "connected"]%string [0; 3] [true; false] []
    = Ok (Ptr 0) h' ∧
    read_column (Ptr 0) 1 h' = Ok [Bool true; Bool false; Bool false] h'.
Proof.
  apply (createDataframe_bool_column (RT := cxx) (PY := pylist_casts)
           [PyStrs ["L1"; "L2"; "L3"]%string; PyBools [true; false; true]]
           ["id"; "connected"]%string [0; 3] [true; false] [] 1
           (PyBools [true; false; true]) [true; false; true]).
  - check_arguments.
  - repeat constructor.
  - simpl. lia.
  - reflexivity.
  - reflexivity.
  - reflexivity.
Defined.

(** ** [createDataframeArray] on a table that is gone *)

Section createDataframeArray_invalid.
Context `{RT : Runtime}.
Variable h0 : heap.
Variable ptrs : list pointer.
Variable dfs : list dataframe.
Variable k : nat.
Variable p : pointer.
Hypothesis tables :
  Forall2 (λ p df, content_at h0 p = Some (BDataframe df)) (take k ptrs) dfs.
Hypothesis bad : ptrs !! k = Some p.
Hypothesis gone : p = Null ∨ ∃ l, p = Ptr l ∧ h0 !! l = Some None.

Lemma load_dataframe_gone (tail : heap) :
  load_dataframe p (h0 ++ tail)
  = Fault (match p with Null => NullDereference | Ptr l => InvalidAccess l end).
Proof.
  unfold load_dataframe, bind, load.
  destruct gone as [->|(l & -> & Hl)]; [reflexivity|].
  now rewrite (lookup_app_l_Some _ _ _ _ Hl).
Qed.

Lemma createDataframeArray_loop_gone (hdr : option cell) (m : nat) :
  ∀ j cur,
  (j ≤ k < j + m)%nat →
  List.length cur = List.length ptrs →
  for_each (seq j m)
    (λ indice,
       p ← vector_at ptrs indice;
       df ← load_dataframe p;
       set_dataframe_at (Ptr (S (List.length h0))) indice df)
    (h0 ++ [hdr; Some (Cell NewArr (BDataframes cur))])
  = Fault (match p with Null => NullDereference | Ptr l => InvalidAccess l end).
Proof.
  pose proof (lookup_lt_Some _ _ _ bad) as Hk.
  induction m as [|m IH]; intros j cur Hj Hlen; [lia|].
  cbn [seq for_each].
  destruct (decide (j = k)) as [->|Hjk].
  - apply bind_Fault. run (vector_at_Ok _ _ _ _ bad).
    apply bind_Fault, load_dataframe_gone.
  - assert (Hjlt : (j < k)%nat) by lia.
    destruct (lookup_lt_is_Some_2 ptrs j ltac:(lia)) as [q Hq].
    assert (Hq' : take k ptrs !! j = Some q)
      by (apply lookup_take_Some; now split).
    destruct (Forall2_lookup_l _ _ _ _ _ tables Hq') as (df & Hdf & Hqt).
    simpl in Hqt.
    run (vector_at_Ok _ _ _ _ Hq).
    run (load_dataframe_Ok _ _ _ (content_at_app_l _ _ _ _ Hqt)).
    assert (Hjcur : (j < List.length cur)%nat) by lia.
    rewrite (bind_Ok _ _ _ _ _
               (set_dataframe_at_Ok _ _ _ _ j df (lookup_last_two_snd _ _ _)
                  Hjcur)).
    rewrite insert_last_two_snd.
    apply IH; [lia|]. now rewrite length_insert.
Qed.

End createDataframeArray_invalid.

(** X13: [createDataframeArray] reads the header of every table it is
    passed, with no check: when the tables before position [k] are live
    and the pointer at position [k] is null, or points to a table that was
    released, the call reads through that pointer, which is undefined. *)
Theorem createDataframeArray_table_gone `{RT : Runtime} (h : heap)
    (ptrs : list pointer) (dfs : list dataframe) (k : nat) (p : pointer) :
  Forall2 (λ p df, content_at h p = Some (BDataframe df)) (take k ptrs) dfs →
  ptrs !! k = Some p →
  p = Null ∨ (∃ l, p = Ptr l ∧ h !! l = Some None) →
  createDataframeArray ptrs h
  = Fault (match p with Null => NullDereference | Ptr l => InvalidAccess l end).
Proof.
  intros Htables Hbad Hgone.
  pose proof (lookup_lt_Some _ _ _ Hbad) as Hk.
  unfold createDataframeArray.
  rewrite (bind_Ok _ _ _ _ _ (eq_refl : alloc _ _ h = Ok _ _)).
  unfold unwinding.
  rewrite (bind_Ok _ _ _ _ _ (eq_refl : alloc _ _ (h ++ [_]) = Ok _ _)).
  rewrite length_app, Nat.add_1_r, <- app_assoc. cbn [app].
  unfold for_loop.
  erewrite bind_Fault; [reflexivity|].
  apply (createDataframeArray_loop_gone h ptrs dfs k p Htables Hbad Hgone).
  - lia.
  - now rewrite length_fmap, length_seq.
Qed.

Lemma createDataframeArray_table_gone_witness :
  createDataframeArray (RT := cxx) [Ptr 0; Ptr 1]
    [Some (Cell New (BDataframe (Dataframe Null 0))); None]
  = Fault (InvalidAccess 1).
Proof.
  apply (createDataframeArray_table_gone (RT := cxx)
           [Some (Cell New (BDataframe (Dataframe Null 0))); None]
           [Ptr 0; Ptr 1] [Dataframe Null 0] 1 (Ptr 1)).
  - repeat constructor.
  - reflexivity.
  - right. exists 1%nat. split; reflexivity.
Defined.

(** ** The life of a [LoadFlowParameters] *)

Lemma parameters_cells_0 n c v :
  parameters_cells n c 0 v = copied_parameters n c v.
Proof.
  unfold parameters_cells, copied_parameters. cbn [replicate app].
  now rewrite !Nat.add_0_r.
Qed.

Lemma length_copied_strings n (v : list string) :
  List.length (copied_strings n v) = S (List.length v).
Proof.
  unfold copied_strings. rewrite length_app, length_fmap. simpl. lia.
Qed.

Lemma length_parameters_cells n c k v :
  List.length (parameters_cells n c k v) = (S k + S (List.length v))%nat.
Proof.
  unfold parameters_cells. cbn [List.length].
  now rewrite length_app, length_replicate, length_copied_strings.
Qed.

Lemma countries_of_copy c q n :
  countries_to_balance (parameters_copy c q n) = q ∧
  countries_to_balance_count (parameters_copy c q n) = n.
Proof. now destruct c. Qed.

Section life.
Context `{RT : Runtime}.

(** The struct, wherever the list it has stands behind it. *)
Lemma parameters_cells_split (X : heap) c k v :
  X ++ parameters_cells (List.length X) c k v
  = (X ++ Some (Cell New (BParameters
             (parameters_copy c
                (Ptr (S (List.length X) + k + List.length v))
                (Z.of_nat (List.length v)))))
       :: replicate k None)
    ++ copied_strings (S (List.length X) + k) v ++ [].
Proof.
  unfold parameters_cells. rewrite app_nil_r, <- app_assoc. reflexivity.
Qed.

Lemma length_before_strings (X : heap) (P : option cell) k :
  (S (List.length X) + k)%nat = List.length (X ++ P :: replicate k None).
Proof. rewrite length_app. cbn [List.length]. rewrite length_replicate. lia. Qed.

Lemma parameters_at_copied_strings_at (W : heap) p a c v n :
  n = List.length W →
  W !! p = Some (Some (Cell a (BParameters
             (parameters_copy c (Ptr (n + List.length v))
                              (Z.of_nat (List.length v)))))) →
  parameters_at (W ++ copied_strings n v) (Ptr p)
    (parameters_copy c (Ptr (n + List.length v)) (Z.of_nat (List.length v)))
    (until_NUL <$> v).
Proof. intros ->. apply parameters_at_copied_strings. Qed.

Lemma parameters_at_cells (X : heap) c k v :
  parameters_at (X ++ parameters_cells (List.length X) c k v)
    (Ptr (List.length X))
    (parameters_copy c (Ptr (S (List.length X) + k + List.length v))
                     (Z.of_nat (List.length v)))
    (until_NUL <$> v).
Proof.
  rewrite parameters_cells_split, app_nil_r.
  apply (parameters_at_copied_strings_at _ (List.length X) New c v).
  - apply length_before_strings.
  - apply lookup_around.
Qed.

Lemma set_countries_to_balance_cells (X : heap) c k v vs :
  set_countries_to_balance (Ptr (List.length X)) vs
    (X ++ parameters_cells (List.length X) c k v)
  = Ok () (X ++ parameters_cells (List.length X) c (k + S (List.length v)) vs).
Proof.
  destruct (parameters_at_cells X c k v) as (Hp & _).
  unfold set_countries_to_balance.
  run (load_parameters_Ok _ _ _ Hp).
  destruct (countries_of_copy c (Ptr (S (List.length X) + k + List.length v))
              (Z.of_nat (List.length v))) as [-> ->].
  rewrite parameters_cells_split.
  match goal with |- context [(X ++ ?P :: replicate k None) ++ _] =>
    run (deleteCharPtrPtr_copied_at (X ++ P :: replicate k None) [] v
           (S (List.length X) + k) _ (length_before_strings X P k) eq_refl)
  end.
  run (copyVectorStringToCharPtrPtr_run _ _).
  rewrite app_nil_r, <- !app_assoc. cbn [app].
  run (set_parameters_around _ _ _ _ _).
  rewrite (set_parameters_around _ _ _ _ _).
  change (with_countries_to_balance_count ?n (with_countries_to_balance ?q ?c))
    with (parameters_copy c q n).
  rewrite parameters_copy_copy.
  unfold parameters_cells, copied_strings.
  rewrite replicate_add, <- !app_assoc.
  rewrite !length_app. cbn [List.length].
  rewrite !length_app, !length_replicate. cbn [List.length].
  replace (List.length X + S (k + S (List.length v)))%nat
    with (S (List.length X) + (k + S (List.length v)))%nat by lia.
  reflexivity.
Qed.

Lemma parameters_deleter_cells (X : heap) c k v :
  parameters_deleter (Ptr (List.length X))
    (X ++ parameters_cells (List.length X) c k v)
  = Ok () (X ++ replicate
                  (List.length (parameters_cells (List.length X) c k v)) None).
Proof.
  destruct (parameters_at_cells X c k v) as (Hp & _).
  unfold parameters_deleter.
  run (load_parameters_Ok _ _ _ Hp).
  destruct (countries_of_copy c (Ptr (S (List.length X) + k + List.length v))
              (Z.of_nat (List.length v))) as [-> ->].
  rewrite parameters_cells_split.
  match goal with |- context [(X ++ ?P :: replicate k None) ++ _] =>
    run (deleteCharPtrPtr_copied_at (X ++ P :: replicate k None) [] v
           (S (List.length X) + k) _ (length_before_strings X P k) eq_refl)
  end.
  rewrite app_nil_r, <- !app_assoc. cbn [app].
  erewrite dealloc_Ok;
    [|apply lookup_around|apply dealloc_accepts_matching|reflexivity].
  rewrite insert_around, length_parameters_cells.
  cbn [plus replicate]. now rewrite replicate_add.
Qed.

(** The setter called on each list of [updates] in turn. *)
Lemma set_countries_to_balance_each (X : heap) c (updates : list (list string)) :
  ∀ k v,
  ∃ k',
    for_each updates (set_countries_to_balance (Ptr (List.length X)))
      (X ++ parameters_cells (List.length X) c k v)
    = Ok () (X ++ parameters_cells (List.length X) c k'
                    (default v (last updates))).
Proof.
  induction updates as [|vs updates IH]; intros k v.
  - exists k. reflexivity.
  - destruct (IH (k + S (List.length v))%nat vs) as (k' & Hrun).
    exists k'. cbn [for_each].
    rewrite (bind_Ok _ _ _ _ _ (set_countries_to_balance_cells X c k v vs)).
    rewrite Hrun, (last_cons vs updates). now destruct (last updates).
Qed.

End life.

(** X14: a [LoadFlowParameters] made by [initLoadFlowParameters] owns its
    list of countries through every call of the setter of
    [countries_to_balance]: after whatever calls, the property reads the
    list that the last call was given, each string up to its first NUL
    character (the list of the default configuration when there was no
    call); the deleter of the object then releases every cell that the
    object and the setter allocated, the lists that were replaced having
    been released by the setter; and the cells that were there before, the
    default configuration among them, are as they were. *)
Theorem LoadFlowParameters_owns_its_countries `{RT : Runtime} (d : pointer)
    (h : heap) (cfg : load_flow_parameters) (cs : list string)
    (updates : list (list string)) :
  parameters_at h d cfg cs →
  ∃ new,
    LoadFlowParameters_after d updates h = Ok (Ptr (List.length h)) (h ++ new) ∧
    get_countries_to_balance (Ptr (List.length h)) (h ++ new)
    = Ok (until_NUL <$> default cs (last updates)) (h ++ new) ∧
    (∀ l c, new !! l = Some (Some c) →
       l = 0%nat ∨ (List.length new - S (List.length
                       (default cs (last updates))) ≤ l)%nat) ∧
    parameters_deleter (Ptr (List.length h)) (h ++ new)
    = Ok () (h ++ replicate (List.length new) None).
Proof.
  intros Hd.
  destruct (set_countries_to_balance_each h cfg updates 0 cs) as (k & Hrun).
  exists (parameters_cells (List.length h) cfg k (default cs (last updates))).
  split; [|split; [|split]].
  - unfold LoadFlowParameters_after.
    rewrite (bind_Ok _ _ _ _ _ (initLoadFlowParameters_run d h cfg cs Hd)).
    rewrite <- parameters_cells_0. now rewrite (bind_Ok _ _ _ _ _ Hrun).
  - apply (get_countries_to_balance_Ok _ _ _ _ (parameters_at_cells h cfg k _)).
  - intros l c Hl. destruct l as [|l]; [now left|right].
    rewrite length_parameters_cells.
    unfold parameters_cells in Hl. rewrite lookup_cons in Hl.
    destruct (decide (l < k)%nat) as [Hlt|Hge]; [|lia].
    rewrite lookup_app_l in Hl by (now rewrite length_replicate).
    apply lookup_replicate in Hl as [Hl _]. discriminate.
  - apply parameters_deleter_cells.
Qed.

Lemma LoadFlowParameters_owns_its_countries_witness :
  ∃ new,
    LoadFlowParameters_after (RT := cxx) (Ptr 0)
      [["DE"]; ["ES"; "PT"]]%string configuration_heap
    = Ok (Ptr 4) (configuration_heap ++ new) ∧
    get_countries_to_balance (Ptr 4) (configuration_heap ++ new)
    = Ok ["ES"; "PT"]%string (configuration_heap ++ new) ∧
    (∀ l c, new !! l = Some (Some c) →
       l = 0%nat ∨ (List.length new - 3 ≤ l)%nat) ∧
    parameters_deleter (RT := cxx) (Ptr 4) (configuration_heap ++ new)
    = Ok () (configuration_heap ++ replicate (List.length new) None).
Proof.
  apply (LoadFlowParameters_owns_its_countries (RT := cxx) (Ptr 0)
           configuration_heap default_configuration ["FR"; "BE"]%string
           [["DE"]; ["ES"; "PT"]]%string).
  split; [reflexivity|]. split; [reflexivity|].
  exists [Ptr 1; Ptr 2]. split; [reflexivity|].
  repeat constructor; eexists; split; reflexivity.
Defined.

(** X15: [initLoadFlowParameters] reads the list of the default
    configuration over its count and no further: when the count is 0 it
    reads nothing through the pointer to the list, be it null or
    dangling, and returns a struct whose list is empty, in an array of its
    own, which the deleter releases with the struct. *)
Theorem initLoadFlowParameters_no_country `{RT : Runtime} (d : pointer)
    (h : heap) (cfg : load_flow_parameters) :
  content_at h d = Some (BParameters cfg) →
  countries_to_balance_count cfg = 0 →
  ∃ new,
    initLoadFlowParameters d h = Ok (Ptr (List.length h)) (h ++ new) ∧
    List.length new = 2%nat ∧
    get_countries_to_balance (Ptr (List.length h)) (h ++ new)
    = Ok [] (h ++ new) ∧
    parameters_deleter (Ptr (List.length h)) (h ++ new)
    = Ok () (h ++ [None; None]).
Proof.
  intros Hd Hcount.
  exists (parameters_cells (List.length h) cfg 0 []).
  split; [|split; [reflexivity|split]].
  - unfold initLoadFlowParameters, createLoadFlowParameters.
    rewrite (bind_Ok _ _ _ _ _ (eq_refl : alloc _ _ h = Ok _ _)).
    rewrite bind_ret.
    run (load_parameters_Ok _ _ _ (content_at_app_l _ _ _ _ Hd)).
    do 11 run (set_parameters_around _ _ _ _ _).
    rewrite Hcount.
    rewrite (bind_Ok _ _ _ _ _
               (eq_refl : vector_of_char_ptrs _ 0 _ = Ok [] _)).
    run (copyVectorStringToCharPtrPtr_around _ _ _ _).
    do 3 run (set_parameters_around _ _ _ _ _).
    unfold ret, parameters_cells, copied_strings, parameters_copy.
    cbn [List.length app replicate fmap list_fmap seq].
    rewrite !Nat.add_0_r.
    replace (List.length h + 1)%nat with (S (List.length h)) by lia.
    destruct cfg. reflexivity.
  - apply (get_countries_to_balance_Ok _ _ _ _
             (parameters_at_cells h cfg 0 [])).
  - apply (parameters_deleter_cells h cfg 0 []).
Qed.

Lemma initLoadFlowParameters_no_country_witness :
  ∃ new,
    initLoadFlowParameters (Ptr 0)
      [Some (Cell Malloc (BParameters
         (LoadFlowParameters 0 1 0 1 0 1 0 1 1 2 1 Null 0 1)))]
    = Ok (Ptr 1)
         ([Some (Cell Malloc (BParameters
            (LoadFlowParameters 0 1 0 1 0 1 0 1 1 2 1 Null 0 1)))] ++ new) ∧
    List.length new = 2%nat ∧
    get_countries_to_balance (Ptr 1)
      ([Some (Cell Malloc (BParameters
          (LoadFlowParameters 0 1 0 1 0 1 0 1 1 2 1 Null 0 1)))] ++ new)
    = Ok []
        ([Some (Cell Malloc (BParameters
            (LoadFlowParameters 0 1 0 1 0 1 0 1 1 2 1 Null 0 1)))] ++ new) ∧
    parameters_deleter (RT := cxx) (Ptr 1)
      ([Some (Cell Malloc (BParameters
          (LoadFlowParameters 0 1 0 1 0 1 0 1 1 2 1 Null 0 1)))] ++ new)
    = Ok () ([Some (Cell Malloc (BParameters
                (LoadFlowParameters 0 1 0 1 0 1 0 1 1 2 1 Null 0 1)))]
             ++ [None; None]).
Proof.
  apply (initLoadFlowParameters_no_country (RT := cxx) (Ptr 0)
           [Some (Cell Malloc (BParameters
              (LoadFlowParameters 0 1 0 1 0 1 0 1 1 2 1 Null 0 1)))]
           (LoadFlowParameters 0 1 0 1 0 1 0 1 1 2 1 Null 0 1)).
  - reflexivity.
  - reflexivity.
Defined.

(** ** [createDataframe] on type tags or index flags that are missing *)

Lemma for_each_app {A} (l1 l2 : list A) (body : A → M unit) h :
  for_each (l1 ++ l2) body h = bind (for_each l1 body) (λ _, for_each l2 body) h.
Proof.
  revert h. induction l1 as [|x l1 IH]; intros h; [reflexivity|].
  cbn [app for_each]. rewrite bind_bind. unfold bind.
  destruct (body x h) as [[] h1|e h1|f]; [|reflexivity|reflexivity].
  now rewrite IH.
Qed.

Section createDataframe_prefix.
Context `{RT : Runtime} {pyobj : Type} `{PY : Pybind11 pyobj}.
Variable columnsValues : list pyobj.
Variable columnsNames : list string.
Variable columnsTypes : list Z.
Variable isIndex : list bool.

(** The loop of [createDataframe] over columns that fit together. *)
Lemma createDataframe_loop_prefix (pre : heap) (m : nat) :
  ∀ k cols post,
  (k + m ≤ List.length columnsNames)%nat →
  List.length cols = List.length columnsNames →
  (∀ j, (k ≤ j < k + m)%nat →
     ∃ type b, columnsTypes !! j = Some type ∧ isIndex !! j = Some b ∧
               converts type (columnsValues !! j)) →
  (∀ j name, (k ≤ j < k + m)%nat → columnsNames !! j = Some name →
     valid_utf8 name = true) →
  ∃ cols' new,
    for_each (seq k m)
      (createDataframe_column (Ptr (List.length pre)) columnsValues
         columnsNames columnsTypes isIndex)
      (pre ++ Some (Cell NewArr (BSeriesArr cols)) :: post)
    = Ok () (pre ++ Some (Cell NewArr (BSeriesArr cols')) :: (post ++ new)) ∧
    List.length cols' = List.length columnsNames ∧
    Forall live new.
Proof.
  induction m as [|m IH]; intros k cols post Hk Hlen Hfit Htext.
  - exists cols, []. rewrite app_nil_r. now repeat split.
  - destruct (Hfit k ltac:(lia)) as (type & b & Htype & Hb & Hconv).
    destruct (lookup_lt_is_Some_2 columnsNames k ltac:(lia)) as [name Hname].
    destruct (lookup_lt_is_Some_2 cols k ltac:(lia)) as [c0 Hc0].
    pose proof (createDataframe_column_exact columnsValues columnsNames
                  columnsTypes isIndex pre post cols k c0 name b type
                  ltac:(lia) Hname (Htext k name ltac:(lia) Hname)
                  Hb Htype Hconv) as Hrun.
    rewrite (list_insert_id _ _ _ Hc0) in Hrun.
    match type of Hrun with _ = Ok () (_ ++ Some (Cell _ (BSeriesArr ?cs))
                                         :: (_ ++ ?cells)) =>
      destruct (IH (S k) cs (post ++ cells) ltac:(lia)
                  ltac:(now rewrite length_insert))
        as (cols' & new & Hloop & Hlen' & Hlive);
      [| |exists cols', (cells ++ new)]
    end.
    + intros j Hj. apply Hfit. lia.
    + intros j name' Hj. apply Htext. lia.
    + cbn [seq for_each]. rewrite (bind_Ok _ _ _ _ _ Hrun).
      rewrite app_assoc. split; [exact Hloop|]. split; [exact Hlen'|].
      apply Forall_app. split; [apply live_column_cells|exact Hlive].
Qed.

(** The body of the loop on a column whose name is no text: the conversion
    of line 47 throws before anything is allocated for the column. *)
Lemma createDataframe_column_not_text columns k name h :
  columnsNames !! k = Some name →
  valid_utf8 name = false →
  createDataframe_column columns columnsValues columnsNames columnsTypes
    isIndex k h
  = Throw unicode_decode_error h.
Proof.
  intros Hname Htext. unfold createDataframe_column.
  run (vector_at_Ok _ _ _ _ Hname).
  apply bind_Throw. unfold py_str. now rewrite Htext.
Qed.

(** The body of the loop on a column that has no index flag, or no type
    tag. *)
Lemma createDataframe_column_out_of_bounds (pre post : heap) cols k name :
  (k < List.length cols)%nat →
  columnsNames !! k = Some name →
  valid_utf8 name = true →
  isIndex !! k = None ∨ columnsTypes !! k = None →
  createDataframe_column (Ptr (List.length pre)) columnsValues columnsNames
    columnsTypes isIndex k
    (pre ++ Some (Cell NewArr (BSeriesArr cols)) :: post)
  = Fault OutOfBounds.
Proof.
  intros Hk Hname Htext Hmissing.
  destruct (lookup_lt_is_Some_2 cols k Hk) as [c0 Hc0].
  rewrite <- (list_insert_id _ _ _ Hc0).
  unfold createDataframe_column.
  run (vector_at_Ok _ _ _ _ Hname).
  run (py_str_Ok _ _ Htext).
  run (strdup_around _ _ _ _).
  run (set_series_around_insert _ _ _ _ _ _ _ Hk).
  destruct (isIndex !! k) as [b|] eqn:Hb.
  - destruct Hmissing as [|Htype]; [discriminate|].
    run (vector_at_Ok _ _ _ _ Hb).
    run (set_series_around_insert _ _ _ _ _ _ _ Hk).
    apply bind_Fault. unfold vector_at. now rewrite Htype.
  - apply bind_Fault. unfold vector_at. now rewrite Hb.
Qed.

End createDataframe_prefix.

(** X16: [createDataframe] checks neither the number of type tags nor the
    number of index flags against the number of names: when the columns
    before some column fit together, their names and the name of that
    column are text, well-formed UTF-8, and that column has no index flag,
    or no type tag, the call reads a vector out of its bounds, which is
    undefined. *)
Theorem createDataframe_unchecked_lengths `{RT : Runtime} {pyobj : Type}
    `{PY : Pybind11 pyobj} (columnsValues : list pyobj)
    (columnsNames : list string) (columnsTypes : list Z) (isIndex : list bool)
    (h : heap) (k : nat) :
  (k < List.length columnsNames)%nat →
  (∀ j, (j < k)%nat →
     ∃ type b, columnsTypes !! j = Some type ∧ isIndex !! j = Some b ∧
               converts type (columnsValues !! j)) →
  text_names (take (S k) columnsNames) →
  isIndex !! k = None ∨ columnsTypes !! k = None →
  createDataframe columnsValues columnsNames columnsTypes isIndex h
  = Fault OutOfBounds.
Proof.
  intros Hk Hfit Hnames Hmissing.
  assert (Htext : ∀ j name, (j ≤ k)%nat → columnsNames !! j = Some name →
                            valid_utf8 name = true).
  { intros j name' Hj Hname'.
    apply (proj1 (Forall_lookup _ _) Hnames j name').
    apply lookup_take_Some. split; [exact Hname'|lia]. }
  destruct (lookup_lt_is_Some_2 columnsNames k Hk) as [name Hname].
  set (hdr0 := Some (Cell New (BDataframe (Dataframe Null 0)))).
  pose (cols0 := indeterminate_series <$> seq 0 (List.length columnsNames)).
  assert (Hlen0 : List.length cols0 = List.length columnsNames)
    by (unfold cols0; now rewrite length_fmap, length_seq).
  destruct (createDataframe_loop_prefix columnsValues columnsNames
              columnsTypes isIndex (h ++ [hdr0]) k 0 cols0 []
              ltac:(lia) Hlen0)
    as (cols & post & Hloop & Hlen & _).
  { intros j Hj. apply Hfit. lia. }
  { intros j name' Hj. apply Htext. lia. }
  unfold createDataframe.
  rewrite (bind_Ok _ _ _ _ _ (eq_refl : alloc _ _ h = Ok _ _)).
  unfold unwinding.
  rewrite (bind_Ok _ _ _ _ _ (eq_refl : alloc _ _ (h ++ [hdr0]) = Ok _ _)).
  unfold for_loop. fold cols0.
  assert (Hseq : seq 0 (List.length columnsNames)
                 = seq 0 k ++ k :: seq (S k) (List.length columnsNames - S k)).
  { replace (List.length columnsNames)
      with (k + S (List.length columnsNames - S k))%nat at 1 by lia.
    now rewrite seq_app. }
  rewrite Hseq.
  erewrite bind_Fault; [reflexivity|].
  rewrite for_each_app. rewrite (bind_Ok _ _ _ _ _ Hloop).
  cbn [for_each]. apply bind_Fault.
  apply (createDataframe_column_out_of_bounds _ _ _ _ _ _ _ _ name);
    [lia|exact Hname|now apply (Htext k)|exact Hmissing].
Qed.

Lemma createDataframe_unchecked_lengths_witness :
  createDataframe (RT := cxx) (PY := pylist_casts) bus_values
    ["id"; "v"]%string [0] [true; false] []
  = Fault OutOfBounds.
Proof.
  apply (createDataframe_unchecked_lengths (RT := cxx) (PY := pylist_casts)
           bus_values ["id"; "v"]%string [0] [true; false] [] 1).
  - simpl. lia.
  - intros j Hj. assert (j = 0%nat) as -> by lia.
    exists 0, true. split; [reflexivity|]. split; [reflexivity|].
    unfold converts. simpl. now eexists.
  - repeat constructor.
  - right. reflexivity.
Defined.

(** ** Views on a table that was released *)

(** X17: the array that the [data] property returns for a column of type
    FLOAT64, INT32 or BOOL reads through the pointer to the buffer of the
    column; once [deleteDataframe] has released the table, reading the
    items of an array that was obtained before, when it has any, is a read
    of released memory. *)
Theorem numeric_view_after_deleteDataframe `{RT : Runtime} (h : heap)
    (df : pointer) (ls : list nat) (hdr : dataframe) (cols : list series)
    (indice : nat) (column : series) :
  table_cells h df = Some ls → NoDup ls →
  content_at h df = Some (BDataframe hdr) →
  content_at h (df_series hdr) = Some (BSeriesArr cols) →
  (indice < Z.to_nat (df_series_count hdr))%nat →
  cols !! indice = Some column →
  1 ≤ series_type column ≤ 3 →
  0 < array_length (series_data column) →
  ∃ a l,
    column_data df indice h = Ok (PyArray a) h ∧
    arr_data a = Ptr l ∧
    is_Some (content_at h (Ptr l)) ∧
    deleteDataframe df h = Ok () (released ls h) ∧
    python_items (PyArray a) (released ls h) = Fault (InvalidAccess l).
Proof.
  intros Hcells Hnd Hdf Hcols Hi Hcol Hty Hpos.
  pose proof (deleteDataframe_released h df ls Hcells Hnd) as Hrun.
  unfold table_cells in Hcells. rewrite Hdf, Hcols in Hcells.
  case_decide as Hn; [|discriminate].
  destruct (mapM _ _) as [lss|] eqn:Hlss; [|discriminate].
  destruct (releasable h NewArr is_series_arr (df_series hdr)) as [s|];
    [|discriminate].
  destruct (releasable h New is_dataframe df) as [d|]; [|discriminate].
  injection Hcells as <-.
  apply mapM_Some in Hlss.
  assert (Htake : take (Z.to_nat (df_series_count hdr)) cols !! indice
                  = Some column)
    by (apply lookup_take_Some; now split).
  destruct (Forall2_lookup_l _ _ _ _ _ Hlss Htake) as (cl & Hcl & Hsc).
  destruct (Series_data_numeric_heap column h Hty) as (T & Hdata).
  assert (∃ l, array_ptr (series_data column) = Ptr l ∧ l ∈ cl ∧
               is_Some (content_at h (Ptr l))) as (l & Hl & Hin & Hlive).
  { unfold series_cells, buffer_cells in Hsc.
    rewrite decide_False in Hsc by lia.
    destruct (releasable h NewArr is_chars (series_name column));
      [|now destruct (if decide _ then _ else _)].
    assert (Hrel : ∀ is_T x, releasable h NewArr is_T
                               (array_ptr (series_data column)) = Some x →
      array_ptr (series_data column) = Ptr x ∧
      is_Some (content_at h (Ptr x))).
    { intros is_T x Hx. pose proof (releasable_Ptr _ _ _ _ _ Hx) as Hptr.
      split; [exact Hptr|]. rewrite Hptr in Hx. simpl in *.
      destruct (h !! x) as [[c|]|]; try discriminate. now eexists. }
    repeat case_decide; try lia.
    - destruct (releasable h NewArr is_doubles _) as [x|] eqn:Hx;
        [|discriminate].
      injection Hsc as <-. destruct (Hrel _ _ Hx) as [Hptr Hlive].
      exists x. split; [exact Hptr|]. split; [|exact Hlive].
      simpl. rewrite ?elem_of_app, ?elem_of_cons. auto.
    - destruct (releasable h NewArr is_ints _) as [x|] eqn:Hx;
        [|discriminate].
      injection Hsc as <-. destruct (Hrel _ _ Hx) as [Hptr Hlive].
      exists x. split; [exact Hptr|]. split; [|exact Hlive].
      simpl. rewrite ?elem_of_app, ?elem_of_cons. auto. }
  exists (seriesAsNumpyArray T column), l.
  split; [|split; [exact Hl|split; [exact Hlive|split; [exact Hrun|]]]].
  - unfold column_data, column_at.
    run (load_dataframe_Ok _ _ _ Hdf).
    now rewrite (bind_Ok _ _ _ _ _ (load_series_Ok _ _ _ _ _ Hcols Hcol)).
  - assert (Hgone : released (concat lss ++ [s; d]) h !! l = Some None).
    { apply lookup_released_in.
      - apply elem_of_app. left. apply (elem_of_concat _ cl); [exact Hin|].
        now apply (list_elem_of_lookup_2 _ indice).
      - destruct Hlive as [b Hb]. simpl in Hb.
        destruct (h !! l) eqn:E; [|discriminate].
        now apply lookup_lt_Some in E. }
    unfold python_items, ndarray_items, seriesAsNumpyArray.
    cbn [arr_shape arr_data arr_dtype]. rewrite Hl.
    rewrite decide_False by lia.
    unfold bind, load. now rewrite Hgone.
Qed.

Lemma numeric_view_after_deleteDataframe_witness :
  ∃ a l,
    column_data (Ptr 0) 1 foreign_table = Ok (PyArray a) foreign_table ∧
    arr_data a = Ptr l ∧
    is_Some (content_at foreign_table (Ptr l)) ∧
    deleteDataframe (RT := cxx) (Ptr 0) foreign_table
    = Ok () (released [2; 4; 3; 1; 0]%nat foreign_table) ∧
    python_items (PyArray a) (released [2; 4; 3; 1; 0]%nat foreign_table)
    = Fault (InvalidAccess l).
Proof.
  apply (numeric_view_after_deleteDataframe (RT := cxx) foreign_table (Ptr 0)
           [2; 4; 3; 1; 0]%nat (Dataframe (Ptr 1) 2)
           [Series (Ptr 2) 0 9 (Array (Ptr 5) 3);
            Series (Ptr 3) 0 1 (Array (Ptr 4) 1)]
           1 (Series (Ptr 3) 0 1 (Array (Ptr 4) 1))).
  - reflexivity.
  - apply NoDup_ListNoDup; repeat constructor; simpl; lia.
  - reflexivity.
  - reflexivity.
  - simpl. lia.
  - reflexivity.
  - simpl. lia.
  - simpl. lia.
Defined.

(** ** Names and strings that are no text *)

(** X18: [createDataframe] makes a Python [str] of each name, line 47: when
    the columns before some column fit together and have names that are
    text, and the name of that column is no well-formed UTF-8, the call
    throws the exception of the decoder, before anything is allocated for
    that column; the deleter of the result releases the header and nothing
    else: the column array and whatever was built for the columns before
    stay allocated. *)
Theorem createDataframe_name_not_text `{RT : Runtime} {pyobj : Type}
    `{PY : Pybind11 pyobj} (columnsValues : list pyobj)
    (columnsNames : list string) (columnsTypes : list Z) (isIndex : list bool)
    (h : heap) (k : nat) (name : string) :
  (∀ j, (j < k)%nat →
     ∃ type b, columnsTypes !! j = Some type ∧ isIndex !! j = Some b ∧
               converts type (columnsValues !! j)) →
  text_names (take k columnsNames) →
  columnsNames !! k = Some name →
  valid_utf8 name = false →
  ∃ cols leaked,
    createDataframe columnsValues columnsNames columnsTypes isIndex h
    = Throw unicode_decode_error
        (h ++ None :: Some (Cell NewArr (BSeriesArr cols)) :: leaked) ∧
    Forall live leaked ∧
    (k = 0%nat → leaked = []).
Proof.
  intros Hfit Hnames Hname Hbad.
  pose proof (lookup_lt_Some _ _ _ Hname) as Hk.
  set (hdr0 := Some (Cell New (BDataframe (Dataframe Null 0)))).
  pose (cols0 := indeterminate_series <$> seq 0 (List.length columnsNames)).
  assert (Hlen0 : List.length cols0 = List.length columnsNames)
    by (unfold cols0; now rewrite length_fmap, length_seq).
  destruct (createDataframe_loop_prefix columnsValues columnsNames
              columnsTypes isIndex (h ++ [hdr0]) k 0 cols0 []
              ltac:(lia) Hlen0)
    as (cols & new & Hloop & Hlen & Hlive).
  { intros j Hj. apply Hfit. lia. }
  { intros j name' Hj Hname'.
    apply (proj1 (Forall_lookup _ _) Hnames j name').
    apply lookup_take_Some. split; [exact Hname'|lia]. }
  exists cols, new. split; [|split; [exact Hlive|]].
  - unfold createDataframe.
    rewrite (bind_Ok _ _ _ _ _ (eq_refl : alloc _ _ h = Ok _ _)).
    eapply unwinding_Throw.
    + rewrite (bind_Ok _ _ _ _ _
                 (eq_refl : alloc _ _ (h ++ [hdr0]) = Ok _ _)).
      unfold for_loop. fold cols0.
      assert (Hseq : seq 0 (List.length columnsNames)
                     = seq 0 k ++ k :: seq (S k) (List.length columnsNames - S k)).
      { replace (List.length columnsNames)
          with (k + S (List.length columnsNames - S k))%nat at 1 by lia.
        now rewrite seq_app. }
      rewrite Hseq. apply bind_Throw.
      rewrite for_each_app. rewrite (bind_Ok _ _ _ _ _ Hloop).
      cbn [for_each]. apply bind_Throw.
      now apply (createDataframe_column_not_text _ _ _ _ _ _ name).
    + cbn [app]. rewrite <- (app_assoc h). cbn [app].
      apply deleteDataframe_fresh_header.
  - intros ->. cbn [seq for_each] in Hloop. injection Hloop as Hheap.
    apply app_inv_head in Hheap. injection Hheap as _ Hnew.
    now rewrite Hnew.
Qed.

Lemma createDataframe_name_not_text_witness :
  ∃ cols leaked,
    createDataframe (RT := cxx) (PY := pylist_casts) bus_values
      ["id"; String "255" ""]%string [0; 1] [true; false] []
    = Throw unicode_decode_error
        ([] ++ None :: Some (Cell NewArr (BSeriesArr cols)) :: leaked) ∧
    Forall live leaked ∧
    (1%nat = 0%nat → leaked = []).
Proof.
  apply (createDataframe_name_not_text (RT := cxx) (PY := pylist_casts)
           bus_values ["id"; String "255" ""]%string [0; 1] [true; false]
           [] 1 (String "255" "")).
  - intros j Hj. assert (j = 0%nat) as -> by lia.
    exists 0, true. split; [reflexivity|]. split; [reflexivity|].
    unfold converts. simpl. now eexists.
  - repeat constructor.
  - reflexivity.
  - reflexivity.
Defined.

Lemma map_M_py_str_Throw (l : list string) h :
  forallb valid_utf8 l = false →
  map_M py_str l h = Throw unicode_decode_error h.
Proof.
  induction l as [|s l IH]; [discriminate|].
  cbn [forallb map_M]. destruct (valid_utf8 s) eqn:Hs.
  - intros Hl. rewrite (bind_Ok _ _ _ _ _ (py_str_Ok _ _ Hs)).
    apply bind_Throw, IH, Hl.
  - intros _. apply bind_Throw. unfold py_str. now rewrite Hs.
Qed.

(** X19: the [data] property makes a Python [str] of each string of a
    column of type STRING, line 507: on a table that [createDataframe]
    built from arguments that fit together whose names are text, when one
    of the strings of the column, up to its first NUL character, is no
    well-formed UTF-8, the property throws the exception of the decoder,
    and the table is as it was. *)
Theorem Series_data_string_not_text `{RT : Runtime} {pyobj : Type}
    `{PY : Pybind11 pyobj} (columnsValues : list pyobj)
    (columnsNames : list string) (columnsTypes : list Z) (isIndex : list bool)
    (h : heap) (indice : nat) (o : pyobj) (v : list string) :
  well_formed columnsValues columnsNames columnsTypes isIndex →
  text_names columnsNames →
  (indice < List.length columnsNames)%nat →
  columnsTypes !! indice = Some 0 →
  columnsValues !! indice = Some o →
  cast_vector_string o = Some v →
  forallb valid_utf8 (until_NUL <$> v) = false →
  ∃ h',
    createDataframe columnsValues columnsNames columnsTypes isIndex h
    = Ok (Ptr (List.length h)) h' ∧
    column_data (Ptr (List.length h)) indice h'
    = Throw unicode_decode_error h'.
Proof.
  intros Hwf Hnames Hi Htype Ho Hv Hbad.
  destruct (createDataframe_builds _ _ _ _ Hwf Hnames h)
    as (new & Hrun & Hbuilt).
  exists (h ++ new). split; [exact Hrun|].
  destruct (table_built_column _ _ _ _ _ _ _ _ _ Hbuilt Hi Htype Ho)
    as (c & name & b & Hc & Hname & (_ & _ & Hty & Hdata)).
  unfold data_built in Hdata. rewrite decide_True in Hdata by reflexivity.
  destruct Hdata as (v' & a & Hv' & Hlen & Hp & Hs).
  simpl in Hv'. rewrite Hv in Hv'. injection Hv' as <-.
  unfold column_data.
  rewrite (bind_Ok _ _ _ _ _ Hc), (Series_data_string _ _ Hty).
  unfold toVector_string. rewrite Hlen, Nat2Z.id.
  rewrite (bind_Ok _ _ _ _ _
    (strings_behind_copies _ _ _ _ (cell_at_content _ _ _ Hp) Hs)).
  apply bind_Throw, map_M_py_str_Throw, Hbad.
Qed.

Lemma Series_data_string_not_text_witness :
  ∃ h',
    createDataframe (RT := cxx) (PY := pylist_casts)
      [PyStrs ["B1"; String "255" ""]%string] ["id"]%string [0] [true] []
    = Ok (Ptr 0) h' ∧
    column_data (Ptr 0) 0 h' = Throw unicode_decode_error h'.
Proof.
  apply (Series_data_string_not_text (RT := cxx) (PY := pylist_casts)
           [PyStrs ["B1"; String "255" ""]%string] ["id"]%string [0] [true]
           [] 0 (PyStrs ["B1"; String "255" ""]%string)
           ["B1"; String "255" ""]%string).
  - check_arguments.
  - repeat constructor.
  - simpl. lia.
  - reflexivity.
  - reflexivity.
  - reflexivity.
  - reflexivity.
Defined.

(** X20: what Python reads from the [countries_to_balance] property of a
    [LoadFlowParameters] made by [initLoadFlowParameters], after whatever
    calls of the setter: the list that the last call was given (the list
    of the default configuration when there was no call), each string up
    to its first NUL character, when each of these is well-formed UTF-8;
    the exception of the decoder otherwise.  The object is as it was in
    both cases. *)
Theorem countries_to_balance_property_text `{RT : Runtime} (d : pointer)
    (h : heap) (cfg : load_flow_parameters) (cs : list string)
    (updates : list (list string)) :
  parameters_at h d cfg cs →
  ∃ new,
    LoadFlowParameters_after d updates h = Ok (Ptr (List.length h)) (h ++ new) ∧
    countries_to_balance_property (Ptr (List.length h)) (h ++ new)
    = if forallb valid_utf8 (until_NUL <$> default cs (last updates))
      then Ok (until_NUL <$> default cs (last updates)) (h ++ new)
      else Throw unicode_decode_error (h ++ new).
Proof.
  intros Hd.
  destruct (set_countries_to_balance_each h cfg updates 0 cs) as (k & Hrun).
  exists (parameters_cells (List.length h) cfg k (default cs (last updates))).
  split.
  - unfold LoadFlowParameters_after.
    rewrite (bind_Ok _ _ _ _ _ (initLoadFlowParameters_run d h cfg cs Hd)).
    rewrite <- parameters_cells_0. now rewrite (bind_Ok _ _ _ _ _ Hrun).
  - unfold countries_to_balance_property.
    rewrite (bind_Ok _ _ _ _ _
      (get_countries_to_balance_Ok _ _ _ _ (parameters_at_cells h cfg k _))).
    destruct (forallb _ _) eqn:Htext.
    + apply map_M_py_str, Forall_forall. intros s Hs.
      apply (proj1 (forallb_forall _ _) Htext), list_elem_of_In, Hs.
    + now apply map_M_py_str_Throw.
Qed.

Lemma countries_to_balance_property_text_witness :
  ∃ new,
    LoadFlowParameters_after (RT := cxx) (Ptr 0)
      [["DE"]; [String "255" ""]]%string configuration_heap
    = Ok (Ptr 4) (configuration_heap ++ new) ∧
    countries_to_balance_property (Ptr 4) (configuration_heap ++ new)
    = Throw unicode_decode_error (configuration_heap ++ new).
Proof.
  apply (countries_to_balance_property_text (RT := cxx) (Ptr 0)
           configuration_heap default_configuration ["FR"; "BE"]%string
           [["DE"]; [String "255" ""]]%string).
  split; [reflexivity|]. split; [reflexivity|].
  exists [Ptr 1; Ptr 2]. split; [reflexivity|].
  repeat constructor; eexists; split; reflexivity.
Defined.


